(** * Scorekeeping console: match state machine of [scripts.js]

    A shallow embedding of the in-browser scorekeeper ([DataManager],
    [TimerManager], [SecondsTimerManager] and [ScorekeeperApp]) together
    with the properties of its event log, scoreboard, timeout balances,
    halftime triggers and export.

    Conventions of the embedding.
    - JavaScript numbers that the program only ever produces through
      [parseInt], counters and integer constants are [Z].
    - [null]/[undefined]/missing values are [option]; the falsy empty
      string of a team letter is [None].
    - The [Type] strings of a log entry range over the five literals the
      program writes, so they are an enumeration.
    - A JavaScript string is a sequence of UTF-16 code units.  The model
      holds the strings whose code units are all below 256, one [ascii]
      for each unit: [String.length] is the [length] of the JavaScript
      string and [nat_of_ascii] gives the unit.  Strings with a unit
      from 256 on are outside the model.
    - Methods of the singleton objects are functions from the application
      state to the application state; the state also carries the parts of
      the environment the handlers read (the wall clock [Date.now()], the
      values of the few DOM inputs that drive control flow) and the
      notifications they emit.  Table rendering, CSS classes and
      [localStorage] writes are not part of the state; every DOM element a
      handler looks up is taken to exist, and a write to [localStorage]
      to succeed.
    - Times are milliseconds since the epoch, in [Z].  A [Date] holds
      at most 8.64e15 of them either side of the epoch; the timers are
      the code's for deadlines within that range. *)

From Stdlib Require Import ZArith List String Ascii Bool Lia.
From Stdlib Require Import DecimalString DecimalZ.
Import ListNotations.

Local Open Scope string_scope.
Local Open Scope Z_scope.
Local Open Scope list_scope.

(** ** Constants ([CONFIG], [SPECIAL_OPTIONS]) *)

Module CONFIG.
Definition DEFAULT_TIMER_MINUTES : Z := 100.
Definition AUTO_SAVE_INTERVAL : Z := 2000.
Definition HALFTIME_SCORE_TARGET : Z := 8.
End CONFIG.

(** ** Strings *)

(** [Number.prototype.toString] on an integer: its decimal numeral. *)
Definition toString (z : Z) : string := NilZero.string_of_int (Z.to_int z).

(** The white space and line terminator units that
    [String.prototype.trim] strips, among the units below 256: U+0009 to
    U+000D, U+0020 and U+00A0.  (The others it strips, U+1680, U+2000 to
    U+200A, U+2028, U+2029, U+202F, U+205F, U+3000 and U+FEFF, are units
    from 256 on.) *)
Definition isWhitespace (c : ascii) : bool :=
  let n := nat_of_ascii c in
  (Nat.eqb n 32 || (Nat.leb 9 n && Nat.leb n 13) || Nat.eqb n 160)%bool.

Fixpoint trimStart (s : string) : string :=
  match s with
  | EmptyString => EmptyString
  | String c rest => if isWhitespace c then trimStart rest else s
  end.

Fixpoint trimEnd (s : string) : string :=
  match s with
  | EmptyString => EmptyString
  | String c rest =>
      match trimEnd rest with
      | EmptyString => if isWhitespace c then EmptyString else String c EmptyString
      | rest' => String c rest'
      end
  end.

(** [String.prototype.trim]. *)
Definition trim (s : string) : string := trimEnd (trimStart s).

(** The no-break space [U+00A0]. *)
Definition nbsp : ascii := ascii_of_nat 160.

(** JavaScript truthiness of a string, and [a || b] on strings. *)
Definition truthy (s : string) : bool :=
  match s with EmptyString => false | _ => true end.

Definition orElse (a b : string) : string := if truthy a then a else b.

(** ** Data model *)

Inductive TeamKey := TeamA | TeamB.

Definition TeamKey_eqb (a b : TeamKey) : bool :=
  match a, b with
  | TeamA, TeamA | TeamB, TeamB => true
  | _, _ => false
  end.

Definition letterEqb (a b : option TeamKey) : bool :=
  match a, b with
  | None, None => true
  | Some x, Some y => TeamKey_eqb x y
  | _, _ => false
  end.

(** The values written to [Type]: ['score'], ['timeout'], ['halftime'],
    ['matchstart'], ['stoppage']. *)
Inductive LogType := score | timeout | halftime | matchstart | stoppage.

Definition LogType_eqb (a b : LogType) : bool :=
  match a, b with
  | score, score | timeout, timeout | halftime, halftime
  | matchstart, matchstart | stoppage, stoppage => true
  | _, _ => false
  end.

(** [abbaStart]: ['M'], ['F'] or ['NONE']. *)
Inductive Abba := M | F | NONE.

Inductive NotificationType := info | success | warning | error.

(** A log entry as built by [createLogObject]. *)
Record LogEntry := mkLog {
  scoreID : string;
  GameID : string;
  Time : string;
  Team : string;
  TeamName : string;
  TeamLetter : option TeamKey;
  Score : string;
  Assist : string;
  Type_ : LogType;
  Event : string;
  EventType : string;
  HalftimeReason : option string
}.

Record GameSettings := mkSettings {
  matchDuration : Z;
  halftimeDuration : Z;
  halftimeBreakDuration : Z;
  timeoutDuration : Z;
  timeoutsTotal : Z;
  timeoutsPerHalf : Z
}.

Record TeamTimeouts := mkTeamTimeouts {
  totalRemaining : Z;
  halfRemaining : Z
}.

(** [timeoutState]: an object with the two keys [A] and [B]. *)
Record TimeoutState := mkTimeoutState {
  stateA : TeamTimeouts;
  stateB : TeamTimeouts
}.

Definition teamState (ts : TimeoutState) (team : TeamKey) : TeamTimeouts :=
  match team with TeamA => stateA ts | TeamB => stateB ts end.

Definition setTeamState (team : TeamKey) (st : TeamTimeouts) (ts : TimeoutState)
  : TimeoutState :=
  match team with
  | TeamA => mkTimeoutState st (stateB ts)
  | TeamB => mkTimeoutState (stateA ts) st
  end.

(** The saved [timeoutState] of a snapshot: any of its numbers may be
    missing or not a number. *)
Record SavedTeamTimeouts := mkSavedTeam {
  savedTotalRemaining : option Z;
  savedHalfRemaining : option Z
}.

Record SavedTimeoutState := mkSavedState {
  savedA : option SavedTeamTimeouts;
  savedB : option SavedTeamTimeouts
}.

(** The [gameState] aggregate that [autoSave] writes.  Its [scoreLogs]
    member is the very array held by the data manager (the two names alias
    one array), so it is read through [scoreLogs] of [DataManager]; the
    roster text areas and the time field it mirrors are display values and
    are left out. *)
Record GameState := mkGameState {
  gs_teamAScore : Z;
  gs_teamBScore : Z;
  gs_teamAName : string;
  gs_teamBName : string;
  gs_matchDuration : Z;
  gs_halftimeDuration : Z;
  gs_halftimeBreakDuration : Z;
  gs_timeoutDuration : Z;
  gs_timeoutsTotal : Z;
  gs_timeoutsPerHalf : Z;
  gs_abbaStart : Abba;
  gs_stoppageActive : bool;
  gs_timeoutState : TimeoutState;
  gs_halftimeReasonResolved : option string;
  gs_matchStarted : bool;
  gs_timestamp : Z
}.

(** [teamsData]: a JavaScript object from team name to player names, kept
    in key insertion order. *)
Definition TeamsData := list (string * list string).

Record DataManager := mkData {
  teamsData : TeamsData;
  scoreLogs : list LogEntry;
  gameState : GameState;
  isDirty : bool
}.

Record TimerManager := mkTimer {
  isRunning : bool;
  endTime : option Z;
  remainingTimeMs : option Z;
  defaultMinutes : Z
}.

Record SecondsTimerManager := mkSecTimer {
  sec_isRunning : bool;
  sec_endTime : option Z;
  sec_remainingTimeMs : option Z;
  defaultSeconds : Z
}.

(** The application object.  The last fields are the environment: the
    values of the [teamA]/[teamB] selects, the numeric inputs
    [countdownTime] and [countdownTimeSec] (as [parseInt] reads them),
    [popup.dataset.team] of the score popup, the notifications shown so
    far (newest first) and the current reading of [Date.now()]. *)
Record App := mkApp {
  dataManager : DataManager;
  timerManager : TimerManager;
  secondsTimer : SecondsTimerManager;
  gameSettings : GameSettings;
  timeoutState : TimeoutState;
  teamAScore : Z;
  teamBScore : Z;
  currentEditID : option string;
  currentTimeoutEditID : option string;
  currentHalftimeEditID : option string;
  halftimeTriggered : bool;
  halftimeAutoSuppressed : bool;
  halftimePendingReason : option string;
  halftimeReasonResolved : option string;
  isRestoring : bool;
  abbaStart : Abba;
  matchStarted : bool;
  gameStoppageActive : bool;
  hardCapReached : bool;
  stoppagePausedMainTimer : bool;
  stoppagePausedSecondsTimer : bool;
  teamA : string;
  teamB : string;
  countdownTime : option Z;
  countdownTimeSec : option Z;
  popupTeam : option TeamKey;
  notifications : list (string * NotificationType);
  now : Z
}.

(** *** Field assignment

    [this.f = v] is [set_f v]: the record rebuilt with one field replaced.
    The setters are derived from the eta-expansion of the record. *)

Definition etaApp (r : App) : App :=
  mkApp (dataManager r) (timerManager r) (secondsTimer r) (gameSettings r)
    (timeoutState r) (teamAScore r) (teamBScore r) (currentEditID r)
    (currentTimeoutEditID r) (currentHalftimeEditID r) (halftimeTriggered r)
    (halftimeAutoSuppressed r) (halftimePendingReason r)
    (halftimeReasonResolved r) (isRestoring r) (abbaStart r) (matchStarted r)
    (gameStoppageActive r) (hardCapReached r) (stoppagePausedMainTimer r)
    (stoppagePausedSecondsTimer r) (teamA r) (teamB r) (countdownTime r)
    (countdownTimeSec r) (popupTeam r) (notifications r) (now r).

Ltac setter eta proj :=
  let v := fresh "v" in
  let r := fresh "r" in
  intros v r;
  let e := eval unfold eta in (eta r) in
  match eval pattern (proj r) in e with
  | ?g _ => let t := eval cbv beta in (g v) in exact t
  end.

Definition set_dataManager : DataManager -> App -> App :=
  ltac:(setter etaApp dataManager).
Definition set_timerManager : TimerManager -> App -> App :=
  ltac:(setter etaApp timerManager).
Definition set_secondsTimer : SecondsTimerManager -> App -> App :=
  ltac:(setter etaApp secondsTimer).
Definition set_gameSettings : GameSettings -> App -> App :=
  ltac:(setter etaApp gameSettings).
Definition set_timeoutState : TimeoutState -> App -> App :=
  ltac:(setter etaApp timeoutState).
Definition set_teamAScore : Z -> App -> App :=
  ltac:(setter etaApp teamAScore).
Definition set_teamBScore : Z -> App -> App :=
  ltac:(setter etaApp teamBScore).
Definition set_currentEditID : option string -> App -> App :=
  ltac:(setter etaApp currentEditID).
Definition set_currentTimeoutEditID : option string -> App -> App :=
  ltac:(setter etaApp currentTimeoutEditID).
Definition set_currentHalftimeEditID : option string -> App -> App :=
  ltac:(setter etaApp currentHalftimeEditID).
Definition set_halftimeTriggered : bool -> App -> App :=
  ltac:(setter etaApp halftimeTriggered).
Definition set_halftimeAutoSuppressed : bool -> App -> App :=
  ltac:(setter etaApp halftimeAutoSuppressed).
Definition set_halftimePendingReason : option string -> App -> App :=
  ltac:(setter etaApp halftimePendingReason).
Definition set_halftimeReasonResolved : option string -> App -> App :=
  ltac:(setter etaApp halftimeReasonResolved).
Definition set_isRestoring : bool -> App -> App :=
  ltac:(setter etaApp isRestoring).
Definition set_abbaStart : Abba -> App -> App :=
  ltac:(setter etaApp abbaStart).
Definition set_matchStarted : bool -> App -> App :=
  ltac:(setter etaApp matchStarted).
Definition set_gameStoppageActive : bool -> App -> App :=
  ltac:(setter etaApp gameStoppageActive).
Definition set_hardCapReached : bool -> App -> App :=
  ltac:(setter etaApp hardCapReached).
Definition set_stoppagePausedMainTimer : bool -> App -> App :=
  ltac:(setter etaApp stoppagePausedMainTimer).
Definition set_stoppagePausedSecondsTimer : bool -> App -> App :=
  ltac:(setter etaApp stoppagePausedSecondsTimer).
Definition set_teamA : string -> App -> App :=
  ltac:(setter etaApp teamA).
Definition set_teamB : string -> App -> App :=
  ltac:(setter etaApp teamB).
Definition set_countdownTime : option Z -> App -> App :=
  ltac:(setter etaApp countdownTime).
Definition set_countdownTimeSec : option Z -> App -> App :=
  ltac:(setter etaApp countdownTimeSec).
Definition set_popupTeam : option TeamKey -> App -> App :=
  ltac:(setter etaApp popupTeam).
Definition set_notifications : list (string * NotificationType) -> App -> App :=
  ltac:(setter etaApp notifications).
Definition set_now : Z -> App -> App :=
  ltac:(setter etaApp now).

(** ** [Utils] *)

(** [Utils.showNotification]: the message reaches the operator (an alert
    for ['error'], the console or the banner otherwise). *)
Definition showNotification (message : string) (type : NotificationType)
  (s : App) : App :=
  set_notifications ((message, type) :: notifications s) s.

(** The character [U+0022]. *)
Definition dquote : ascii := ascii_of_nat 34.

Fixpoint needsQuoting (s : string) : bool :=
  match s with
  | EmptyString => false
  | String c rest =>
      let n := nat_of_ascii c in
      (Nat.eqb n 34 || Nat.eqb n 44 || Nat.eqb n 10 || Nat.eqb n 13
       || needsQuoting rest)%bool
  end.

Fixpoint doubleQuotes (s : string) : string :=
  match s with
  | EmptyString => EmptyString
  | String c rest =>
      if Nat.eqb (nat_of_ascii c) 34
      then String dquote (String dquote (doubleQuotes rest))
      else String c (doubleQuotes rest)
  end.

Definition csvField (s : string) : string :=
  if needsQuoting s
  then String dquote (doubleQuotes s ++ String dquote EmptyString)%string
  else s.

Fixpoint join (sep : string) (l : list string) : string :=
  match l with
  | [] => EmptyString
  | [x] => x
  | x :: rest => (x ++ sep ++ join sep rest)%string
  end.

(** [Utils.sanitizeFilename] with its default fallback. *)
Definition isUnsafeFilenameChar (c : ascii) : bool :=
  let n := nat_of_ascii c in
  (Nat.leb n 31
   || existsb (Nat.eqb n) [60; 62; 58; 34; 47; 92; 124; 63; 42]%nat)%bool.

Fixpoint replaceUnsafe (s : string) : string :=
  match s with
  | EmptyString => EmptyString
  | String c rest =>
      String (if isUnsafeFilenameChar c then "_"%char else c) (replaceUnsafe rest)
  end.

Definition sanitizeFilename (name : string) : string :=
  let base := orElse (trim name) "Game" in
  substring 0 120 (replaceUnsafe base).

(** [Utils.toCSVLine]. *)
Definition toCSVLine (fields : list string) : string :=
  join "," (map csvField fields).

(** [Utils.parseCSV]: the loop over the characters of the text, carrying
    the rows and the row read so far, the current cell and the quoting
    flag; the last cell and row are pushed at the end of the text. *)
Definition isChar (code : nat) (c : ascii) : bool :=
  Nat.eqb (nat_of_ascii c) code.

Definition hasContent (row : list string) (cell : string) : bool :=
  negb (String.eqb cell EmptyString) || negb (Nat.eqb (List.length row) 0).

Fixpoint parseLoop (text : string) (rows : list (list string))
  (row : list string) (cell : string) (inQuotes : bool) : list (list string) :=
  match text with
  | EmptyString => if hasContent row cell then rows ++ [row ++ [cell]] else rows
  | String char rest =>
      if isChar 34 char then
        match inQuotes, rest with
        | true, String next rest' =>
            if isChar 34 next
            then parseLoop rest' rows row (cell ++ String dquote EmptyString) inQuotes
            else parseLoop rest rows row cell (negb inQuotes)
        | _, _ => parseLoop rest rows row cell (negb inQuotes)
        end
      else if isChar 44 char && negb inQuotes then
        parseLoop rest rows (row ++ [cell]) EmptyString inQuotes
      else if (isChar 10 char || isChar 13 char) && negb inQuotes then
        if hasContent row cell
        then parseLoop rest (rows ++ [row ++ [cell]]) [] EmptyString inQuotes
        else parseLoop rest rows row cell inQuotes
      else if negb (isChar 13 char)
      then parseLoop rest rows row (cell ++ String char EmptyString) inQuotes
      else parseLoop rest rows row cell inQuotes
  end.

Definition parseCSV (text : string) : list (list string) :=
  parseLoop text [] [] EmptyString false.

(** [teams[teamName] = players] on an object kept as the list of its own
    keys and values: an existing key keeps its place.  (JavaScript lists
    keys that are array indices first; the object is read by key below.
    An assignment to the key [__proto__] sets the prototype and adds no
    key; the statements about the object leave that name out.) *)
Fixpoint assign (key : string) (value : list string)
  (teams : list (string * list string)) : list (string * list string) :=
  match teams with
  | [] => [(key, value)]
  | (k, v) :: rest =>
      if String.eqb k key then (k, value) :: rest
      else (k, v) :: assign key value rest
  end.

(** The own property [teams[teamName]]; [None] when the object holds no
    such key. *)
Fixpoint lookupTeam (key : string) (teams : list (string * list string))
  : option (list string) :=
  match teams with
  | [] => None
  | (k, v) :: rest => if String.eqb k key then Some v else lookupTeam key rest
  end.

(** The players of one column: the trimmed non-empty cells of the rows
    below the header ([rows[r][colIdx] || '']). *)
Definition columnPlayers (colIdx : nat) (body : list (list string)) : list string :=
  filter truthy (map (fun row => trim (nth colIdx row EmptyString)) body).

Fixpoint fillTeams (header : list string) (colIdx : nat)
  (body : list (list string)) (teams : list (string * list string))
  : list (string * list string) :=
  match header with
  | [] => teams
  | teamName :: rest =>
      fillTeams rest (S colIdx) body (assign teamName (columnPlayers colIdx body) teams)
  end.

(** [Utils.csvToTeamsMap]. *)
Definition csvToTeamsMap (rows : list (list string)) : list (string * list string) :=
  match rows with
  | [] => []
  | first :: body => fillTeams (filter truthy (map trim first)) 0 body []
  end.


(** The strings free of a carriage return, and the rows that
    [Utils.parseCSV] does not drop: a row is lost when it has no field or a
    single empty one. *)
Fixpoint hasChar (code : nat) (s : string) : bool :=
  match s with
  | EmptyString => false
  | String c rest => isChar code c || hasChar code rest
  end.

Definition properRow (row : list string) : bool :=
  match row with
  | [] => false
  | [field] => truthy field
  | _ => true
  end.

Definition startsWithQuote (s : string) : bool :=
  match s with
  | String c _ => isChar 34 c
  | EmptyString => false
  end.


Fixpoint anyChar (p : ascii -> bool) (s : string) : bool :=
  match s with
  | EmptyString => false
  | String c rest => p c || anyChar p rest
  end.

(** The last position of a name in a header, counted from [from]. *)
Fixpoint lastIndexOf (key : string) (header : list string) (from : nat)
  : option nat :=
  match header with
  | [] => None
  | name :: rest =>
      match lastIndexOf key rest (S from) with
      | Some i => Some i
      | None => if String.eqb name key then Some from else None
      end
  end.


(** ** [DataManager] *)

Definition markDirty (d : DataManager) : DataManager :=
  mkData (teamsData d) (scoreLogs d) (gameState d) true.

Definition updateGameState (updates : GameState -> GameState) (d : DataManager)
  : DataManager :=
  markDirty (mkData (teamsData d) (scoreLogs d) (updates (gameState d)) (isDirty d)).

(** [saveCurrentState]: a dirty manager writes its snapshot to storage
    and is clean again; the write is taken to succeed. *)
Definition saveCurrentState (d : DataManager) : DataManager :=
  if negb (isDirty d) then d
  else mkData (teamsData d) (scoreLogs d) (gameState d) false.

Definition addScoreLog (logEntry : LogEntry) (d : DataManager) : DataManager :=
  markDirty (mkData (teamsData d) (scoreLogs d ++ [logEntry]) (gameState d) (isDirty d)).

(** [Array.prototype.findIndex]; [None] is [-1]. *)
Fixpoint findIndex {X : Type} (p : X -> bool) (l : list X) : option nat :=
  match l with
  | [] => None
  | x :: rest =>
      if p x then Some O
      else match findIndex p rest with
           | Some i => Some (S i)
           | None => None
           end
  end.

(** Replace the element at an index that is in range. *)
Fixpoint updateAt {X : Type} (i : nat) (f : X -> X) (l : list X) : list X :=
  match l, i with
  | [], _ => []
  | x :: rest, O => f x :: rest
  | x :: rest, S j => x :: updateAt j f rest
  end.

(** [splice(index, 1)]: the remaining list and the removed element. *)
Fixpoint splice1 {X : Type} (i : nat) (l : list X) : list X * option X :=
  match l, i with
  | [], _ => ([], None)
  | x :: rest, O => (rest, Some x)
  | x :: rest, S j => let (rest', r) := splice1 j rest in (x :: rest', r)
  end.

Definition hasID (id : string) (log : LogEntry) : bool :=
  String.eqb (scoreID log) id.

(** [updateScoreLog]: [Object.assign] on the first entry with this id. *)
Definition updateScoreLog (id : string) (updates : LogEntry -> LogEntry)
  (d : DataManager) : DataManager * bool :=
  match findIndex (hasID id) (scoreLogs d) with
  | Some index =>
      (markDirty (mkData (teamsData d) (updateAt index updates (scoreLogs d))
                    (gameState d) (isDirty d)), true)
  | None => (d, false)
  end.

Definition getScoreLog (id : string) (d : DataManager) : option LogEntry :=
  find (hasID id) (scoreLogs d).

Definition clearScoreLogs (d : DataManager) : DataManager :=
  markDirty (mkData (teamsData d) [] (gameState d) (isDirty d)).

Definition removeScoreLog (id : string) (d : DataManager)
  : DataManager * option LogEntry :=
  match findIndex (hasID id) (scoreLogs d) with
  | None => (d, None)
  | Some index =>
      let (rest, removed) := splice1 index (scoreLogs d) in
      (markDirty (mkData (teamsData d) rest (gameState d) (isDirty d)), removed)
  end.

Definition defaultTimeoutState : TimeoutState :=
  mkTimeoutState (mkTeamTimeouts 2 2) (mkTeamTimeouts 2 2).

(** The literal of [resetGameState] (and of [loadGameState]'s default). *)
Definition defaultGameState (timestamp : Z) : GameState :=
  mkGameState 0 0 EmptyString EmptyString
    CONFIG.DEFAULT_TIMER_MINUTES 55 7 75 2 0 M false
    defaultTimeoutState None false timestamp.

Definition resetGameState (timestamp : Z) (d : DataManager) : DataManager :=
  markDirty (mkData (teamsData d) [] (defaultGameState timestamp) (isDirty d)).

(** ** [TimerManager] and [SecondsTimerManager]

    [Date.parse] applied to a [Date] goes through its string form, which
    carries whole seconds only. *)
Definition Date_parse (t : Z) : Z := 1000 * (t / 1000).

(** The time values a [Date] holds: at most 8.64e15 milliseconds either
    side of the epoch.  [new Date] of a number outside that range is an
    invalid date, on which [toISOString] (called by [saveTimerState] for a
    deadline) raises a [RangeError]; the timers below are the code's for
    deadlines within the range. *)
Definition isValidDate (t : Z) : bool := Z.abs t <=? 8640000000000000.

(** [getTimeRemaining(endtime).total]; the minutes and seconds members
    only feed the display.  The timers call it on their deadline, which a
    running timer always has. *)
Definition getTimeRemaining (endtime : Z) (now_ : Z) : Z :=
  Date_parse endtime - Date_parse now_.

Definition timer_stop (now_ : Z) (t : TimerManager) : TimerManager :=
  if negb (isRunning t) then t
  else
    let remaining :=
      match endTime t with
      | Some e => Some (Z.max 0 (getTimeRemaining e now_))
      | None => remainingTimeMs t
      end in
    mkTimer false None remaining (defaultMinutes t).

Definition timer_reset (minutes : Z) (now_ : Z) (t : TimerManager) : TimerManager :=
  let t := timer_stop now_ t in
  mkTimer (isRunning t) None (Some (minutes * 60 * 1000)) (defaultMinutes t).

(** The part of [start] before the first tick callback. *)
Definition timer_begin (now_ : Z) (t : TimerManager) : TimerManager :=
  let end1 :=
    match remainingTimeMs t with
    | Some r => Some (now_ + r)
    | None => endTime t
    end in
  let end2 :=
    match end1 with
    | Some e => Some e
    | None => Some (now_ + defaultMinutes t * 60 * 1000)
    end in
  mkTimer true end2 None (defaultMinutes t).

Definition getRemainingSeconds (now_ : Z) (t : TimerManager) : Z :=
  match isRunning t, endTime t with
  | true, Some e => getTimeRemaining e now_ / 1000
  | _, _ =>
      match remainingTimeMs t with
      | Some r => r / 1000
      | None => 0
      end
  end.

(** [n || d] on numbers. *)
Definition orDefault (n : option Z) (d : Z) : Z :=
  match n with
  | Some v => if v =? 0 then d else v
  | None => d
  end.

Definition sec_start (input : option Z) (now_ : Z) (t : SecondsTimerManager)
  : SecondsTimerManager :=
  if sec_isRunning t then t
  else
    let remaining :=
      match sec_remainingTimeMs t with
      | Some r => r
      | None => orDefault input (defaultSeconds t) * 1000
      end in
    mkSecTimer true (Some (now_ + remaining)) (Some remaining) (defaultSeconds t).

Definition sec_stop (now_ : Z) (t : SecondsTimerManager) : SecondsTimerManager :=
  if negb (sec_isRunning t) then t
  else
    let remaining :=
      match sec_endTime t with
      | Some e => Some (Z.max 0 (getTimeRemaining e now_))
      | None => sec_remainingTimeMs t
      end in
    mkSecTimer false None remaining (defaultSeconds t).

Definition sec_reset (seconds : Z) (now_ : Z) (t : SecondsTimerManager)
  : SecondsTimerManager :=
  let t := sec_stop now_ t in
  let secs := Z.max 1 (orDefault (Some seconds) (defaultSeconds t)) in
  mkSecTimer (sec_isRunning t) (sec_endTime t) (Some (secs * 1000)) (defaultSeconds t).

Definition sec_tick (now_ : Z) (t : SecondsTimerManager) : SecondsTimerManager :=
  match sec_endTime t with
  | Some e =>
      if getTimeRemaining e now_ <=? 0
      then let t := sec_stop now_ t in
           mkSecTimer (sec_isRunning t) (sec_endTime t) (Some 0) (defaultSeconds t)
      else t
  | None => t
  end.

(** ** [ScorekeeperApp] *)

Section Scorekeeper.

(** [new Date(t).toLocaleString()]: how the host locale renders an
    instant. *)
Variable toLocaleString : Z -> string.

(** JavaScript truthiness of a nullable string. *)
Definition truthyOpt (o : option string) : bool :=
  match o with Some v => truthy v | None => false end.

Definition isSome {X : Type} (o : option X) : bool :=
  match o with Some _ => true | None => false end.

Definition usesPerHalfTimeouts (s : App) : bool :=
  0 <? timeoutsPerHalf (gameSettings s).

Definition getTimeoutStateSnapshot (s : App) : TimeoutState :=
  let perHalfEnabled := usesPerHalfTimeouts s in
  let makeCopy := fun teamKey =>
    let source := teamState (timeoutState s) teamKey in
    let total := totalRemaining source in
    let half := if perHalfEnabled then halfRemaining source else total in
    mkTeamTimeouts total half in
  mkTimeoutState (makeCopy TeamA) (makeCopy TeamB).

Definition autoSave (s : App) : App :=
  if isRestoring s then s
  else
    let currentState :=
      mkGameState (teamAScore s) (teamBScore s) (teamA s) (teamB s)
        (matchDuration (gameSettings s)) (halftimeDuration (gameSettings s))
        (halftimeBreakDuration (gameSettings s)) (timeoutDuration (gameSettings s))
        (timeoutsTotal (gameSettings s)) (timeoutsPerHalf (gameSettings s))
        (abbaStart s) (gameStoppageActive s) (getTimeoutStateSnapshot s)
        (halftimeReasonResolved s) (matchStarted s) (now s) in
    set_dataManager
      (saveCurrentState
         (updateGameState (fun _ => currentState) (dataManager s))) s.

Definition getEventTypeLabel (type : LogType) : string :=
  match type with
  | matchstart => "Start"
  | timeout => "TimeOut"
  | stoppage => "Stoppage"
  | halftime => "HalfTime"
  | _ => "Score"
  end.

(** The [overrides] argument of [createLogObject]: the keys
    [recordSpecialEvent] passes, with the three team keys present only
    when it blanks them. *)
Record Overrides := mkOverrides {
  o_Type : LogType;
  o_Event : string;
  o_Score : string;
  o_Assist : string;
  o_EventType : string;
  o_HalftimeReason : option string;
  o_Team : option (string * string * option TeamKey)
}.

Definition createLogObject (id : string) (teamLetter : option TeamKey)
  (scorer assist : string) (overrides : option Overrides) (s : App) : LogEntry :=
  let teamAName := teamA s in
  let teamBName := teamB s in
  let gameID := (teamAName ++ " vs " ++ teamBName)%string in
  let teamName :=
    match teamLetter with
    | Some TeamA => teamAName
    | Some TeamB => teamBName
    | None => EmptyString
    end in
  let baseLog :=
    mkLog id gameID (toLocaleString (now s)) teamName teamName teamLetter
      scorer assist score EmptyString (getEventTypeLabel score) None in
  match overrides with
  | None => baseLog
  | Some o =>
      let '(team, name, letter) :=
        match o_Team o with
        | Some t => t
        | None => (Team baseLog, TeamName baseLog, TeamLetter baseLog)
        end in
      mkLog id gameID (Time baseLog) team name letter (o_Score o) (o_Assist o)
        (o_Type o) (o_Event o) (o_EventType o) (o_HalftimeReason o)
  end.

Definition recordSpecialEvent (type : LogType) (teamLetter : option TeamKey)
  (extra : option string) (s : App) : App * LogEntry :=
  let displayLabel :=
    match type with
    | timeout => "Time out"
    | halftime => "HT"
    | matchstart => "MatchStart"
    | stoppage => "STOP"
    | score => "SCORE"
    end in
  let id := toString (now s) in
  let overrides :=
    mkOverrides type displayLabel EmptyString EmptyString
      (getEventTypeLabel type) extra
      (if isSome teamLetter then None
       else Some (EmptyString, EmptyString, None)) in
  let logEntry :=
    createLogObject id teamLetter EmptyString EmptyString (Some overrides) s in
  let s := set_dataManager (addScoreLog logEntry (dataManager s)) s in
  let s := autoSave s in
  (s, logEntry).

Definition getLogType (logEntry : LogEntry) : LogType := Type_ logEntry.

Definition isScoreLog (logEntry : LogEntry) : bool :=
  LogType_eqb (getLogType logEntry) score.

Definition getTeamLetterFromLog (logEntry : LogEntry) (s : App)
  : option TeamKey :=
  match TeamLetter logEntry with
  | Some letter => Some letter
  | None =>
      let candidate := orElse (TeamName logEntry) (Team logEntry) in
      if String.eqb candidate (teamA s) then Some TeamA
      else if String.eqb candidate (teamB s) then Some TeamB
      else None
  end.

(** [computeAbbaForIndex], as a function of [this.abbaStart]. *)
Definition computeAbbaForIndex (abbaStart_ : Abba) (index : Z) : string :=
  match abbaStart_ with
  | NONE => EmptyString
  | _ =>
      let start := match abbaStart_ with F => "F" | _ => "M" end in
      let other := if String.eqb start "M" then "F" else "M" in
      if index =? 0 then start
      else
        let adjusted := index - 1 in
        let block := adjusted / 2 in
        if Z.rem block 2 =? 0 then other else start
  end.


Definition tableRows (d : DataManager) : list LogEntry :=
  filter (fun logEntry => negb (LogType_eqb (getLogType logEntry) matchstart))
    (scoreLogs d).


Definition checkForScoreCap (silent : bool) (s : App) : App :=
  let CAP := 15 in
  let reached := (CAP <=? teamAScore s) || (CAP <=? teamBScore s) in
  if reached && negb (hardCapReached s) then
    let s := set_hardCapReached true s in
    let s := set_timerManager (timer_stop (now s) (timerManager s)) s in
    let s := set_secondsTimer (sec_stop (now s) (secondsTimer s)) s in
    if negb silent
    then showNotification "Score cap reached. Timers paused." info s
    else s
  else if negb reached && hardCapReached s then
    set_hardCapReached false s
  else s.

(** The last element of a list ([logs[logs.length - 1]]). *)
Definition lastOf {X : Type} (l : list X) : option X :=
  match rev l with
  | [] => None
  | x :: _ => Some x
  end.

Definition updateHalftimeTracking (s : App) : App :=
  let halftimeLogs :=
    filter (fun log => LogType_eqb (Type_ log) halftime)
      (scoreLogs (dataManager s)) in
  let latest := lastOf halftimeLogs in
  let s := set_halftimeTriggered (isSome latest) s in
  let s := set_currentHalftimeEditID (option_map scoreID latest) s in
  let s := if halftimeTriggered s then set_halftimePendingReason None s else s in
  match latest with
  | None => set_halftimeReasonResolved None s
  | Some log =>
      if negb (truthyOpt (halftimeReasonResolved s))
      then set_halftimeReasonResolved
             (Some (match HalftimeReason log with
                    | Some r => orElse r "restored"
                    | None => "restored"
                    end)) s
      else s
  end.

(** [handleHalftime({ silent, reason })]; the halftime button calls it with
    [silent = false] and [reason = 'manual']. *)
Definition handleHalftime (silent : bool) (reason : string) (s : App)
  : App * bool :=
  if halftimeTriggered s then
    ((if negb silent
      then showNotification "Halftime has already been recorded." warning s
      else s), false)
  else if negb (matchStarted s) then
    ((if negb silent
      then showNotification "Start the match before recording halftime." error s
      else s), false)
  else
    let resetHalf := fun (st : TeamTimeouts) =>
      if usesPerHalfTimeouts s then
        let defaultHalf :=
          Z.min (timeoutsPerHalf (gameSettings s)) (timeoutsTotal (gameSettings s)) in
        mkTeamTimeouts (totalRemaining st) (Z.min defaultHalf (totalRemaining st))
      else
        mkTeamTimeouts (totalRemaining st) (totalRemaining st) in
    let s :=
      set_timeoutState
        (mkTimeoutState (resetHalf (stateA (timeoutState s)))
                        (resetHalf (stateB (timeoutState s)))) s in
    let halftimeBreakMinutes :=
      orDefault (Some (halftimeBreakDuration (gameSettings s))) 7 in
    let halftimeBreakSeconds := Z.max 1 (halftimeBreakMinutes * 60) in
    let s :=
      set_secondsTimer
        (sec_start (countdownTimeSec s) (now s)
           (sec_reset halftimeBreakSeconds (now s) (secondsTimer s))) s in
    let triggerReason := if truthy reason then reason else "manual"%string in
    let s := set_halftimeReasonResolved (Some triggerReason) s in
    let (s, halftimeLog) := recordSpecialEvent halftime None (Some triggerReason) s in
    let s := set_halftimeTriggered true s in
    let s :=
      if truthy (scoreID halftimeLog)
      then set_currentHalftimeEditID (Some (scoreID halftimeLog)) s
      else s in
    let s := updateHalftimeTracking s in
    let s := set_halftimePendingReason None s in
    let s := set_halftimeAutoSuppressed false s in
    let s := if negb silent then showNotification "Halftime recorded." info s else s in
    let s := autoSave s in
    (s, true).

Definition maybeTriggerHalftimeByScore (s : App) : App :=
  if negb (matchStarted s) || halftimeTriggered s then s
  else if truthyOpt (halftimeReasonResolved s) then s
  else
    let leadingScore := Z.max (teamAScore s) (teamBScore s) in
    let fire := fun (s : App) =>
      if CONFIG.HALFTIME_SCORE_TARGET <=? leadingScore then
        let (s, triggered) := handleHalftime true "score" s in
        if triggered
        then showNotification
               ("Halftime reached once a team scored "
                ++ toString CONFIG.HALFTIME_SCORE_TARGET ++ " points.") info s
        else s
      else s in
    if halftimeAutoSuppressed s then
      if leadingScore <? CONFIG.HALFTIME_SCORE_TARGET
      then fire (set_halftimeAutoSuppressed false s)
      else s
    else fire s.

(** [maybeTriggerHalftimeByTime(timeRemaining)]: the argument is
    [timeRemaining.total] when the timer tick supplies it. *)
Definition maybeTriggerHalftimeByTime (timeRemaining : option Z) (s : App) : App :=
  if negb (matchStarted s) || halftimeTriggered s then s
  else
    let thresholdMinutes :=
      Z.max 0 (matchDuration (gameSettings s) - halftimeDuration (gameSettings s)) in
    if thresholdMinutes <=? 0 then s
    else
      let thresholdMs := thresholdMinutes * 60 * 1000 in
      let remainingMs :=
        match timeRemaining with
        | Some total => Z.max 0 total
        | None => Z.max 0 (getRemainingSeconds (now s) (timerManager s) * 1000)
        end in
      let mark := fun (s : App) =>
        if remainingMs <=? thresholdMs then
          if negb (match halftimePendingReason s with
                   | Some r => String.eqb r "clock"
                   | None => false
                   end)
          then showNotification
                 "Halftime reached on the game clock. The break will start after the next point."
                 info (set_halftimePendingReason (Some "clock"%string) s)
          else s
        else s in
      if halftimeAutoSuppressed s then
        if thresholdMs <? remainingMs
        then mark (set_halftimeAutoSuppressed false s)
        else s
      else mark s.

Definition attemptPendingHalftime (s : App) : App :=
  if negb (matchStarted s) || halftimeTriggered s then s
  else if truthyOpt (halftimeReasonResolved s) then s
  else
    match halftimePendingReason s with
    | Some reason =>
        if String.eqb reason "clock" then
          let (s, triggered) := handleHalftime true reason s in
          if negb triggered
          then set_halftimePendingReason (Some reason) s
          else showNotification "Halftime break started after the latest point." info s
        else s
    | None => s
    end.

Definition handleMainTimerTick (total : Z) (s : App) : App :=
  maybeTriggerHalftimeByTime (Some total) s.

(** *** Timers driven by the application *)

(** [timerManager.start()]: the first tick callback runs inside it. *)
Definition timerManager_start (s : App) : App :=
  if isRunning (timerManager s) then s
  else
    let s := set_timerManager (timer_begin (now s) (timerManager s)) s in
    match endTime (timerManager s) with
    | Some e => handleMainTimerTick (getTimeRemaining e (now s)) s
    | None => s
    end.

(** The interval callback installed by [timerManager.start()]. *)
Definition timerManager_interval (s : App) : App :=
  if negb (isRunning (timerManager s)) then s
  else
    match endTime (timerManager s) with
    | Some e =>
        let total := getTimeRemaining e (now s) in
        let s := handleMainTimerTick total s in
        if (total <=? 0) && isRunning (timerManager s)
        then set_timerManager (timer_stop (now s) (timerManager s)) s
        else s
    | None => s
    end.

Definition timerManager_toggle (s : App) : App :=
  if isRunning (timerManager s)
  then set_timerManager (timer_stop (now s) (timerManager s)) s
  else timerManager_start s.

Definition secondsTimer_toggle (s : App) : App :=
  if sec_isRunning (secondsTimer s)
  then set_secondsTimer (sec_stop (now s) (secondsTimer s)) s
  else set_secondsTimer (sec_start (countdownTimeSec s) (now s) (secondsTimer s)) s.

(** The interval callback of the seconds timer. *)
Definition secondsTimer_interval (s : App) : App :=
  if negb (sec_isRunning (secondsTimer s)) then s
  else set_secondsTimer (sec_tick (now s) (secondsTimer s)) s.

Definition handleTimerToggle (s : App) : App :=
  if gameStoppageActive s && negb (isRunning (timerManager s)) then
    showNotification "Resolve game stoppage before starting the game timer." error s
  else if hardCapReached s && negb (isRunning (timerManager s)) then
    showNotification "Score cap reached. Timers remain paused." warning s
  else timerManager_toggle s.

Definition handleTimerReset (s : App) : App :=
  let newTime := orDefault (countdownTime s) CONFIG.DEFAULT_TIMER_MINUTES in
  set_timerManager (timer_reset newTime (now s) (timerManager s)) s.

Definition handleSecTimerToggle (s : App) : App :=
  if gameStoppageActive s && negb (sec_isRunning (secondsTimer s)) then
    showNotification "Resolve game stoppage before starting the timeout timer." error s
  else if hardCapReached s && negb (sec_isRunning (secondsTimer s)) then
    showNotification "Score cap reached. Timers remain paused." warning s
  else secondsTimer_toggle s.

Definition handleSecTimerReset (s : App) : App :=
  let secs := orDefault (countdownTimeSec s) (defaultSeconds (secondsTimer s)) in
  set_secondsTimer (sec_reset secs (now s) (secondsTimer s)) s.

(** *** Match start and stoppage *)

Definition startMatch (s : App) : App :=
  if matchStarted s then s
  else
    let teamAValue := trim (teamA s) in
    let teamBValue := trim (teamB s) in
    if negb (truthy teamAValue) || negb (truthy teamBValue) then
      showNotification "Select both Team A and Team B before starting the match." error s
    else if gameStoppageActive s then
      showNotification "Resolve game stoppage before starting the match." warning s
    else
      let startMinutes :=
        match countdownTime s with
        | Some configuredMinutes =>
            if 0 <? configuredMinutes then configuredMinutes
            else matchDuration (gameSettings s)
        | None => matchDuration (gameSettings s)
        end in
      let t := timerManager s in
      let t := mkTimer (isRunning t) (endTime t) (remainingTimeMs t) startMinutes in
      let s := set_timerManager (timer_reset startMinutes (now s) t) s in
      let s := set_halftimeTriggered false s in
      let s := set_currentHalftimeEditID None s in
      let s := set_halftimePendingReason None s in
      let s := set_halftimeAutoSuppressed false s in
      let s := set_halftimeReasonResolved None s in
      let s := set_hardCapReached false s in
      let s := set_matchStarted true s in
      let s := timerManager_start s in
      let s := fst (recordSpecialEvent matchstart None None s) in
      let s := showNotification "Match started. Score buttons unlocked." info s in
      autoSave s.

Definition pauseAllTimers (s : App) : App :=
  let s := set_stoppagePausedMainTimer (isRunning (timerManager s)) s in
  let s := set_stoppagePausedSecondsTimer (sec_isRunning (secondsTimer s)) s in
  let s :=
    if isRunning (timerManager s)
    then set_timerManager (timer_stop (now s) (timerManager s)) s
    else s in
  if sec_isRunning (secondsTimer s)
  then set_secondsTimer (sec_stop (now s) (secondsTimer s)) s
  else s.

Definition handleStoppageToggle (s : App) : App :=
  let s := set_gameStoppageActive (negb (gameStoppageActive s)) s in
  let s :=
    if gameStoppageActive s then
      let s := pauseAllTimers s in
      let s := fst (recordSpecialEvent stoppage None None s) in
      showNotification "Game stoppage recorded. Timers paused." warning s
    else
      let s := showNotification "Game stoppage cleared." info s in
      let shouldRestartMain := matchStarted s && negb (hardCapReached s) in
      let s :=
        if shouldRestartMain && negb (isRunning (timerManager s))
        then timerManager_start s
        else s in
      let s :=
        if negb (sec_isRunning (secondsTimer s)) && stoppagePausedSecondsTimer s
        then set_secondsTimer
               (sec_start (countdownTimeSec s) (now s) (secondsTimer s)) s
        else s in
      let s := set_stoppagePausedMainTimer false s in
      set_stoppagePausedSecondsTimer false s in
  autoSave s.

(** *** Scoreboard and table rebuild *)

(** The counter loop of [rebuildTableAndCounters] (and of
    [rebuildScoreTable]): one pass over the log, in order. *)
Definition tallyStep (s : App) (acc : Z * Z) (logEntry : LogEntry) : Z * Z :=
  if isScoreLog logEntry then
    match getTeamLetterFromLog logEntry s with
    | Some TeamA => (fst acc + 1, snd acc)
    | Some TeamB => (fst acc, snd acc + 1)
    | None => acc
    end
  else acc.

Definition tally (s : App) (logs : list LogEntry) : Z * Z :=
  fold_left (tallyStep s) logs (0, 0).

Definition rebuildTableAndCounters (s : App) : App :=
  let counters := tally s (scoreLogs (dataManager s)) in
  let s := set_teamAScore (fst counters) s in
  let s := set_teamBScore (snd counters) s in
  let s := checkForScoreCap true s in
  let s := updateHalftimeTracking s in
  maybeTriggerHalftimeByScore s.

(** *** Timeouts *)

Definition clampCount (value : option Z) (fallback : Z) (max : Z) : Z :=
  match value with
  | None => fallback
  | Some v =>
      if v <? 0 then fallback
      else
        let upperBound := Z.max 0 max in
        Z.min v upperBound
  end.

Definition initializeTimeoutState (savedState : option SavedTimeoutState)
  (s : App) : App :=
  let defaultTotal := Z.max 0 (timeoutsTotal (gameSettings s)) in
  let perHalfEnabled := usesPerHalfTimeouts s in
  let defaultHalf :=
    if perHalfEnabled
    then Z.min (timeoutsPerHalf (gameSettings s)) defaultTotal
    else defaultTotal in
  let createState := fun (source : option SavedTeamTimeouts) =>
    let total :=
      clampCount
        (match source with Some src => savedTotalRemaining src | None => None end)
        defaultTotal defaultTotal in
    let half :=
      if perHalfEnabled
      then clampCount
             (match source with Some src => savedHalfRemaining src | None => None end)
             defaultHalf defaultHalf
      else total in
    mkTeamTimeouts total half in
  set_timeoutState
    (mkTimeoutState
       (createState (match savedState with Some st => savedA st | None => None end))
       (createState (match savedState with Some st => savedB st | None => None end)))
    s.

Definition teamLabel (team : TeamKey) : string :=
  match team with TeamA => "Team A" | TeamB => "Team B" end.

Definition handleTimeout (team : TeamKey) (s : App) : App :=
  if negb (matchStarted s) then
    showNotification "Start the match before logging a timeout." error s
  else if gameStoppageActive s then
    showNotification "Resolve game stoppage before recording a timeout." warning s
  else
    let teamDisplayName :=
      orElse (trim (match team with TeamA => teamA s | TeamB => teamB s end))
        (teamLabel team) in
    let perHalfEnabled := usesPerHalfTimeouts s in
    let teamName := teamDisplayName in
    let state := teamState (timeoutState s) team in
    if totalRemaining state <=? 0 then
      showNotification (teamName ++ " has no timeouts remaining.") error s
    else if perHalfEnabled && (halfRemaining state <=? 0) then
      showNotification (teamName ++ " has no timeouts remaining for this half.") error s
    else
      let total := Z.max 0 (totalRemaining state - 1) in
      let half :=
        if perHalfEnabled then Z.max 0 (halfRemaining state - 1) else total in
      let s :=
        set_timeoutState
          (setTeamState team (mkTeamTimeouts total half) (timeoutState s)) s in
      let defaultSeconds_ :=
        orDefault (Some (timeoutDuration (gameSettings s)))
          (defaultSeconds (secondsTimer s)) in
      let s :=
        set_secondsTimer
          (sec_start (countdownTimeSec s) (now s)
             (sec_reset defaultSeconds_ (now s) (secondsTimer s))) s in
      let s := fst (recordSpecialEvent timeout (Some team) None s) in
      showNotification ("Timeout recorded for " ++ teamName ++ ".") info s.

Definition normalize (value : Z) (max : Z) : Z :=
  let bounded := Z.max 0 value in
  if max <=? 0 then bounded else Z.min bounded max.

Definition adjustTimeoutCountsForEdit (oldTeam newTeam : option TeamKey)
  (s : App) : App :=
  let perHalfEnabled := usesPerHalfTimeouts s in
  let shift := fun (delta : Z) (team : option TeamKey) (s : App) =>
    match team with
    | Some key =>
        let state := teamState (timeoutState s) key in
        let total :=
          normalize (totalRemaining state + delta) (timeoutsTotal (gameSettings s)) in
        let half :=
          if perHalfEnabled
          then normalize (halfRemaining state + delta)
                 (timeoutsPerHalf (gameSettings s))
          else total in
        set_timeoutState
          (setTeamState key (mkTeamTimeouts total half) (timeoutState s)) s
    | None => s
    end in
  let s := shift 1 oldTeam s in
  shift (-1) newTeam s.

Definition openTimeoutEditPopup (id : string) (s : App) : App :=
  match getScoreLog id (dataManager s) with
  | Some logEntry =>
      if LogType_eqb (Type_ logEntry) timeout
      then set_currentTimeoutEditID (Some id) s
      else showNotification "Selected entry is not a timeout." error s
  | None => showNotification "Selected entry is not a timeout." error s
  end.

Definition closeTimeoutEditPopup (s : App) : App :=
  set_currentTimeoutEditID None s.

(** A nullable id that passes the [!id] guard. *)
Definition selectedID (o : option string) : option string :=
  match o with
  | Some id => if truthy id then Some id else None
  | None => None
  end.

(** [handleTimeoutEditSave]; the argument is the value of the
    [timeoutEditTeam] select. *)
Definition handleTimeoutEditSave (teamLetter : option TeamKey) (s : App) : App :=
  match selectedID (currentTimeoutEditID s) with
  | None => showNotification "No timeout selected to update." error s
  | Some id =>
      match getScoreLog id (dataManager s) with
      | None => showNotification "Selected entry is not a timeout." error s
      | Some existingLog =>
          if negb (LogType_eqb (Type_ existingLog) timeout) then
            showNotification "Selected entry is not a timeout." error s
          else
            match teamLetter with
            | None =>
                showNotification "Select the team that called the timeout." error s
            | Some letter =>
                let teamAName := trim (teamA s) in
                let teamBName := trim (teamB s) in
                let teamName :=
                  match letter with TeamA => teamAName | TeamB => teamBName end in
                if negb (truthy teamName) then
                  showNotification
                    "Assign Team A and Team B before editing the timeout." error s
                else
                  let oldTeamLetter := TeamLetter existingLog in
                  let (d, updated) :=
                    updateScoreLog id
                      (fun log =>
                         mkLog (scoreID log) (GameID log) (Time log) teamName teamName
                           (Some letter) (Score log) (Assist log) (Type_ log)
                           (Event log) (EventType log) (HalftimeReason log))
                      (dataManager s) in
                  let s := set_dataManager d s in
                  if negb updated then
                    showNotification "Failed to update timeout entry." error s
                  else
                    let s :=
                      if negb (letterEqb oldTeamLetter (Some letter))
                      then adjustTimeoutCountsForEdit oldTeamLetter (Some letter) s
                      else s in
                    let s := closeTimeoutEditPopup s in
                    let s := rebuildTableAndCounters s in
                    let s := autoSave s in
                    showNotification "Timeout updated." success s
            end
      end
  end.

(** *** Score popup: add, edit, delete *)

Definition openPopup (team : TeamKey) (s : App) : App :=
  if negb (matchStarted s) then
    showNotification "Start the match before adding scores." error s
  else if hardCapReached s then
    showNotification "Score cap reached. No further scores can be added." warning s
  else
    let s := set_currentEditID None s in
    set_popupTeam (Some team) s.

Definition closePopup (s : App) : App := set_currentEditID None s.

Definition addNewScore (team : TeamKey) (scorer assist : string) (s : App) : App :=
  let s :=
    match team with
    | TeamA => set_teamAScore (teamAScore s + 1) s
    | TeamB => set_teamBScore (teamBScore s + 1) s
    end in
  let newScoreID := toString (now s) in
  let logEntry := createLogObject newScoreID (Some team) scorer assist None s in
  let s := set_dataManager (addScoreLog logEntry (dataManager s)) s in
  let s := checkForScoreCap false s in
  let s := maybeTriggerHalftimeByScore s in
  let s := attemptPendingHalftime s in
  closePopup s.

(** The number of cells of the row that [createScoreRow] builds for a log
    entry, [None] when it builds no row: seven for a goal, six for a
    timeout of a team, five for a timeout without team, a halftime and a
    stoppage. *)
Definition rowCells (logEntry : LogEntry) (s : App) : option Z :=
  match getLogType logEntry with
  | score => Some 7
  | timeout =>
      match getTeamLetterFromLog logEntry s with
      | Some _ => Some 6
      | None => Some 5
      end
  | halftime => Some 5
  | stoppage => Some 5
  | matchstart => None
  end.

(** [updateScoreInTable]: whether it runs to its end.  The row it writes
    to is the first row of the table with the id, and the table holds the
    rows of the log, newest first.  With the popup on team A it writes the
    cells 1 and 2, which every row has; otherwise it writes the cells 4 and
    5, and on a row of five cells the write to cell 5 raises a
    [TypeError]. *)
Definition updateScoreInTable (id : string) (s : App) : bool :=
  match find (hasID id) (rev (tableRows (dataManager s))) with
  | None => true
  | Some row =>
      match popupTeam s with
      | Some TeamA => true
      | _ =>
          match rowCells row s with
          | Some cells => 6 <=? cells
          | None => true
          end
      end
  end.

(** [updateExistingScore].  When [updateScoreInTable] raises, the handler
    ends there: the log is updated and [closePopup] is not reached. *)
Definition updateExistingScore (id : string) (scorer assist : string) (s : App)
  : App :=
  let (d, updated) :=
    updateScoreLog id
      (fun log =>
         mkLog (scoreID log) (GameID log) (Time log) (Team log) (TeamName log)
           (TeamLetter log) scorer assist (Type_ log) (Event log) (EventType log)
           (HalftimeReason log))
      (dataManager s) in
  let s := set_dataManager d s in
  if updated then
    if updateScoreInTable id s then closePopup s else s
  else showNotification "Could not find score to update." error s.

(** [handleSaveScore]; the arguments are the values of the [scorer] and
    [assist] dropdowns. *)
Definition handleSaveScore (scorer assist : string) (s : App) : App :=
  match popupTeam s with
  | Some team =>
      if negb (truthy scorer) || negb (truthy assist) then
        showNotification "Please select both scorer and assist." error s
      else
        match selectedID (currentEditID s) with
        | None => addNewScore team scorer assist s
        | Some id => updateExistingScore id scorer assist s
        end
  | None => showNotification "Please select both scorer and assist." error s
  end.

Definition editScore (id : string) (s : App) : App :=
  match getScoreLog id (dataManager s) with
  | None => showNotification "Could not find score to edit!" error s
  | Some logToEdit =>
      let s := set_currentEditID (Some id) s in
      let teamLetter :=
        if String.eqb (Team logToEdit) (teamA s) then TeamA else TeamB in
      set_popupTeam (Some teamLetter) s
  end.

Definition handleDeleteScore (s : App) : App :=
  match selectedID (currentEditID s) with
  | None => showNotification "No score selected to delete." error s
  | Some id =>
      let (d, removed) := removeScoreLog id (dataManager s) in
      match removed with
      | None => showNotification "Could not delete score. Try again." error s
      | Some _ =>
          let s := set_dataManager d s in
          let s := rebuildTableAndCounters s in
          let s := closePopup s in
          let s := autoSave s in
          showNotification "Score deleted." success s
      end
  end.

(** *** Halftime entry editor *)

Definition openHalftimeEditPopup (id : string) (s : App) : App :=
  match getScoreLog id (dataManager s) with
  | Some logEntry =>
      if LogType_eqb (Type_ logEntry) halftime
      then set_currentHalftimeEditID (Some id) s
      else showNotification "Selected entry is not a halftime log." error s
  | None => showNotification "Selected entry is not a halftime log." error s
  end.

Definition closeHalftimeEditPopup (s : App) : App :=
  set_currentHalftimeEditID None s.

Definition handleHalftimeDelete (s : App) : App :=
  match selectedID (currentHalftimeEditID s) with
  | None => showNotification "No halftime entry selected to delete." error s
  | Some id =>
      let (d, removed) := removeScoreLog id (dataManager s) in
      match removed with
      | None => showNotification "Failed to delete halftime entry." error s
      | Some _ =>
          let s := set_dataManager d s in
          let s := set_halftimeAutoSuppressed true s in
          let s := set_halftimePendingReason None s in
          let s := set_halftimeTriggered false s in
          let s := set_halftimeReasonResolved None s in
          let s := closeHalftimeEditPopup s in
          let s :=
            set_secondsTimer
              (sec_reset
                 (orDefault (Some (timeoutDuration (gameSettings s)))
                    (defaultSeconds (secondsTimer s)))
                 (now s) (secondsTimer s)) s in
          let s := rebuildTableAndCounters s in
          let s := autoSave s in
          showNotification "Halftime entry deleted." success s
      end
  end.

(** *** Setup *)

Definition applyGameSettingsToUI (s : App) : App :=
  let t := timerManager s in
  let s :=
    set_timerManager
      (mkTimer (isRunning t) (endTime t) (remainingTimeMs t)
         (matchDuration (gameSettings s))) s in
  let c := secondsTimer s in
  let s :=
    set_secondsTimer
      (mkSecTimer (sec_isRunning c) (sec_endTime c) (sec_remainingTimeMs c)
         (timeoutDuration (gameSettings s))) s in
  let s := set_countdownTime (Some (matchDuration (gameSettings s))) s in
  set_countdownTimeSec (Some (timeoutDuration (gameSettings s))) s.

(** [handleAbbaChange(newValue, shouldAutoSave)] with a string argument. *)
Definition handleAbbaChange (newValue : Abba) (shouldAutoSave : bool) (s : App)
  : App :=
  let s := set_abbaStart newValue s in
  if shouldAutoSave then autoSave s else s.

(** The setup form: each numeric input as [parseInt] reads it ([None] for
    [NaN]) and the ABBA select ([None] for an empty value). *)
Record SetupForm := mkSetupForm {
  setupMatchDuration : option Z;
  setupHalftime : option Z;
  setupTimeoutDuration : option Z;
  setupTimeoutsTotal : option Z;
  setupTimeoutsPerHalf : option Z;
  setupHalftimeDuration : option Z;
  setupAbba : option Abba
}.

Definition clampNumber (value : option Z) (fallback min max : Z) : Z :=
  match value with
  | None => fallback
  | Some parsed => Z.max min (Z.min max parsed)
  end.

Definition handleSetupSave (form : SetupForm) (s : App) : App :=
  let newMatchDuration :=
    clampNumber (setupMatchDuration form) (matchDuration (gameSettings s)) 1 300 in
  let newHalftimeDuration :=
    clampNumber (setupHalftime form) (halftimeDuration (gameSettings s))
      1 newMatchDuration in
  let newTimeoutDuration :=
    clampNumber (setupTimeoutDuration form) (timeoutDuration (gameSettings s))
      1 3600 in
  let newTimeoutsTotal :=
    clampNumber (setupTimeoutsTotal form) (timeoutsTotal (gameSettings s)) 0 10 in
  let newTimeoutsPerHalf :=
    clampNumber (setupTimeoutsPerHalf form) (timeoutsPerHalf (gameSettings s))
      0 10 in
  let newTimeoutsPerHalf := Z.min newTimeoutsPerHalf newTimeoutsTotal in
  let newHalftimeBreakDuration :=
    clampNumber (setupHalftimeDuration form)
      (halftimeBreakDuration (gameSettings s)) 1 120 in
  let abbaSelection :=
    match setupAbba form with
    | Some a => a
    | None => abbaStart s
    end in
  let s :=
    set_gameSettings
      (mkSettings newMatchDuration newHalftimeDuration newHalftimeBreakDuration
         newTimeoutDuration newTimeoutsTotal newTimeoutsPerHalf) s in
  let s := initializeTimeoutState None s in
  let s := applyGameSettingsToUI s in
  let s := handleAbbaChange abbaSelection false s in
  let s := autoSave s in
  let s := showNotification "Setup updated." success s in
  let s := maybeTriggerHalftimeByScore s in
  maybeTriggerHalftimeByTime None s.

(** *** Export and submit *)

Definition csvHeader : list string :=
  ["GameID"; "Time"; "Event"; "Team"; "Score"; "Assist"].

Definition currentGameID (s : App) : string :=
  (teamA s ++ " vs " ++ teamB s)%string.

(** The six fields [handleSubmitScore] writes for one log entry. *)
Definition exportFields (gameID : string) (log : LogEntry) : list string :=
  let eventType := orElse (EventType log) (getEventTypeLabel (Type_ log)) in
  [orElse (GameID log) gameID; Time log; eventType; Team log; Score log;
   Assist log].

Definition exportRows (s : App) : list (list string) :=
  csvHeader :: map (exportFields (currentGameID s)) (scoreLogs (dataManager s)).

Definition CRLF : string :=
  String (ascii_of_nat 13) (String (ascii_of_nat 10) EmptyString).

Definition exportCSV (s : App) : string :=
  join CRLF (map toCSVLine (exportRows s)).

(** [handleSubmitScore].  [sink] is the outcome of the remote post: [None]
    when the request went out, [Some message] when it threw.  The second
    component is the downloaded file, name and CSV text ([None] when the
    submission is refused). *)
Definition handleSubmitScore (sink : option string) (s : App)
  : App * option (string * string) :=
  match scoreLogs (dataManager s) with
  | [] => (showNotification "No scores have been logged." error s, None)
  | _ =>
      let csv := exportCSV s in
      let filename :=
        (sanitizeFilename (orElse (currentGameID s) "Game") ++ ".csv")%string in
      let s :=
        match sink with
        | None =>
            showNotification
              "Data has been successfully exported to Google Sheets!" success s
        | Some message =>
            showNotification
              ("Export to Google Sheets failed: Failed to submit scores: "
               ++ message) error s
        end in
      let s := set_dataManager (clearScoreLogs (dataManager s)) s in
      let s := rebuildTableAndCounters s in
      let s := set_currentEditID None s in
      let s := set_currentHalftimeEditID None s in
      let s := set_halftimeTriggered false s in
      let s := set_halftimePendingReason None s in
      let s := set_halftimeAutoSuppressed false s in
      let s := set_halftimeReasonResolved None s in
      let s := initializeTimeoutState None s in
      let s := set_matchStarted false s in
      let s := set_gameStoppageActive false s in
      let s := set_hardCapReached false s in
      let snapshot := getTimeoutStateSnapshot s in
      let s :=
        set_dataManager
          (saveCurrentState
             (updateGameState
                (fun g =>
                   mkGameState 0 0 (gs_teamAName g) (gs_teamBName g)
                     (gs_matchDuration g) (gs_halftimeDuration g)
                     (gs_halftimeBreakDuration g) (gs_timeoutDuration g)
                     (gs_timeoutsTotal g) (gs_timeoutsPerHalf g) (gs_abbaStart g)
                     false snapshot (gs_halftimeReasonResolved g) (matchStarted s)
                     (now s))
                (dataManager s))) s in
      (showNotification ("CSV downloaded: " ++ filename) success s,
       Some (filename, csv))
  end.

(** *** Launch: construction and restore prompt *)

Definition defaultGameSettings : GameSettings :=
  mkSettings CONFIG.DEFAULT_TIMER_MINUTES 55 7 75 2 0.

(** What [localStorage] holds for the main timer. *)
Record TimerStore := mkTimerStore {
  timerEndTime : option Z;
  timerRunning : bool;
  timerRemainingTime : option Z
}.

(** [new TimerManager(...)]: the field defaults followed by
    [loadTimerState].  No tick callback is registered yet. *)
Definition newTimerManager (store : TimerStore) (now_ : Z) : TimerManager :=
  let remaining :=
    match timerRemainingTime store with
    | Some r => if r =? 0 then None else Some r
    | None => None
    end in
  let t :=
    mkTimer (timerRunning store) (timerEndTime store) remaining
      CONFIG.DEFAULT_TIMER_MINUTES in
  match isRunning t, endTime t with
  | true, Some e =>
      if getTimeRemaining e now_ <=? 0 then timer_stop now_ t else t
  | _, _ =>
      match remainingTimeMs t with
      | Some r => mkTimer (isRunning t) None (Some r) (defaultMinutes t)
      | None => timer_reset (defaultMinutes t) now_ t
      end
  end.

Definition newSecondsTimerManager : SecondsTimerManager :=
  mkSecTimer false None None 75.

(** [new DataManager(...)]: [loadAllData] on the stored snapshot (the
    aggregate and its log array) and on the roster cache with its expiry
    time. *)
Definition newDataManager (stored : option (GameState * list LogEntry))
  (cachedTeams : option (TeamsData * Z)) (now_ : Z) : DataManager :=
  let teams :=
    match cachedTeams with
    | Some (data, expiresAt) => if expiresAt <? now_ then [] else data
    | None => []
    end in
  match stored with
  | Some (g, logs) => mkData teams logs g false
  | None => mkData teams [] (defaultGameState now_) false
  end.

(** [new ScorekeeperApp()]. *)
Definition newScorekeeperApp (stored : option (GameState * list LogEntry))
  (cachedTeams : option (TeamsData * Z)) (store : TimerStore) (now_ : Z) : App :=
  let t := newTimerManager store now_ in
  let c := newSecondsTimerManager in
  mkApp (newDataManager stored cachedTeams now_)
    (mkTimer (isRunning t) (endTime t) (remainingTimeMs t)
       (matchDuration defaultGameSettings))
    (mkSecTimer (sec_isRunning c) (sec_endTime c) (sec_remainingTimeMs c)
       (timeoutDuration defaultGameSettings))
    defaultGameSettings
    (mkTimeoutState
       (mkTeamTimeouts (timeoutsTotal defaultGameSettings)
          (orDefault (Some (timeoutsPerHalf defaultGameSettings))
             (timeoutsTotal defaultGameSettings)))
       (mkTeamTimeouts (timeoutsTotal defaultGameSettings)
          (orDefault (Some (timeoutsPerHalf defaultGameSettings))
             (timeoutsTotal defaultGameSettings))))
    0 0 None None None false false None None false M false false false false
    false EmptyString EmptyString None None None [] now_.

(** The application on a device with nothing stored. *)
Definition freshApp (now_ : Z) : App :=
  newScorekeeperApp None None (mkTimerStore None false None) now_.

(** [restoreGameState(gameState)].  The stored team names are taken to be
    among the options of the selects. *)
Definition restoreGameState (g : GameState) (s : App) : App :=
  let s := set_teamAScore (gs_teamAScore g) s in
  let s := set_teamBScore (gs_teamBScore g) s in
  let s := set_matchStarted (gs_matchStarted g) s in
  let s := set_halftimeAutoSuppressed false s in
  let hasHalftimeLog :=
    existsb (fun log => LogType_eqb (Type_ log) halftime)
      (scoreLogs (dataManager s)) in
  let s :=
    set_halftimeReasonResolved
      (if hasHalftimeLog
       then (if truthyOpt (gs_halftimeReasonResolved g)
             then gs_halftimeReasonResolved g else None)
       else None) s in
  let s := if truthy (gs_teamAName g) then set_teamA (gs_teamAName g) s else s in
  let s := if truthy (gs_teamBName g) then set_teamB (gs_teamBName g) s else s in
  let s :=
    match scoreLogs (dataManager s) with
    | [] => s
    | _ => rebuildTableAndCounters s
    end in
  let s :=
    set_gameSettings
      (mkSettings (gs_matchDuration g) (gs_halftimeDuration g)
         (gs_halftimeBreakDuration g) (gs_timeoutDuration g)
         (gs_timeoutsTotal g) (gs_timeoutsPerHalf g)) s in
  let s := applyGameSettingsToUI s in
  let s := set_abbaStart (gs_abbaStart g) s in
  let s := set_gameStoppageActive (gs_stoppageActive g) s in
  let s := if gameStoppageActive s then pauseAllTimers s else s in
  let s := checkForScoreCap true s in
  let s := updateHalftimeTracking s in
  let s := set_halftimePendingReason None s in
  let s := maybeTriggerHalftimeByScore s in
  maybeTriggerHalftimeByTime None s.

(** [checkAndRestoreState]; [shouldRestore] is the operator's answer to
    the [confirm] prompt. *)
Definition checkAndRestoreState (shouldRestore : bool) (s : App) : App :=
  let g := gameState (dataManager s) in
  if negb (gs_timestamp g =? 0)
     && (now s - gs_timestamp g <? 24 * 60 * 60 * 1000)
  then
    let s := set_isRestoring true s in
    let s :=
      if shouldRestore then
        let s := restoreGameState g s in
        showNotification "Previous session restored successfully" success s
      else
        let s := set_dataManager (resetGameState (now s) (dataManager s)) s in
        let s := set_gameSettings defaultGameSettings s in
        let s := applyGameSettingsToUI s in
        let s := set_abbaStart M s in
        let s := set_gameStoppageActive false s in
        let s := set_matchStarted false s in
        set_hardCapReached false s in
    set_isRestoring false s
  else s.

(** ** The operator and the environment as a transition system *)

Inductive Action :=
| StartMatch
| OpenPopup (team : TeamKey)
| ClosePopup
| SaveScore (scorer assist : string)
| EditScore (id : string)
| DeleteScore
| CallTimeout (team : TeamKey)
| DeclareHalftime
| OpenTimeoutEdit (id : string)
| CloseTimeoutEdit
| SaveTimeoutEdit (teamLetter : option TeamKey)
| OpenHalftimeEdit (id : string)
| CloseHalftimeEdit
| DeleteHalftime
| ToggleStoppage
| SaveSetup (form : SetupForm)
| TimerToggle
| TimerReset
| SecTimerToggle
| SecTimerReset
| MainTimerInterval
| SecTimerInterval
| AutoSaveInterval
| SelectTeam (team : TeamKey) (name : string)
| InputCountdownTime (value : option Z)
| InputCountdownTimeSec (value : option Z)
| ClockAdvance (ms : Z)
| Submit (sink : option string).

Definition step (a : Action) (s : App) : App :=
  match a with
  | StartMatch => startMatch s
  | OpenPopup team => openPopup team s
  | ClosePopup => closePopup s
  | SaveScore scorer assist => handleSaveScore scorer assist s
  | EditScore id => editScore id s
  | DeleteScore => handleDeleteScore s
  | CallTimeout team => handleTimeout team s
  | DeclareHalftime => fst (handleHalftime false "manual" s)
  | OpenTimeoutEdit id => openTimeoutEditPopup id s
  | CloseTimeoutEdit => closeTimeoutEditPopup s
  | SaveTimeoutEdit teamLetter => handleTimeoutEditSave teamLetter s
  | OpenHalftimeEdit id => openHalftimeEditPopup id s
  | CloseHalftimeEdit => closeHalftimeEditPopup s
  | DeleteHalftime => handleHalftimeDelete s
  | ToggleStoppage => handleStoppageToggle s
  | SaveSetup form => handleSetupSave form s
  | TimerToggle => handleTimerToggle s
  | TimerReset => handleTimerReset s
  | SecTimerToggle => handleSecTimerToggle s
  | SecTimerReset => handleSecTimerReset s
  | MainTimerInterval => timerManager_interval s
  | SecTimerInterval => secondsTimer_interval s
  | AutoSaveInterval => autoSave s
  | SelectTeam TeamA name => autoSave (set_teamA name s)
  | SelectTeam TeamB name => autoSave (set_teamB name s)
  | InputCountdownTime value => set_countdownTime value s
  | InputCountdownTimeSec value => set_countdownTimeSec value s
  | ClockAdvance ms => set_now (now s + ms) s
  | Submit sink => fst (handleSubmitScore sink s)
  end.

Definition run (actions : list Action) (s : App) : App :=
  fold_left (fun s a => step a s) actions s.

(** ** Derived quantities used in the statements *)

(** Scoreboard in the words of the specification: the number of score
    events whose team letter is [A], respectively [B]. *)
Definition countScores (team : TeamKey) (logs : list LogEntry) : Z :=
  Z.of_nat
    (List.length
       (filter (fun log => isScoreLog log && letterEqb (TeamLetter log) (Some team))
          logs)).

Definition computeScoreboard (logs : list LogEntry) : Z * Z :=
  (countScores TeamA logs, countScores TeamB logs).

(** The number of timeout events of the log attributed to a team. *)
Definition timeoutCount (team : TeamKey) (logs : list LogEntry) : Z :=
  Z.of_nat
    (List.length
       (filter
          (fun log => LogType_eqb (Type_ log) timeout
                      && letterEqb (TeamLetter log) (Some team))
          logs)).

(** [totalRemaining] plus the timeouts already charged to the team. *)
Definition timeoutBalance (team : TeamKey) (s : App) : Z :=
  totalRemaining (teamState (timeoutState s) team)
  + timeoutCount team (scoreLogs (dataManager s)).

(** What [createLogObject] guarantees of every entry it builds: a score
    entry carries its team letter, and the event label is the one of the
    entry's type. *)
Definition createdByApp (log : LogEntry) : Prop :=
  (isScoreLog log = true -> TeamLetter log <> None)
  /\ EventType log = getEventTypeLabel (Type_ log).

(** The scoreboard agrees with the log. *)
Definition Consistent (s : App) : Prop :=
  teamAScore s = countScores TeamA (scoreLogs (dataManager s))
  /\ teamBScore s = countScores TeamB (scoreLogs (dataManager s))
  /\ Forall createdByApp (scoreLogs (dataManager s)).

(** The part of the state the scoreboard and the timeout totals live in. *)
Definition core (s : App)
  : Z * Z * GameSettings * TimeoutState * list LogEntry :=
  (teamAScore s, teamBScore s, gameSettings s, timeoutState s,
   scoreLogs (dataManager s)).

(** [Quiet s s']: from [s] to [s'] the scoreboard, the settings and both
    teams' total timeouts are untouched and the log only grew by halftime
    entries. *)
Definition Quiet (s s' : App) : Prop :=
  teamAScore s' = teamAScore s
  /\ teamBScore s' = teamBScore s
  /\ gameSettings s' = gameSettings s
  /\ (forall team,
        totalRemaining (teamState (timeoutState s') team)
        = totalRemaining (teamState (timeoutState s) team))
  /\ exists extra,
        scoreLogs (dataManager s') = scoreLogs (dataManager s) ++ extra
        /\ Forall (fun log => Type_ log = halftime /\ createdByApp log) extra.

(** [Grows s s']: the scoreboard is untouched and the log only grew by
    entries that are not scores. *)
Definition Grows (s s' : App) : Prop :=
  teamAScore s' = teamAScore s
  /\ teamBScore s' = teamBScore s
  /\ exists extra,
        scoreLogs (dataManager s') = scoreLogs (dataManager s) ++ extra
        /\ Forall (fun log => isScoreLog log = false /\ createdByApp log) extra.

(** The range of the timeout counters. *)
Definition TimeoutBounds (s : App) : Prop :=
  forall team,
    let st := teamState (timeoutState s) team in
    0 <= totalRemaining st <= timeoutsTotal (gameSettings s)
    /\ (usesPerHalfTimeouts s = true ->
        0 <= halfRemaining st <= timeoutsPerHalf (gameSettings s)).

(** [1] for [true], [0] for [false]. *)
Definition indicator (b : bool) : nat := if b then 1%nat else 0%nat.

(** [KeepsBounds s s']: the settings are the same and the timeout counters
    stay in range if they were. *)
Definition KeepsBounds (s s' : App) : Prop :=
  gameSettings s' = gameSettings s /\ (TimeoutBounds s -> TimeoutBounds s').

(** [SameSettings s s']: the settings are the same. *)
Definition SameSettings (s s' : App) : Prop := gameSettings s' = gameSettings s.

(** The flags that govern the halftime triggers. *)
Definition halftimeFlags (s : App)
  : bool * bool * bool * option string * option string :=
  (matchStarted s, halftimeTriggered s, halftimeAutoSuppressed s,
   halftimePendingReason s, halftimeReasonResolved s).

(** A goal of the given team. *)
Definition scoredBy (team : TeamKey) (log : LogEntry) : bool :=
  isScoreLog log && letterEqb (TeamLetter log) (Some team).

(** [SameMode s s']: the match-started flag, the stoppage flag, the
    gender-sequence setting, the settings and the team selections are
    the same. *)
Definition SameMode (s s' : App) : Prop :=
  matchStarted s' = matchStarted s
  /\ gameStoppageActive s' = gameStoppageActive s
  /\ abbaStart s' = abbaStart s
  /\ gameSettings s' = gameSettings s
  /\ teamA s' = teamA s /\ teamB s' = teamB s.



(** Whether a log holds a halftime entry. *)
Definition hasHalftime (logs : list LogEntry) : bool :=
  existsb (fun log => LogType_eqb (Type_ log) halftime) logs.


(** The match configuration as the stored snapshot holds it. *)
Definition storedMatchConfig (s : App) : GameSettings * Abba :=
  let g := gameState (dataManager s) in
  (mkSettings (gs_matchDuration g) (gs_halftimeDuration g)
     (gs_halftimeBreakDuration g) (gs_timeoutDuration g) (gs_timeoutsTotal g)
     (gs_timeoutsPerHalf g),
   gs_abbaStart g).

(** The [Event] column of an exported row. *)
Definition eventColumn (row : list string) : string := nth 2 row EmptyString.

(** ** Example matches

    Two teams are selected, the match is started and a second passes; a
    goal is entered through the score dialogue, a second later. *)
Definition kickoff : Z := 1700000000000.

Definition opening : list Action :=
  [SelectTeam TeamA "Red"; SelectTeam TeamB "Blue"; StartMatch; ClockAdvance 1000].

Definition goal (team : TeamKey) : list Action :=
  [OpenPopup team; SaveScore "Ann" "Bo"; ClockAdvance 1000].

Definition setupOf (total perHalf : option Z) : SetupForm :=
  mkSetupForm None None None total perHalf None None.

(** Team A uses both of its timeouts. *)
Definition spentTimeouts : list Action :=
  opening ++ [CallTimeout TeamA; ClockAdvance 1000; CallTimeout TeamA;
              ClockAdvance 1000].

(** One timeout per half is configured, then team A calls a timeout. *)
Definition perHalfMatch : list Action :=
  [SaveSetup (setupOf None (Some 1))] ++ opening
  ++ [CallTimeout TeamA; ClockAdvance 1000].

(** Team B scores, team A calls a timeout, and the operator opens the
    timeout and then the goal for editing. *)
Definition timeoutUnderEdit : list Action :=
  opening ++ goal TeamB
  ++ [CallTimeout TeamA; ClockAdvance 1000;
      OpenTimeoutEdit "1700000002000"; EditScore "1700000001000"].

(** Team B uses both of its timeouts, team A calls one, and the operator
    opens team A's timeout for editing. *)
Definition timeoutOfSpentTeamUnderEdit : list Action :=
  opening ++ [CallTimeout TeamB; ClockAdvance 1000; CallTimeout TeamB;
              ClockAdvance 1000; CallTimeout TeamA; ClockAdvance 1000;
              OpenTimeoutEdit "1700000003000"].

(** Team A calls a timeout, the total allotment is then set to zero, and
    the operator opens the timeout for editing. *)
Definition zeroAllotmentUnderEdit : list Action :=
  opening ++ [CallTimeout TeamA; ClockAdvance 1000;
              SaveSetup (setupOf (Some 0) None);
              OpenTimeoutEdit "1700000001000"].

(** Fifty-six minutes of a hundred-minute match have passed. *)
Definition lateFirstHalf : list Action :=
  opening ++ [ClockAdvance (56 * 60 * 1000)].

(** Halftime is declared by hand, team A scores eight goals, the halftime
    entry is removed, and fifty-six minutes pass. *)
Definition removedHalftime : list Action :=
  opening ++ [DeclareHalftime; ClockAdvance 1000]
  ++ List.concat (repeat (goal TeamA) 8)
  ++ [OpenHalftimeEdit "1700000001000"; DeleteHalftime;
      ClockAdvance (56 * 60 * 1000)].

(** Team A scores eight goals in a row. *)
Definition eightGoals : list Action :=
  opening ++ List.concat (repeat (goal TeamA) 8).

(** A snapshot written a minute before launch by a match configured to
    last eighty minutes. *)
Definition savedSnapshot : GameState :=
  mkGameState 3 2 "Red" "Blue" 80 40 7 75 2 0 F false defaultTimeoutState
    None true (kickoff - 60000).

(** The application launched over that snapshot, with a cached roster. *)
Definition relaunched : App :=
  newScorekeeperApp (Some (savedSnapshot, []))
    (Some ([("Red", ["Ann"; "Bo"])], kickoff + 1000))
    (mkTimerStore None false None) kickoff.

(** A session in which team A scores once and the auto-save interval
    fires, and what it leaves in storage: the snapshot with its log as the
    auto-save wrote them, and the main timer as [start()] saved it. *)
Definition firstSession : App :=
  run (opening ++ goal TeamA ++ [AutoSaveInterval]) (freshApp kickoff).

Definition leftInStorage : option (GameState * list LogEntry) * TimerStore :=
  (Some (gameState (dataManager firstSession),
         scoreLogs (dataManager firstSession)),
   mkTimerStore (endTime (timerManager firstSession))
     (isRunning (timerManager firstSession))
     (remainingTimeMs (timerManager firstSession))).

(** The application opened again over that storage, [hours] hours after
    the kick-off, before the restore prompt. *)
Definition reopened (hours : Z) : App :=
  newScorekeeperApp (fst leftInStorage) None (snd leftInStorage)
    (kickoff + hours * 60 * 60 * 1000).

(** ** Lists *)

Lemma filter_length_app {X : Type} (p : X -> bool) (l1 l2 : list X) :
  List.length (filter p (l1 ++ l2)) = (List.length (filter p l1) + List.length (filter p l2))%nat.
Proof.
  rewrite filter_app, length_app. reflexivity.
Qed.

Lemma filter_none {X : Type} (p : X -> bool) (l : list X) :
  Forall (fun x => p x = false) l -> filter p l = [].
Proof.
  induction 1 as [|x l Hx _ IH]; simpl; [reflexivity|].
  rewrite Hx. exact IH.
Qed.

Lemma findIndex_find {X : Type} (p : X -> bool) (l : list X) (i : nat) :
  findIndex p l = Some i ->
  exists x, find p l = Some x /\ nth_error l i = Some x /\ p x = true.
Proof.
  revert i. induction l as [|y l IH]; simpl; intros i H; [discriminate|].
  destruct (p y) eqn:Hy.
  - inversion H; subst. exists y. simpl. auto.
  - destruct (findIndex p l) as [j|] eqn:Hj; [|discriminate].
    inversion H; subst. destruct (IH j eq_refl) as [x [Hf [Hn Hp]]].
    exists x. simpl. auto.
Qed.

Lemma findIndex_None_find {X : Type} (p : X -> bool) (l : list X) :
  findIndex p l = None -> find p l = None.
Proof.
  induction l as [|y l IH]; simpl; [reflexivity|].
  destruct (p y); [discriminate|].
  destruct (findIndex p l); [discriminate|]. auto.
Qed.

(** Counting through a replacement at an index. *)
Lemma filter_length_updateAt {X : Type} (q : X -> bool) (f : X -> X)
  (l : list X) (i : nat) (x : X) :
  nth_error l i = Some x ->
  (List.length (filter q (updateAt i f l)) + (if q x then 1 else 0)
   = List.length (filter q l) + (if q (f x) then 1 else 0))%nat.
Proof.
  revert i. induction l as [|y l IH]; intros [|i] H; simpl in *;
    try discriminate.
  - inversion H; subst. destruct (q x), (q (f x)); simpl; lia.
  - specialize (IH i H). destruct (q y); simpl; lia.
Qed.

Lemma Forall_updateAt {X : Type} (P : X -> Prop) (f : X -> X) (l : list X)
  (i : nat) :
  Forall P l -> (forall x, nth_error l i = Some x -> P x -> P (f x)) ->
  Forall P (updateAt i f l).
Proof.
  intros Hl. revert i. induction Hl as [|y l Hy Hl IH]; intros [|i] Hf; simpl;
    constructor; auto.
Qed.

(** Counting through the removal of one element. *)
Lemma filter_length_splice1 {X : Type} (q : X -> bool) (l : list X) (i : nat) :
  match snd (splice1 i l) with
  | Some x =>
      (List.length (filter q (fst (splice1 i l))) + (if q x then 1 else 0)
       = List.length (filter q l))%nat
  | None => fst (splice1 i l) = l
  end.
Proof.
  revert i. induction l as [|y l IH]; intros [|i]; simpl; try reflexivity.
  - destruct (q y); simpl; lia.
  - specialize (IH i). destruct (splice1 i l) as [rest r]; simpl in *.
    destruct r as [x|].
    + destruct (q y); simpl; lia.
    + congruence.
Qed.

Lemma Forall_splice1 {X : Type} (P : X -> Prop) (l : list X) (i : nat) :
  Forall P l -> Forall P (fst (splice1 i l)).
Proof.
  intros Hl. revert i. induction Hl as [|y l Hy Hl IH]; intros [|i]; simpl; auto.
  specialize (IH i). destruct (splice1 i l); simpl in *. constructor; auto.
Qed.

Lemma splice1_nth {X : Type} (l : list X) (i : nat) :
  snd (splice1 i l) = nth_error l i.
Proof.
  revert i. induction l as [|y l IH]; intros [|i]; simpl; try reflexivity.
  specialize (IH i). destruct (splice1 i l); simpl in *. exact IH.
Qed.

(** ** Frame reasoning *)

Lemma Quiet_refl (s : App) : Quiet s s.
Proof.
  refine (conj _ (conj _ (conj _ (conj _ _)))); try reflexivity.
  exists []. rewrite app_nil_r. auto.
Qed.

Lemma Quiet_trans (s1 s2 s3 : App) : Quiet s1 s2 -> Quiet s2 s3 -> Quiet s1 s3.
Proof.
  intros (A1 & B1 & G1 & T1 & e1 & L1 & F1) (A2 & B2 & G2 & T2 & e2 & L2 & F2).
  refine (conj _ (conj _ (conj _ (conj _ _)))); try congruence.
  exists (e1 ++ e2). rewrite L2, L1, app_assoc. split; [reflexivity|].
  apply Forall_app; auto.
Qed.

Lemma Quiet_core (s s' : App) : core s' = core s -> Quiet s s'.
Proof.
  unfold core. intros H. inversion H as [[HA HB HG HT HL]].
  refine (conj _ (conj _ (conj _ (conj _ _)))); try congruence.
  exists []. rewrite app_nil_r. auto.
Qed.

Lemma Grows_refl (s : App) : Grows s s.
Proof.
  refine (conj _ (conj _ _)); try reflexivity.
  exists []. rewrite app_nil_r. auto.
Qed.

Lemma Grows_trans (s1 s2 s3 : App) : Grows s1 s2 -> Grows s2 s3 -> Grows s1 s3.
Proof.
  intros (A1 & B1 & e1 & L1 & F1) (A2 & B2 & e2 & L2 & F2).
  refine (conj _ (conj _ _)); try congruence.
  exists (e1 ++ e2). rewrite L2, L1, app_assoc. split; [reflexivity|].
  apply Forall_app; auto.
Qed.

Lemma Quiet_Grows (s s' : App) : Quiet s s' -> Grows s s'.
Proof.
  intros (HA & HB & _ & _ & e & L & Fe).
  refine (conj HA (conj HB _)). exists e. split; [exact L|].
  eapply Forall_impl; [|exact Fe]. intros log [Ht Hc]. split; [|exact Hc].
  unfold isScoreLog, getLogType. rewrite Ht. reflexivity.
Qed.

(** Walking through a handler: each [let] on the state is met with the
    relation established so far, conditionals are split, and a call is
    closed by the lemma of the callee.  A handler that also returns a
    value is followed through [fst]. *)
Ltac head_let R :=
  lazymatch goal with
  | |- R ?a (let x := ?v in @?body x) => change (R a (body v)); cbv beta
  | |- R ?a (fst (let x := ?v in @?body x)) =>
      change (R a (fst (body v))); cbv beta
  end.

Ltac walk_let R X k :=
  lazymatch goal with
  | |- R ?s0 _ =>
      lazymatch type of X with
      | App =>
          let Q := fresh "Q" in
          assert (Q : R s0 X) by k;
          revert Q; generalize X; intros ? Q; head_let R; k
      | _ => head_let R; k
      end
  end.

Ltac walk_pair R X k :=
  lazymatch goal with
  | |- R ?s0 _ =>
      lazymatch type of X with
      | (App * _)%type =>
          let Q := fresh "Q" in
          assert (Q : R s0 (fst X)) by k;
          destruct X as [? ?] eqn:?; simpl fst in Q; cbv beta match; k
      | _ => destruct X as [? ?] eqn:?; cbv beta match; k
      end
  end.

Ltac walk_call R Rtrans s1 k base :=
  lazymatch goal with
  | |- R ?s0 _ =>
      tryif is_var s1
      then (apply Rtrans with s1; [k | base])
      else (let Q := fresh "Q" in
            let v := fresh "s" in
            assert (Q : R s0 s1) by k;
            revert Q; generalize s1; intros v Q;
            apply Rtrans with v; [exact Q | base])
  end.

Ltac walk R Rrefl Rtrans base :=
  lazymatch goal with
  | |- R ?s ?s => apply Rrefl
  | H : R ?s0 ?s1 |- R ?s0 ?s1 => exact H
  | |- R ?s0 (fst (?a, _)) => change (R s0 a); walk R Rrefl Rtrans base
  | |- R _ (if ?c then _ else _) =>
      destruct c eqn:?; cbv beta match; walk R Rrefl Rtrans base
  | |- R _ (fst (if ?c then _ else _)) =>
      destruct c eqn:?; cbv beta match; walk R Rrefl Rtrans base
  | |- R _ (let x := ?X in _) =>
      walk_let R X ltac:(idtac; walk R Rrefl Rtrans base)
  | |- R _ (fst (let x := ?X in _)) =>
      walk_let R X ltac:(idtac; walk R Rrefl Rtrans base)
  | |- R _ (let (_, _) := ?X in _) =>
      walk_pair R X ltac:(idtac; walk R Rrefl Rtrans base)
  | |- R _ (fst (let (_, _) := ?X in _)) =>
      walk_pair R X ltac:(idtac; walk R Rrefl Rtrans base)
  | |- R _ (match ?x with _ => _ end) =>
      destruct x eqn:?; cbv beta match; walk R Rrefl Rtrans base
  | |- R _ (fst (match ?x with _ => _ end)) =>
      destruct x eqn:?; cbv beta match; walk R Rrefl Rtrans base
  | |- R _ (fst (?f ?s1)) =>
      walk_call R Rtrans s1 ltac:(idtac; walk R Rrefl Rtrans base) base
  | |- R _ (?f ?s1) =>
      walk_call R Rtrans s1 ltac:(idtac; walk R Rrefl Rtrans base) base
  end.

Lemma scoreLogs_updateGameState (f : GameState -> GameState) (d : DataManager) :
  scoreLogs (updateGameState f d) = scoreLogs d.
Proof. reflexivity. Qed.

Lemma core_autoSave (s : App) : core (autoSave s) = core s.
Proof.
  unfold autoSave. destruct (isRestoring s); reflexivity.
Qed.

Lemma core_checkForScoreCap (silent : bool) (s : App) :
  core (checkForScoreCap silent s) = core s.
Proof.
  unfold checkForScoreCap.
  repeat match goal with
         | |- context [if ?c then _ else _] => destruct c
         end; reflexivity.
Qed.

Lemma core_updateHalftimeTracking (s : App) :
  core (updateHalftimeTracking s) = core s.
Proof.
  unfold updateHalftimeTracking.
  repeat match goal with
         | |- context [if ?c then _ else _] => destruct c
         | |- context [match ?x with _ => _ end] => destruct x
         end; reflexivity.
Qed.


Lemma recordSpecialEvent_logs (type : LogType) (letter : option TeamKey)
  (extra : option string) (s : App) :
  scoreLogs (dataManager (fst (recordSpecialEvent type letter extra s)))
  = scoreLogs (dataManager s) ++ [snd (recordSpecialEvent type letter extra s)].
Proof.
  unfold recordSpecialEvent, autoSave. simpl.
  destruct (isRestoring s); reflexivity.
Qed.

Lemma recordSpecialEvent_entry (type : LogType) (letter : option TeamKey)
  (extra : option string) (s : App) :
  let log := snd (recordSpecialEvent type letter extra s) in
  Type_ log = type /\ TeamLetter log = letter /\ HalftimeReason log = extra
  /\ scoreID log = toString (now s) /\ (type <> score -> createdByApp log).
Proof.
  unfold recordSpecialEvent, createLogObject, createdByApp, isScoreLog, getLogType.
  simpl. destruct letter as [[|]|]; simpl; repeat split; try reflexivity;
    destruct type; simpl; congruence.
Qed.

Lemma recordSpecialEvent_frame (type : LogType) (letter : option TeamKey)
  (extra : option string) (s : App) :
  let s' := fst (recordSpecialEvent type letter extra s) in
  teamAScore s' = teamAScore s /\ teamBScore s' = teamBScore s
  /\ gameSettings s' = gameSettings s /\ timeoutState s' = timeoutState s.
Proof.
  unfold recordSpecialEvent, autoSave. simpl.
  destruct (isRestoring s); repeat split.
Qed.

Lemma quiet_recordSpecialEvent (letter : option TeamKey) (extra : option string)
  (s : App) :
  Quiet s (fst (recordSpecialEvent halftime letter extra s)).
Proof.
  destruct (recordSpecialEvent_frame halftime letter extra s) as (HA & HB & HG & HT).
  destruct (recordSpecialEvent_entry halftime letter extra s) as (Ht & _ & _ & _ & Hc).
  refine (conj HA (conj HB (conj HG (conj _ _)))).
  - intros team. rewrite HT. reflexivity.
  - eexists. split; [apply recordSpecialEvent_logs|].
    constructor; [|constructor]. split; [assumption|]. apply Hc. discriminate.
Qed.

Lemma grows_recordSpecialEvent (type : LogType) (letter : option TeamKey)
  (extra : option string) (s : App) :
  type <> score ->
  Grows s (fst (recordSpecialEvent type letter extra s)).
Proof.
  intros Hne.
  destruct (recordSpecialEvent_frame type letter extra s) as (HA & HB & _ & _).
  destruct (recordSpecialEvent_entry type letter extra s) as (Ht & _ & _ & _ & Hc).
  refine (conj HA (conj HB _)).
  eexists. split; [apply recordSpecialEvent_logs|].
  constructor; [|constructor]. split; [|apply Hc; assumption].
  unfold isScoreLog, getLogType. rewrite Ht. destruct type; simpl; congruence.
Qed.

Lemma quiet_totals (ts : TimeoutState) (s : App) :
  (forall team,
      totalRemaining (teamState ts team)
      = totalRemaining (teamState (timeoutState s) team)) ->
  Quiet s (set_timeoutState ts s).
Proof.
  intros H. refine (conj _ (conj _ (conj _ (conj _ _)))); try reflexivity.
  - exact H.
  - exists []. rewrite app_nil_r. auto.
Qed.

Create HintDb frames discriminated.

#[local] Hint Resolve quiet_recordSpecialEvent : frames.
#[local] Hint Extern 1 (Quiet _ (autoSave _)) =>
  apply Quiet_core; apply core_autoSave : frames.
#[local] Hint Extern 1 (Quiet _ (checkForScoreCap _ _)) =>
  apply Quiet_core; apply core_checkForScoreCap : frames.
#[local] Hint Extern 1 (Quiet _ (updateHalftimeTracking _)) =>
  apply Quiet_core; apply core_updateHalftimeTracking : frames.
#[local] Hint Extern 5 (Quiet _ _) => apply Quiet_core; reflexivity : frames.
#[local] Hint Extern 4 (Quiet _ (set_timeoutState _ _)) =>
  apply quiet_totals; intros [|]; simpl;
  repeat match goal with
         | |- context [if ?c then _ else _] => destruct c
         end; reflexivity : frames.

Ltac quiet := walk Quiet Quiet_refl Quiet_trans ltac:(solve [auto with frames nocore]).

Lemma quiet_handleHalftime (silent : bool) (reason : string) (s : App) :
  Quiet s (fst (handleHalftime silent reason s)).
Proof.
  cbv beta delta [handleHalftime]. quiet.
Qed.


#[local] Hint Resolve quiet_handleHalftime : frames.

Lemma quiet_maybeTriggerHalftimeByScore (s : App) :
  Quiet s (maybeTriggerHalftimeByScore s).
Proof.
  cbv beta delta [maybeTriggerHalftimeByScore]. quiet.
Qed.

Lemma quiet_maybeTriggerHalftimeByTime (timeRemaining : option Z) (s : App) :
  Quiet s (maybeTriggerHalftimeByTime timeRemaining s).
Proof.
  cbv beta delta [maybeTriggerHalftimeByTime]. quiet.
Qed.

Lemma quiet_attemptPendingHalftime (s : App) :
  Quiet s (attemptPendingHalftime s).
Proof.
  cbv beta delta [attemptPendingHalftime]. quiet.
Qed.

#[local] Hint Resolve quiet_maybeTriggerHalftimeByScore
  quiet_maybeTriggerHalftimeByTime quiet_attemptPendingHalftime : frames.

Lemma quiet_handleMainTimerTick (total : Z) (s : App) :
  Quiet s (handleMainTimerTick total s).
Proof.
  unfold handleMainTimerTick. auto with frames.
Qed.

#[local] Hint Resolve quiet_handleMainTimerTick : frames.

Lemma quiet_timerManager_start (s : App) : Quiet s (timerManager_start s).
Proof.
  cbv beta delta [timerManager_start]. quiet.
Qed.

Lemma quiet_timerManager_interval (s : App) : Quiet s (timerManager_interval s).
Proof.
  cbv beta delta [timerManager_interval]. quiet.
Qed.

#[local] Hint Resolve quiet_timerManager_start quiet_timerManager_interval : frames.

Lemma quiet_handleTimerToggle (s : App) : Quiet s (handleTimerToggle s).
Proof.
  cbv beta delta [handleTimerToggle timerManager_toggle]. quiet.
Qed.

Lemma quiet_handleSecTimerToggle (s : App) : Quiet s (handleSecTimerToggle s).
Proof.
  cbv beta delta [handleSecTimerToggle secondsTimer_toggle]. quiet.
Qed.

Lemma quiet_pauseAllTimers (s : App) : Quiet s (pauseAllTimers s).
Proof.
  cbv beta delta [pauseAllTimers]. quiet.
Qed.

#[local] Hint Resolve quiet_pauseAllTimers : frames.

(** The counters written by [rebuildTableAndCounters], followed by what
    the rest of it does. *)
Lemma quiet_rebuildTableAndCounters (s : App) :
  Quiet
    (set_teamBScore (snd (tally s (scoreLogs (dataManager s))))
       (set_teamAScore (fst (tally s (scoreLogs (dataManager s)))) s))
    (rebuildTableAndCounters s).
Proof.
  unfold rebuildTableAndCounters.
  change (Quiet
            (set_teamBScore (snd (tally s (scoreLogs (dataManager s))))
               (set_teamAScore (fst (tally s (scoreLogs (dataManager s)))) s))
            (maybeTriggerHalftimeByScore
               (updateHalftimeTracking
                  (checkForScoreCap true
                     (set_teamBScore (snd (tally s (scoreLogs (dataManager s))))
                        (set_teamAScore
                           (fst (tally s (scoreLogs (dataManager s)))) s)))))).
  quiet.
Qed.


(** ** Scoreboard against the log *)

Lemma countScores_cons (team : TeamKey) (log : LogEntry) (logs : list LogEntry) :
  countScores team (log :: logs)
  = (if isScoreLog log && letterEqb (TeamLetter log) (Some team) then 1 else 0)
    + countScores team logs.
Proof.
  unfold countScores. simpl.
  destruct (isScoreLog log && letterEqb (TeamLetter log) (Some team));
    simpl List.length; lia.
Qed.

Lemma countScores_app (team : TeamKey) (l1 l2 : list LogEntry) :
  countScores team (l1 ++ l2) = countScores team l1 + countScores team l2.
Proof.
  unfold countScores. rewrite filter_length_app. lia.
Qed.

Lemma countScores_no_scores (team : TeamKey) (logs : list LogEntry) :
  Forall (fun log => isScoreLog log = false /\ createdByApp log) logs ->
  countScores team logs = 0.
Proof.
  intros H. unfold countScores. rewrite filter_none; [reflexivity|].
  eapply Forall_impl; [|exact H]. intros log [Hs _]. rewrite Hs. reflexivity.
Qed.

(** The loop of [rebuildTableAndCounters] computes the scoreboard of the
    specification on a log whose score entries carry their team letter. *)
Lemma tally_fold (s : App) (logs : list LogEntry) (a b : Z) :
  Forall createdByApp logs ->
  fold_left (tallyStep s) logs (a, b)
  = (a + countScores TeamA logs, b + countScores TeamB logs).
Proof.
  intros H. revert a b. induction H as [|log logs Hlog _ IH]; intros a b.
  - simpl. unfold countScores. simpl. f_equal; lia.
  - simpl fold_left. rewrite !countScores_cons.
    unfold tallyStep, getTeamLetterFromLog.
    destruct (isScoreLog log) eqn:Hs.
    + destruct Hlog as [Hletter _]. specialize (Hletter Hs).
      destruct (TeamLetter log) as [[|]|]; [| |congruence];
        cbn [fst snd andb letterEqb TeamKey_eqb]; rewrite IH; f_equal; lia.
    + cbn [andb]. rewrite IH. f_equal; lia.
Qed.

Lemma tally_computeScoreboard (s : App) (logs : list LogEntry) :
  Forall createdByApp logs -> tally s logs = computeScoreboard logs.
Proof.
  intros H. unfold tally, computeScoreboard. rewrite tally_fold by assumption.
  reflexivity.
Qed.

Lemma Grows_Consistent (s s' : App) : Grows s s' -> Consistent s -> Consistent s'.
Proof.
  intros (HA & HB & extra & HL & HF) (CA & CB & CF).
  unfold Consistent. rewrite HA, HB, HL, !countScores_app.
  rewrite !(countScores_no_scores _ extra) by assumption.
  repeat split; try lia.
  apply Forall_app. split; [assumption|].
  eapply Forall_impl; [|exact HF]. intros log [_ Hc]. exact Hc.
Qed.

Lemma Quiet_Consistent (s s' : App) : Quiet s s' -> Consistent s -> Consistent s'.
Proof.
  intros H. apply Grows_Consistent, Quiet_Grows, H.
Qed.

Lemma Consistent_rebuildTableAndCounters (s : App) :
  Forall createdByApp (scoreLogs (dataManager s)) ->
  Consistent (rebuildTableAndCounters s).
Proof.
  intros H. eapply Quiet_Consistent; [apply quiet_rebuildTableAndCounters|].
  unfold Consistent. simpl. rewrite tally_computeScoreboard by assumption.
  simpl. auto.
Qed.

(** [Grows] through the handlers that only append events. *)
Lemma Grows_same (s s' : App) :
  teamAScore s' = teamAScore s -> teamBScore s' = teamBScore s ->
  scoreLogs (dataManager s') = scoreLogs (dataManager s) ->
  Grows s s'.
Proof.
  intros HA HB HL. refine (conj HA (conj HB _)).
  exists []. rewrite app_nil_r. auto.
Qed.

#[local] Hint Extern 2 (Grows _ (fst (recordSpecialEvent _ _ _ _))) =>
  apply grows_recordSpecialEvent; discriminate : frames.
#[local] Hint Extern 3 (Grows _ _) =>
  apply Quiet_Grows; solve [auto with frames nocore] : frames.
#[local] Hint Extern 6 (Grows _ _) => apply Grows_same; reflexivity : frames.

Ltac grows := walk Grows Grows_refl Grows_trans ltac:(solve [auto with frames nocore]).

Lemma grows_startMatch (s : App) : Grows s (startMatch s).
Proof.
  cbv beta delta [startMatch]. grows.
Qed.

Lemma grows_handleTimeout (team : TeamKey) (s : App) : Grows s (handleTimeout team s).
Proof.
  cbv beta delta [handleTimeout]. grows.
Qed.

Lemma grows_handleStoppageToggle (s : App) : Grows s (handleStoppageToggle s).
Proof.
  cbv beta delta [handleStoppageToggle]. grows.
Qed.

Lemma grows_initializeTimeoutState (saved : option SavedTimeoutState) (s : App) :
  Grows s (initializeTimeoutState saved s).
Proof.
  apply Grows_same; reflexivity.
Qed.

Lemma quiet_applyGameSettingsToUI (s : App) : Quiet s (applyGameSettingsToUI s).
Proof.
  apply Quiet_core. reflexivity.
Qed.

Lemma quiet_handleAbbaChange (a : Abba) (b : bool) (s : App) :
  Quiet s (handleAbbaChange a b s).
Proof.
  cbv beta delta [handleAbbaChange]. quiet.
Qed.

#[local] Hint Resolve grows_initializeTimeoutState quiet_applyGameSettingsToUI
  quiet_handleAbbaChange : frames.

Lemma grows_handleSetupSave (form : SetupForm) (s : App) :
  Grows s (handleSetupSave form s).
Proof.
  cbv beta delta [handleSetupSave]. grows.
Qed.


(** ** Editing the log *)

Lemma removeScoreLog_spec (id : string) (d : DataManager) :
  match getScoreLog id d with
  | None => removeScoreLog id d = (d, None)
  | Some x =>
      exists d',
        removeScoreLog id d = (d', Some x)
        /\ teamsData d' = teamsData d /\ gameState d' = gameState d
        /\ (forall q,
              (List.length (filter q (scoreLogs d')) + indicator (q x)
               = List.length (filter q (scoreLogs d)))%nat)
        /\ (forall P : LogEntry -> Prop,
              Forall P (scoreLogs d) -> Forall P (scoreLogs d'))
  end.
Proof.
  unfold getScoreLog, removeScoreLog.
  destruct (findIndex (hasID id) (scoreLogs d)) as [i|] eqn:Hi.
  - destruct (findIndex_find _ _ _ Hi) as (x & Hf & Hn & _). rewrite Hf.
    pose proof (filter_length_splice1 (X := LogEntry)) as Hq.
    pose proof (splice1_nth (scoreLogs d) i) as Hs.
    pose proof (Forall_splice1 (X := LogEntry)) as HP.
    destruct (splice1 i (scoreLogs d)) as [rest r] eqn:Hsp.
    simpl in Hs. rewrite Hn in Hs. subst r.
    eexists. split; [reflexivity|]. simpl. repeat split.
    + intros q. specialize (Hq q (scoreLogs d) i). rewrite Hsp in Hq.
      simpl in Hq. exact Hq.
    + intros P H. specialize (HP P (scoreLogs d) i H). rewrite Hsp in HP.
      exact HP.
  - rewrite (findIndex_None_find _ _ Hi). reflexivity.
Qed.

Lemma updateScoreLog_spec (id : string) (f : LogEntry -> LogEntry)
  (d : DataManager) :
  match getScoreLog id d with
  | None => updateScoreLog id f d = (d, false)
  | Some x =>
      exists d',
        updateScoreLog id f d = (d', true)
        /\ teamsData d' = teamsData d /\ gameState d' = gameState d
        /\ (forall q,
              (List.length (filter q (scoreLogs d')) + indicator (q x)
               = List.length (filter q (scoreLogs d)) + indicator (q (f x)))%nat)
        /\ (forall P : LogEntry -> Prop,
              Forall P (scoreLogs d) -> (P x -> P (f x)) ->
              Forall P (scoreLogs d'))
  end.
Proof.
  unfold getScoreLog, updateScoreLog.
  destruct (findIndex (hasID id) (scoreLogs d)) as [i|] eqn:Hi.
  - destruct (findIndex_find _ _ _ Hi) as (x & Hf & Hn & _). rewrite Hf.
    eexists. split; [reflexivity|]. simpl. repeat split.
    + intros q. apply filter_length_updateAt. exact Hn.
    + intros P H Hx. apply Forall_updateAt; [exact H|].
      intros y Hy. rewrite Hn in Hy. inversion Hy; subst. exact Hx.
  - rewrite (findIndex_None_find _ _ Hi). reflexivity.
Qed.

Lemma getScoreLog_In (id : string) (d : DataManager) (x : LogEntry) :
  getScoreLog id d = Some x -> In x (scoreLogs d) /\ scoreID x = id.
Proof.
  unfold getScoreLog. intros H. apply find_some in H. destruct H as [Hin Hid].
  split; [exact Hin|]. unfold hasID in Hid. apply String.eqb_eq. exact Hid.
Qed.

Lemma countScores_replaced (team : TeamKey) (logs logs' : list LogEntry)
  (x y : LogEntry) :
  (forall q,
      (List.length (filter q logs') + indicator (q x)
       = List.length (filter q logs) + indicator (q y))%nat) ->
  isScoreLog y = isScoreLog x -> TeamLetter y = TeamLetter x ->
  countScores team logs' = countScores team logs.
Proof.
  intros Hq Hs Hl. unfold countScores.
  specialize
    (Hq (fun log => isScoreLog log && letterEqb (TeamLetter log) (Some team))).
  cbv beta in Hq. rewrite Hs, Hl in Hq. lia.
Qed.

Lemma countScores_filter (team : TeamKey) (logs : list LogEntry) :
  countScores team logs
  = Z.of_nat
      (List.length
         (filter (fun log => isScoreLog log && letterEqb (TeamLetter log) (Some team))
            logs)).
Proof. reflexivity. Qed.


(** ** The scoreboard invariant through every handler *)

Ltac after_rebuild :=
  lazymatch goal with
  | |- Consistent ?e =>
      lazymatch e with
      | context [rebuildTableAndCounters ?x] =>
          apply (Grows_Consistent (rebuildTableAndCounters x));
          [ generalize (rebuildTableAndCounters x); intros ?; grows
          | apply Consistent_rebuildTableAndCounters ]
      end
  end.

Lemma Consistent_addNewScore (team : TeamKey) (scorer assist : string) (s : App) :
  Consistent s -> Consistent (addNewScore team scorer assist s).
Proof.
  intros (CA & CB & CF). unfold addNewScore. cbv zeta.
  lazymatch goal with
  | |- Consistent
         (closePopup
            (attemptPendingHalftime
               (maybeTriggerHalftimeByScore (checkForScoreCap false ?P)))) =>
      apply (Quiet_Consistent P); [generalize P; intros ?; quiet|]
  end.
  unfold Consistent, addScoreLog, createLogObject.
  destruct team; simpl; rewrite !countScores_app, CA, CB;
    (repeat split; [unfold countScores; simpl; lia ..|]);
    (apply Forall_app; split; [exact CF|]);
    repeat constructor; simpl; congruence.
Qed.

Lemma Consistent_updateExistingScore (id scorer assist : string) (s : App) :
  Consistent s -> Consistent (updateExistingScore id scorer assist s).
Proof.
  intros (CA & CB & CF). unfold updateExistingScore.
  match goal with
  | |- context [updateScoreLog id ?f (dataManager s)] =>
      pose proof (updateScoreLog_spec id f (dataManager s)) as H
  end.
  destruct (getScoreLog id (dataManager s)) as [x|] eqn:Hx.
  - destruct H as (d' & -> & _ & _ & Hq & HP). cbv beta match zeta.
    apply (Quiet_Consistent (set_dataManager d' s));
      [generalize (set_dataManager d' s); intros ?; quiet|].
    unfold Consistent. simpl. rewrite CA, CB.
    repeat split.
    + symmetry. eapply countScores_replaced; [exact Hq|reflexivity..].
    + symmetry. eapply countScores_replaced; [exact Hq|reflexivity..].
    + apply HP; [exact CF|]. intros [H1 H2]. split; assumption.
  - rewrite H. cbv beta match zeta.
    apply (Quiet_Consistent s); [quiet|]. repeat split; assumption.
Qed.

Lemma Consistent_handleSaveScore (scorer assist : string) (s : App) :
  Consistent s -> Consistent (handleSaveScore scorer assist s).
Proof.
  intros C. unfold handleSaveScore.
  repeat match goal with
         | |- Consistent (match ?x with _ => _ end) => destruct x
         | |- Consistent (if ?c then _ else _) => destruct c
         end;
    first [ apply Consistent_addNewScore, C
          | apply Consistent_updateExistingScore, C
          | apply (Quiet_Consistent s); [quiet | exact C] ].
Qed.

Lemma Consistent_handleDeleteScore (s : App) :
  Consistent s -> Consistent (handleDeleteScore s).
Proof.
  intros C. unfold handleDeleteScore.
  destruct (selectedID (currentEditID s)) as [id|];
    [|apply (Quiet_Consistent s); [quiet | exact C]].
  pose proof (removeScoreLog_spec id (dataManager s)) as H.
  destruct (getScoreLog id (dataManager s)) as [x|].
  - destruct H as (d' & -> & _ & _ & _ & HP). cbv beta match zeta.
    after_rebuild. simpl. apply HP, C.
  - rewrite H. apply (Quiet_Consistent s); [quiet | exact C].
Qed.

Lemma Consistent_handleHalftimeDelete (s : App) :
  Consistent s -> Consistent (handleHalftimeDelete s).
Proof.
  intros C. unfold handleHalftimeDelete.
  destruct (selectedID (currentHalftimeEditID s)) as [id|];
    [|apply (Quiet_Consistent s); [quiet | exact C]].
  pose proof (removeScoreLog_spec id (dataManager s)) as H.
  destruct (getScoreLog id (dataManager s)) as [x|].
  - destruct H as (d' & -> & _ & _ & _ & HP). cbv beta match zeta.
    after_rebuild. simpl. apply HP, C.
  - rewrite H. apply (Quiet_Consistent s); [quiet | exact C].
Qed.


Lemma logs_adjustTimeoutCountsForEdit (oldTeam newTeam : option TeamKey) (s : App) :
  scoreLogs (dataManager (adjustTimeoutCountsForEdit oldTeam newTeam s))
  = scoreLogs (dataManager s).
Proof.
  unfold adjustTimeoutCountsForEdit. destruct oldTeam, newTeam; reflexivity.
Qed.

Lemma Consistent_handleTimeoutEditSave (teamLetter : option TeamKey) (s : App) :
  Consistent s -> Consistent (handleTimeoutEditSave teamLetter s).
Proof.
  intros C. unfold handleTimeoutEditSave.
  destruct (selectedID (currentTimeoutEditID s)) as [id|];
    [|apply (Quiet_Consistent s); [quiet | exact C]].
  destruct (getScoreLog id (dataManager s)) as [x|] eqn:Hx;
    [|apply (Quiet_Consistent s); [quiet | exact C]].
  destruct (LogType_eqb (Type_ x) timeout) eqn:Hty; simpl negb; cbv match;
    [|apply (Quiet_Consistent s); [quiet | exact C]].
  destruct teamLetter as [letter|];
    [|apply (Quiet_Consistent s); [quiet | exact C]].
  cbv zeta.
  match goal with
  | |- context [if negb (truthy ?n) then _ else _] => destruct (truthy n)
  end; simpl negb; cbv match;
    [|apply (Quiet_Consistent s); [quiet | exact C]].
  match goal with
  | |- context [updateScoreLog id ?f (dataManager s)] =>
      pose proof (updateScoreLog_spec id f (dataManager s)) as H
  end.
  rewrite Hx in H. destruct H as (d' & -> & _ & _ & _ & HP).
  simpl negb. cbv beta match.
  after_rebuild.
  assert (HF : Forall createdByApp (scoreLogs d')).
  { apply HP; [apply C|]. intros [_ H2]. split; [|exact H2].
    unfold isScoreLog, getLogType. simpl. destruct (Type_ x); discriminate. }
  destruct (letterEqb (TeamLetter x) (Some letter)); simpl negb; cbv match;
    [exact HF|].
  change (Forall createdByApp
            (scoreLogs
               (dataManager
                  (adjustTimeoutCountsForEdit (TeamLetter x) (Some letter)
                     (set_dataManager d' s))))).
  rewrite logs_adjustTimeoutCountsForEdit. exact HF.
Qed.

Lemma Consistent_handleSubmitScore (sink : option string) (s : App) :
  Consistent s -> Consistent (fst (handleSubmitScore sink s)).
Proof.
  intros C. cbv beta delta [handleSubmitScore].
  destruct (scoreLogs (dataManager s)) eqn:Hlogs; cbv beta match.
  - cbn [fst]. apply (Quiet_Consistent s); [quiet | exact C].
  - cbv zeta. cbn [fst]. after_rebuild.
    destruct sink; constructor.
Qed.

Lemma Consistent_step (a : Action) (s : App) :
  Consistent s -> Consistent (step a s).
Proof.
  intros C.
  destruct a; simpl;
    try (apply (Grows_Consistent s); [|exact C];
         solve [ apply grows_startMatch
               | apply grows_handleTimeout
               | apply grows_handleStoppageToggle
               | apply grows_handleSetupSave
               | apply Quiet_Grows;
                 first [ apply quiet_handleHalftime
                       | apply quiet_handleTimerToggle
                       | apply quiet_handleSecTimerToggle
                       | apply quiet_timerManager_interval
                       | apply Quiet_core; apply core_autoSave ] ]).
  - (* OpenPopup *)
    apply (Quiet_Consistent s); [cbv beta delta [openPopup]; quiet | exact C].
  - apply (Quiet_Consistent s); [cbv beta delta [closePopup]; quiet | exact C].
  - apply Consistent_handleSaveScore, C.
  - apply (Quiet_Consistent s); [cbv beta delta [editScore]; quiet | exact C].
  - apply Consistent_handleDeleteScore, C.
  - apply (Quiet_Consistent s); [cbv beta delta [openTimeoutEditPopup]; quiet | exact C].
  - apply (Quiet_Consistent s); [cbv beta delta [closeTimeoutEditPopup]; quiet | exact C].
  - apply Consistent_handleTimeoutEditSave, C.
  - apply (Quiet_Consistent s); [cbv beta delta [openHalftimeEditPopup]; quiet | exact C].
  - apply (Quiet_Consistent s); [cbv beta delta [closeHalftimeEditPopup]; quiet | exact C].
  - apply Consistent_handleHalftimeDelete, C.
  - apply (Quiet_Consistent s); [cbv beta delta [handleTimerReset]; quiet | exact C].
  - apply (Quiet_Consistent s); [cbv beta delta [handleSecTimerReset]; quiet | exact C].
  - apply (Quiet_Consistent s); [cbv beta delta [secondsTimer_interval]; quiet | exact C].
  - destruct team; apply (Quiet_Consistent s); [quiet | exact C | quiet | exact C].
  - apply (Quiet_Consistent s); [quiet | exact C].
  - apply (Quiet_Consistent s); [quiet | exact C].
  - apply (Quiet_Consistent s); [quiet | exact C].
  - apply Consistent_handleSubmitScore, C.
Qed.

Lemma Consistent_run (actions : list Action) (s : App) :
  Consistent s -> Consistent (run actions s).
Proof.
  unfold run. revert s.
  induction actions as [|a actions IH]; intros s C; simpl; [exact C|].
  apply IH, Consistent_step, C.
Qed.

Lemma Consistent_freshApp (now_ : Z) : Consistent (freshApp now_).
Proof.
  repeat split. constructor.
Qed.


(** ** Properties *)

(** X29.  Recomputation from a clean start.  After any sequence of
    operator actions and timer events, starting from an application loaded
    over empty storage, the scoreboard recomputed from the whole event log
    (the counter loop of [rebuildTableAndCounters], which counts the score
    entries of team A and of team B) equals the pair
    [(teamAScore, teamBScore)] that the handlers maintain incrementally;
    running [rebuildTableAndCounters] therefore leaves the pair as it
    is. *)
Theorem recomputation_equivalence (now_ : Z) (actions : list Action) :
  let s := run actions (freshApp now_) in
  tally s (scoreLogs (dataManager s)) = (teamAScore s, teamBScore s)
  /\ computeScoreboard (scoreLogs (dataManager s)) = (teamAScore s, teamBScore s)
  /\ teamAScore (rebuildTableAndCounters s) = teamAScore s
  /\ teamBScore (rebuildTableAndCounters s) = teamBScore s.
Proof.
  intros s.
  assert (C : Consistent s) by apply Consistent_run, Consistent_freshApp.
  destruct C as (CA & CB & CF).
  assert (HT : tally s (scoreLogs (dataManager s)) = (teamAScore s, teamBScore s)).
  { rewrite tally_computeScoreboard by exact CF.
    unfold computeScoreboard. rewrite CA, CB. reflexivity. }
  split; [exact HT|]. split.
  - unfold computeScoreboard. rewrite CA, CB. reflexivity.
  - destruct (quiet_rebuildTableAndCounters s) as (QA & QB & _).
    rewrite QA, QB, HT. simpl. auto.
Qed.

(** C2.  Gender-sequence labels.  With start value M the labels of the
    score indices 0 to 6 are M, F, F, M, M, F, F; the label is a function of
    the index alone, whichever team scored.  With start value NONE the
    label of every index is the empty string. *)
Theorem abba_sequence :
  map (computeAbbaForIndex M) [0; 1; 2; 3; 4; 5; 6]
  = ["M"; "F"; "F"; "M"; "M"; "F"; "F"]
  /\ forall index, computeAbbaForIndex NONE index = EmptyString.
Proof.
  split; reflexivity.
Qed.

(** C7.  A timeout called for a team whose [totalRemaining] is 0 (or whose
    [halfRemaining] is 0 while per-half limiting is enabled) changes
    nothing but the notifications: the event log and both teams' balances
    are as before.  When the match is running and no stoppage is active,
    the notification is the error that the team has no timeouts
    remaining. *)
Theorem timeout_without_balance_rejected (team : TeamKey) (s : App) :
  totalRemaining (teamState (timeoutState s) team) <= 0
  \/ (usesPerHalfTimeouts s = true
      /\ halfRemaining (teamState (timeoutState s) team) <= 0) ->
  let s' := handleTimeout team s in
  let teamName :=
    orElse (trim (match team with TeamA => teamA s | TeamB => teamB s end))
      (teamLabel team) in
  (exists message type, s' = showNotification message type s)
  /\ scoreLogs (dataManager s') = scoreLogs (dataManager s)
  /\ timeoutState s' = timeoutState s
  /\ (matchStarted s = true -> gameStoppageActive s = false ->
      exists message,
        notifications s' = (message, error) :: notifications s
        /\ (message = (teamName ++ " has no timeouts remaining.")%string
            \/ message
               = (teamName ++ " has no timeouts remaining for this half.")%string)).
Proof.
  intros H s' teamName.
  assert (E : exists message type,
             s' = showNotification message type s
             /\ (matchStarted s = true -> gameStoppageActive s = false ->
                 type = error
                 /\ (message = (teamName ++ " has no timeouts remaining.")%string
                     \/ message
                        = (teamName
                           ++ " has no timeouts remaining for this half.")%string))).
  { subst s' teamName. unfold handleTimeout.
    destruct (matchStarted s); simpl negb; cbv match;
      [|eexists; eexists; split; [reflexivity|discriminate]].
    destruct (gameStoppageActive s);
      [eexists; eexists; split; [reflexivity|discriminate]|].
    cbv zeta.
    destruct (totalRemaining (teamState (timeoutState s) team) <=? 0) eqn:Ht;
      [eexists; eexists; split; [reflexivity|auto]|].
    destruct H as [H|[Hp Hh]]; [apply Z.leb_gt in Ht; lia|].
    rewrite Hp. apply Z.leb_le in Hh. rewrite Hh. simpl andb. cbv match.
    eexists; eexists; split; [reflexivity|auto]. }
  destruct E as (message & type & -> & Hm).
  split; [eauto|]. split; [reflexivity|]. split; [reflexivity|].
  intros Hs Hg. destruct (Hm Hs Hg) as [-> Hmsg].
  exists message. split; [reflexivity|exact Hmsg].
Qed.


Ltac split_conditions :=
  repeat match goal with
         | |- context [if ?c then _ else _] => destruct c
         | |- context [match ?x with _ => _ end] => destruct x
         end.

(** What an accepted halftime does to the timeout counters. *)
Lemma timeoutState_handleHalftime (silent : bool) (reason : string) (s : App) :
  matchStarted s = true -> halftimeTriggered s = false ->
  snd (handleHalftime silent reason s) = true
  /\ timeoutState (fst (handleHalftime silent reason s))
     = let resetHalf := fun (st : TeamTimeouts) =>
         if usesPerHalfTimeouts s
         then mkTeamTimeouts (totalRemaining st)
                (Z.min (Z.min (timeoutsPerHalf (gameSettings s))
                          (timeoutsTotal (gameSettings s)))
                   (totalRemaining st))
         else mkTeamTimeouts (totalRemaining st) (totalRemaining st) in
       mkTimeoutState (resetHalf (stateA (timeoutState s)))
         (resetHalf (stateB (timeoutState s))).
Proof.
  intros Hs Ht. unfold handleHalftime. rewrite Hs, Ht. simpl negb. cbv match.
  cbv zeta.
  match goal with
  | |- context [recordSpecialEvent halftime None ?e ?x] =>
      pose proof (recordSpecialEvent_frame halftime None e x) as HF;
      destruct (recordSpecialEvent halftime None e x) as [s1 log]
  end.
  simpl in HF. destruct HF as (_ & _ & _ & HT).
  split.
  - reflexivity.
  - simpl fst.
    match goal with
    | |- timeoutState (autoSave ?x) = _ =>
        transitivity (timeoutState x);
        [pose proof (core_autoSave x) as Hc; unfold core in Hc; congruence|]
    end.
    transitivity (timeoutState s1).
    + destruct silent; simpl negb; cbv match; simpl;
        match goal with
        | |- timeoutState (updateHalftimeTracking ?x) = _ =>
            pose proof (core_updateHalftimeTracking x) as Hc; unfold core in Hc;
            transitivity (timeoutState x); [congruence|]
        end;
        destruct (truthy (scoreID log)); reflexivity.
    + rewrite HT. simpl. reflexivity.
Qed.

(** C8.  Declaring halftime sets each team's [halfRemaining] to
    [min(timeoutsPerHalf, totalRemaining)] when per-half limiting is
    enabled and to [totalRemaining] when it is disabled, for settings
    whose per-half allotment does not exceed the total allotment (as the
    setup form enforces); [totalRemaining] itself is unchanged.  A team with
    fewer timeouts left than the allotment thus receives the smaller
    value. *)
Theorem halftime_resets_half_allotment (silent : bool) (reason : string)
  (team : TeamKey) (s : App) :
  matchStarted s = true ->
  halftimeTriggered s = false ->
  timeoutsPerHalf (gameSettings s) <= timeoutsTotal (gameSettings s) ->
  let s' := fst (handleHalftime silent reason s) in
  let before := teamState (timeoutState s) team in
  let after := teamState (timeoutState s') team in
  snd (handleHalftime silent reason s) = true
  /\ totalRemaining after = totalRemaining before
  /\ halfRemaining after
     = (if usesPerHalfTimeouts s
        then Z.min (timeoutsPerHalf (gameSettings s)) (totalRemaining before)
        else totalRemaining before).
Proof.
  intros Hs Ht Hle s' before after.
  destruct (timeoutState_handleHalftime silent reason s Hs Ht) as [Hr HT].
  split; [exact Hr|]. subst after s'. rewrite HT. subst before.
  destruct team; simpl; destruct (usesPerHalfTimeouts s); simpl;
    split; try reflexivity; lia.
Qed.


(** ** Timeout counters *)

Lemma KeepsBounds_refl (s : App) : KeepsBounds s s.
Proof. split; auto. Qed.

Lemma KeepsBounds_trans (s1 s2 s3 : App) :
  KeepsBounds s1 s2 -> KeepsBounds s2 s3 -> KeepsBounds s1 s3.
Proof. unfold KeepsBounds. intros [G1 H1] [G2 H2]. split; [congruence|auto]. Qed.

Lemma TimeoutBounds_same (s s' : App) :
  timeoutState s' = timeoutState s -> gameSettings s' = gameSettings s ->
  TimeoutBounds s -> TimeoutBounds s'.
Proof.
  unfold TimeoutBounds, usesPerHalfTimeouts. intros -> ->. auto.
Qed.

Lemma keeps_same (s s' : App) :
  timeoutState s' = timeoutState s -> gameSettings s' = gameSettings s ->
  KeepsBounds s s'.
Proof.
  intros HT HG. split; [exact HG|]. apply TimeoutBounds_same; assumption.
Qed.

Lemma keeps_core (s s' : App) : core s' = core s -> KeepsBounds s s'.
Proof.
  unfold core. intros H. inversion H. apply keeps_same; assumption.
Qed.

Lemma keeps_recordSpecialEvent (type : LogType) (letter : option TeamKey)
  (extra : option string) (s : App) :
  KeepsBounds s (fst (recordSpecialEvent type letter extra s)).
Proof.
  destruct (recordSpecialEvent_frame type letter extra s) as (_ & _ & HG & HT).
  apply keeps_same; assumption.
Qed.

Lemma keeps_handleHalftime (silent : bool) (reason : string) (s : App) :
  KeepsBounds s (fst (handleHalftime silent reason s)).
Proof.
  destruct (quiet_handleHalftime silent reason s) as (_ & _ & HG & _).
  split; [exact HG|]. intros HB.
  destruct (halftimeTriggered s) eqn:Ht;
    [unfold handleHalftime; rewrite Ht; destruct silent; exact HB|].
  destruct (matchStarted s) eqn:Hs;
    [|unfold handleHalftime; rewrite Ht, Hs; destruct silent; exact HB].
  destruct (timeoutState_handleHalftime silent reason s Hs Ht) as [_ HT].
  intros team. unfold usesPerHalfTimeouts. rewrite HT, HG.
  fold (usesPerHalfTimeouts s).
  specialize (HB team). simpl in HB. destruct HB as [Htot Hhalf].
  unfold usesPerHalfTimeouts in *.
  destruct team; simpl in *;
    destruct (0 <? timeoutsPerHalf (gameSettings s)) eqn:Hp; simpl;
    (split; [lia|]); intros Hu; try discriminate Hu;
    apply Z.ltb_lt in Hp; lia.
Qed.

#[local] Hint Resolve keeps_recordSpecialEvent keeps_handleHalftime : frames.
#[local] Hint Extern 5 (KeepsBounds _ _) =>
  apply keeps_core;
  first [ reflexivity | apply core_autoSave | apply core_checkForScoreCap
        | apply core_updateHalftimeTracking ] : frames.
#[local] Hint Extern 6 (KeepsBounds _ _) => apply keeps_same; reflexivity : frames.

Ltac bounds :=
  walk KeepsBounds KeepsBounds_refl KeepsBounds_trans
    ltac:(solve [auto with frames nocore]).

Lemma keeps_maybeTriggerHalftimeByScore (s : App) :
  KeepsBounds s (maybeTriggerHalftimeByScore s).
Proof.
  cbv beta delta [maybeTriggerHalftimeByScore]. bounds.
Qed.

Lemma keeps_maybeTriggerHalftimeByTime (timeRemaining : option Z) (s : App) :
  KeepsBounds s (maybeTriggerHalftimeByTime timeRemaining s).
Proof.
  cbv beta delta [maybeTriggerHalftimeByTime]. bounds.
Qed.

#[local] Hint Resolve keeps_maybeTriggerHalftimeByScore
  keeps_maybeTriggerHalftimeByTime : frames.

Lemma keeps_rebuildTableAndCounters (s : App) :
  KeepsBounds s (rebuildTableAndCounters s).
Proof.
  cbv beta delta [rebuildTableAndCounters]. bounds.
Qed.

#[local] Hint Resolve keeps_rebuildTableAndCounters : frames.

Lemma TimeoutBounds_initializeTimeoutState (saved : option SavedTimeoutState)
  (s : App) :
  0 <= timeoutsTotal (gameSettings s) ->
  TimeoutBounds (initializeTimeoutState saved s).
Proof.
  intros H0 team. unfold initializeTimeoutState, usesPerHalfTimeouts, clampCount.
  simpl.
  destruct (0 <? timeoutsPerHalf (gameSettings s)) eqn:Hp;
    [apply Z.ltb_lt in Hp|];
    destruct team; simpl;
    repeat match goal with
           | |- context [match ?x with _ => _ end] => destruct x eqn:?
           end;
    repeat match goal with
           | H : (_ <? _) = true |- _ => apply Z.ltb_lt in H
           | H : (_ <? _) = false |- _ => apply Z.ltb_ge in H
           end;
    (split; [lia|]); intros; try discriminate; lia.
Qed.

Lemma SameSettings_refl (s : App) : SameSettings s s.
Proof. reflexivity. Qed.

Lemma SameSettings_trans (s1 s2 s3 : App) :
  SameSettings s1 s2 -> SameSettings s2 s3 -> SameSettings s1 s3.
Proof. unfold SameSettings. congruence. Qed.

Lemma Quiet_SameSettings (s s' : App) : Quiet s s' -> SameSettings s s'.
Proof. intros (_ & _ & HG & _). exact HG. Qed.

Lemma settings_recordSpecialEvent (type : LogType) (letter : option TeamKey)
  (extra : option string) (s : App) :
  SameSettings s (fst (recordSpecialEvent type letter extra s)).
Proof.
  destruct (recordSpecialEvent_frame type letter extra s) as (_ & _ & HG & _).
  exact HG.
Qed.

#[local] Hint Resolve settings_recordSpecialEvent : frames.
#[local] Hint Extern 3 (SameSettings _ _) =>
  apply Quiet_SameSettings; solve [auto with frames nocore] : frames.
#[local] Hint Extern 6 (SameSettings _ _) => reflexivity : frames.

Ltac settings :=
  walk SameSettings SameSettings_refl SameSettings_trans
    ltac:(solve [auto with frames nocore]).

Lemma keeps_handleTimeout (team : TeamKey) (s : App) :
  KeepsBounds s (handleTimeout team s).
Proof.
  split;
    [change (SameSettings s (handleTimeout team s));
     cbv beta delta [handleTimeout]; settings|].
  intros HB. unfold handleTimeout.
  destruct (matchStarted s); simpl negb; cbv match; [|exact HB].
  destruct (gameStoppageActive s); [exact HB|]. cbv zeta.
  destruct (totalRemaining (teamState (timeoutState s) team) <=? 0) eqn:Ht;
    [exact HB|].
  destruct (usesPerHalfTimeouts s
            && (halfRemaining (teamState (timeoutState s) team) <=? 0)) eqn:Hh;
    [exact HB|].
  apply Z.leb_gt in Ht.
  match goal with
  | |- TimeoutBounds (showNotification _ _ (fst (recordSpecialEvent _ _ _ ?x))) =>
      apply (TimeoutBounds_same x);
      [ destruct (recordSpecialEvent_frame timeout (Some team) None x)
          as (_ & _ & _ & HT); exact HT
      | destruct (recordSpecialEvent_frame timeout (Some team) None x)
          as (_ & _ & HG & _); exact HG
      | ]
  end.
  intros t. pose proof (HB t) as Ht0. pose proof (HB team) as Hteam.
  unfold usesPerHalfTimeouts in *. simpl in *.
  destruct (0 <? timeoutsPerHalf (gameSettings s)) eqn:Hp; simpl in Hh;
    [apply Z.leb_gt in Hh|];
    destruct team, t; simpl in *;
    (split; [lia|]); intros; try discriminate; try lia;
    try (destruct Ht0 as [_ Hx]; specialize (Hx eq_refl); lia);
    try (destruct Hteam as [_ Hx]; specialize (Hx eq_refl); lia).
Qed.

Lemma TimeoutBounds_adjustTimeoutCountsForEdit (oldTeam newTeam : option TeamKey)
  (s : App) :
  0 < timeoutsTotal (gameSettings s) ->
  TimeoutBounds s ->
  TimeoutBounds (adjustTimeoutCountsForEdit oldTeam newTeam s).
Proof.
  intros H0 HB t. pose proof (HB TeamA) as HA. pose proof (HB TeamB) as HB'.
  unfold adjustTimeoutCountsForEdit, usesPerHalfTimeouts, normalize in *.
  simpl in HA, HB'.
  assert (Hz : (timeoutsTotal (gameSettings s) <=? 0) = false)
    by (apply Z.leb_gt; lia).
  destruct (0 <? timeoutsPerHalf (gameSettings s)) eqn:Hp;
    [ assert (Hq : (timeoutsPerHalf (gameSettings s) <=? 0) = false)
        by (apply Z.leb_gt; apply Z.ltb_lt in Hp; lia)
    | ];
    destruct oldTeam as [[|]|], newTeam as [[|]|], t; simpl;
    rewrite ?Hz, ?Hq, ?Hp; simpl;
    (split; [lia|]); intros; try discriminate; try lia;
    try (destruct HA as [_ Hx]; specialize (Hx eq_refl));
    try (destruct HB' as [_ Hy]; specialize (Hy eq_refl)); lia.
Qed.


Lemma keeps_adjustTimeoutCountsForEdit (oldTeam newTeam : option TeamKey)
  (s : App) :
  0 < timeoutsTotal (gameSettings s) ->
  KeepsBounds s (adjustTimeoutCountsForEdit oldTeam newTeam s).
Proof.
  intros H0. split.
  - unfold adjustTimeoutCountsForEdit. destruct oldTeam, newTeam; reflexivity.
  - apply TimeoutBounds_adjustTimeoutCountsForEdit, H0.
Qed.

#[local] Hint Extern 2
  (KeepsBounds ?x (adjustTimeoutCountsForEdit _ _ ?x)) =>
  apply keeps_adjustTimeoutCountsForEdit;
  first [ assumption
        | match goal with
          | Q : KeepsBounds _ x |- _ => rewrite (proj1 Q); assumption
          end ] : frames.

Lemma keeps_handleTimeoutEditSave (teamLetter : option TeamKey) (s : App) :
  0 < timeoutsTotal (gameSettings s) ->
  KeepsBounds s (handleTimeoutEditSave teamLetter s).
Proof.
  intros H0. cbv beta delta [handleTimeoutEditSave closeTimeoutEditPopup]. bounds.
Qed.

Lemma TimeoutBounds_handleSetupSave (form : SetupForm) (s : App) :
  0 <= timeoutsTotal (gameSettings s) ->
  TimeoutBounds (handleSetupSave form s).
Proof.
  intros H0. unfold handleSetupSave. cbv zeta.
  lazymatch goal with
  | |- TimeoutBounds ?e =>
      lazymatch e with
      | context [initializeTimeoutState None ?x] =>
          assert (K : KeepsBounds (initializeTimeoutState None x) e) by bounds;
          apply K; apply TimeoutBounds_initializeTimeoutState
      end
  end.
  unfold clampNumber. simpl.
  destruct (setupTimeoutsTotal form); lia.
Qed.


(** X30.  Range of the timeout counters.  For settings with a non-negative
    total allotment: initialising the counters (from nothing or from any
    saved snapshot, whose out-of-range values are brought back into range)
    and saving the setup form leave every team with
    [0 <= totalRemaining <= timeoutsTotal] and, when per-half limiting is
    enabled, [0 <= halfRemaining <= timeoutsPerHalf]; calling a timeout
    keeps that range; reassigning a timeout keeps it when the total
    allotment is positive. *)
Theorem timeout_counters_stay_in_range (s : App) :
  0 <= timeoutsTotal (gameSettings s) ->
  (forall savedState, TimeoutBounds (initializeTimeoutState savedState s))
  /\ (forall form, TimeoutBounds (handleSetupSave form s))
  /\ (TimeoutBounds s -> forall team, TimeoutBounds (handleTimeout team s))
  /\ (TimeoutBounds s -> 0 < timeoutsTotal (gameSettings s) ->
      forall oldTeam newTeam teamLetter,
        TimeoutBounds (adjustTimeoutCountsForEdit oldTeam newTeam s)
        /\ TimeoutBounds (handleTimeoutEditSave teamLetter s)).
Proof.
  intros H0. split; [|split; [|split]].
  - intros savedState. apply TimeoutBounds_initializeTimeoutState, H0.
  - intros form. apply TimeoutBounds_handleSetupSave, H0.
  - intros HB team. apply keeps_handleTimeout, HB.
  - intros HB Hpos oldTeam newTeam teamLetter. split.
    + apply TimeoutBounds_adjustTimeoutCountsForEdit; assumption.
    + apply keeps_handleTimeoutEditSave; assumption.
Qed.

(** ** Timeout balance *)

Lemma timeoutCount_app (team : TeamKey) (l1 l2 : list LogEntry) :
  timeoutCount team (l1 ++ l2) = timeoutCount team l1 + timeoutCount team l2.
Proof.
  unfold timeoutCount. rewrite filter_length_app. lia.
Qed.

Lemma timeoutCount_halftimes (team : TeamKey) (logs : list LogEntry) :
  Forall (fun log => Type_ log = halftime /\ createdByApp log) logs ->
  timeoutCount team logs = 0.
Proof.
  intros H. unfold timeoutCount. rewrite filter_none; [reflexivity|].
  eapply Forall_impl; [|exact H]. intros log [Ht _]. rewrite Ht. reflexivity.
Qed.

Lemma Quiet_timeoutBalance (team : TeamKey) (s s' : App) :
  Quiet s s' -> timeoutBalance team s' = timeoutBalance team s.
Proof.
  intros (_ & _ & _ & HT & extra & HL & HF). unfold timeoutBalance.
  rewrite HT, HL, timeoutCount_app, (timeoutCount_halftimes _ extra) by exact HF.
  lia.
Qed.

Lemma timeoutBalance_handleTimeout (team caller : TeamKey) (s : App) :
  timeoutBalance team (handleTimeout caller s) = timeoutBalance team s.
Proof.
  unfold handleTimeout.
  destruct (matchStarted s); simpl negb; cbv match; [|reflexivity].
  destruct (gameStoppageActive s); [reflexivity|]. cbv zeta.
  destruct (totalRemaining (teamState (timeoutState s) caller) <=? 0) eqn:Ht;
    [reflexivity|].
  destruct (usesPerHalfTimeouts s
            && (halfRemaining (teamState (timeoutState s) caller) <=? 0));
    [reflexivity|].
  apply Z.leb_gt in Ht.
  match goal with
  | |- timeoutBalance team
         (showNotification _ _ (fst (recordSpecialEvent ?a ?b ?c ?x))) = _ =>
      assert (HXt : totalRemaining (teamState (timeoutState x) team)
                    = if TeamKey_eqb caller team
                      then Z.max 0
                             (totalRemaining (teamState (timeoutState s) caller) - 1)
                      else totalRemaining (teamState (timeoutState s) team))
        by (destruct caller, team; reflexivity);
      assert (HXl : scoreLogs (dataManager x) = scoreLogs (dataManager s))
        by reflexivity;
      pose proof (recordSpecialEvent_frame a b c x) as HF;
      pose proof (recordSpecialEvent_logs a b c x) as HL;
      pose proof (recordSpecialEvent_entry a b c x) as HE;
      cbv zeta in HF, HE;
      destruct HF as (_ & _ & _ & HT);
      destruct HE as (Hty & Hletter & _);
      revert HXt HXl HL HT Hty Hletter; generalize x;
      intros y HXt HXl HL HT Hty Hletter
  end.
  unfold timeoutBalance.
  change (scoreLogs (dataManager (showNotification ?m ?t ?y)))
    with (scoreLogs (dataManager y)).
  change (timeoutState (showNotification ?m ?t ?y)) with (timeoutState y).
  rewrite HL, HT, HXt, HXl, timeoutCount_app. unfold timeoutCount at 2.
  cbn [filter]. rewrite Hty, Hletter.
  cbn [LogType_eqb andb letterEqb].
  destruct (TeamKey_eqb caller team) eqn:He; cbn [List.length]; [|lia].
  destruct caller, team; try discriminate He; lia.
Qed.


Lemma normalize_released (value max : Z) :
  0 <= value < max -> normalize (value + 1) max = value + 1.
Proof.
  intros H. unfold normalize.
  destruct (max <=? 0) eqn:Hz; [apply Z.leb_le in Hz|apply Z.leb_gt in Hz]; lia.
Qed.

Lemma normalize_charged (value max : Z) :
  1 <= value <= max -> normalize (value + -1) max = value - 1.
Proof.
  intros H. unfold normalize.
  destruct (max <=? 0) eqn:Hz; [apply Z.leb_le in Hz|apply Z.leb_gt in Hz]; lia.
Qed.

Lemma timeoutBalance_adjusted (team new : TeamKey) (old : option TeamKey)
  (s : App) (d' : DataManager) (x y : LogEntry) :
  Type_ x = timeout -> TeamLetter x = old ->
  Type_ y = timeout -> TeamLetter y = Some new ->
  (forall q,
      (List.length (filter q (scoreLogs d')) + indicator (q x)
       = List.length (filter q (scoreLogs (dataManager s))) + indicator (q y))%nat) ->
  TimeoutBounds s ->
  1 <= totalRemaining (teamState (timeoutState s) new) ->
  (forall o, old = Some o -> o <> new ->
             totalRemaining (teamState (timeoutState s) o)
             < timeoutsTotal (gameSettings s)) ->
  timeoutBalance team
    (if negb (letterEqb old (Some new))
     then adjustTimeoutCountsForEdit old (Some new) (set_dataManager d' s)
     else set_dataManager d' s)
  = timeoutBalance team s.
Proof.
  intros Hx Hxl Hy Hyl Hq HB Hnew Hold.
  specialize
    (Hq (fun log => LogType_eqb (Type_ log) timeout
                    && letterEqb (TeamLetter log) (Some team))).
  cbv beta in Hq. rewrite Hx, Hxl, Hy, Hyl in Hq. cbn [LogType_eqb andb] in Hq.
  pose proof (HB TeamA) as [HA _]. pose proof (HB TeamB) as [HB' _].
  cbv zeta in HA, HB'. cbn [teamState] in HA, HB'.
  assert (HL : forall o n,
             scoreLogs (dataManager
                          (adjustTimeoutCountsForEdit o n (set_dataManager d' s)))
             = scoreLogs d')
    by (intros; rewrite logs_adjustTimeoutCountsForEdit; reflexivity).
  unfold timeoutBalance, timeoutCount.
  destruct (letterEqb old (Some new)) eqn:Heq; cbn [negb].
  - cbn [dataManager set_dataManager scoreLogs timeoutState].
    change (timeoutState (set_dataManager d' s)) with (timeoutState s).
    change (scoreLogs (dataManager (set_dataManager d' s))) with (scoreLogs d').
    destruct old as [o|]; [|discriminate Heq].
    cbn [letterEqb] in Heq.
    assert (o = new) by (destruct o, new; try discriminate Heq; reflexivity).
    subst o. unfold indicator in Hq. destruct (letterEqb (Some new) (Some team)); lia.
  - rewrite HL.
    unfold adjustTimeoutCountsForEdit, usesPerHalfTimeouts.
    change (gameSettings (set_dataManager d' s)) with (gameSettings s).
    destruct old as [o|].
    + assert (Hne : o <> new)
        by (intros ->; destruct new; discriminate Heq).
      specialize (Hold o eq_refl Hne).
      destruct o, new, team; try congruence;
        cbn [teamState] in *; unfold indicator in Hq;
        cbn [letterEqb TeamKey_eqb] in Hq;
        cbn -[normalize];
        rewrite ?normalize_released, ?normalize_charged by lia; lia.
    + destruct new, team; cbn [teamState] in *; unfold indicator in Hq;
        cbn [letterEqb TeamKey_eqb] in Hq;
        cbn -[normalize];
        rewrite ?normalize_released, ?normalize_charged by lia; lia.
Qed.


Lemma timeoutBalance_rebuilt (team : TeamKey) (s : App) :
  timeoutBalance team (rebuildTableAndCounters s) = timeoutBalance team s.
Proof.
  rewrite (Quiet_timeoutBalance team _ _ (quiet_rebuildTableAndCounters s)).
  reflexivity.
Qed.

Lemma timeoutBalance_handleTimeoutEditSave (team new : TeamKey) (s : App)
  (id : string) (log : LogEntry) :
  selectedID (currentTimeoutEditID s) = Some id ->
  getScoreLog id (dataManager s) = Some log ->
  TimeoutBounds s ->
  1 <= totalRemaining (teamState (timeoutState s) new) ->
  (forall old, TeamLetter log = Some old -> old <> new ->
               totalRemaining (teamState (timeoutState s) old)
               < timeoutsTotal (gameSettings s)) ->
  timeoutBalance team (handleTimeoutEditSave (Some new) s)
  = timeoutBalance team s.
Proof.
  intros Hid Hlog HB Hnew Hold. unfold handleTimeoutEditSave.
  rewrite Hid, Hlog.
  destruct (LogType_eqb (Type_ log) timeout) eqn:Hty; simpl negb; cbv match;
    [|reflexivity].
  cbv zeta.
  match goal with
  | |- context [if negb (truthy ?n) then _ else _] => destruct (truthy n)
  end; simpl negb; cbv match; [|reflexivity].
  match goal with
  | |- context [updateScoreLog id ?f (dataManager s)] =>
      pose proof (updateScoreLog_spec id f (dataManager s)) as H
  end.
  rewrite Hlog in H. destruct H as (d' & -> & _ & _ & Hq & _).
  simpl negb. cbv beta match.
  match goal with
  | |- timeoutBalance team
         (showNotification ?m ?t
            (autoSave (rebuildTableAndCounters (closeTimeoutEditPopup ?y)))) = _ =>
      transitivity (timeoutBalance team y);
      [ transitivity
          (timeoutBalance team (rebuildTableAndCounters (closeTimeoutEditPopup y)));
        [ apply Quiet_timeoutBalance;
          generalize (rebuildTableAndCounters (closeTimeoutEditPopup y));
          intros ?; quiet
        | rewrite timeoutBalance_rebuilt; reflexivity ]
      | ]
  end.
  assert (Htimeout : Type_ log = timeout)
    by (destruct (Type_ log); try discriminate Hty; reflexivity).
  eapply (timeoutBalance_adjusted team new (TeamLetter log) s d' log);
    [ exact Htimeout | reflexivity | | | exact Hq | exact HB | exact Hnew
    | exact Hold ].
  - exact Htimeout.
  - reflexivity.
Qed.

Lemma handleDeleteScore_totals (team : TeamKey) (s : App) :
  totalRemaining (teamState (timeoutState (handleDeleteScore s)) team)
  = totalRemaining (teamState (timeoutState s) team).
Proof.
  unfold handleDeleteScore.
  destruct (selectedID (currentEditID s)) as [id|]; [|reflexivity].
  destruct (removeScoreLog id (dataManager s)) as [d removed].
  destruct removed; [|reflexivity]. cbv zeta.
  match goal with
  | |- context [rebuildTableAndCounters ?x] =>
      assert (Q : Quiet (rebuildTableAndCounters x)
                    (showNotification "Score deleted." success
                       (autoSave (closePopup (rebuildTableAndCounters x)))))
        by (generalize (rebuildTableAndCounters x); intros ?; quiet);
      destruct Q as (_ & _ & _ & -> & _);
      destruct (quiet_rebuildTableAndCounters x) as (_ & _ & _ & -> & _)
  end.
  reflexivity.
Qed.

Lemma timeoutBalance_handleDeleteScore (team : TeamKey) (s : App) :
  (forall id log,
      selectedID (currentEditID s) = Some id ->
      getScoreLog id (dataManager s) = Some log ->
      Type_ log <> timeout) ->
  timeoutBalance team (handleDeleteScore s) = timeoutBalance team s.
Proof.
  intros Hnot. unfold timeoutBalance at 1. rewrite handleDeleteScore_totals.
  unfold timeoutBalance. f_equal.
  unfold handleDeleteScore.
  destruct (selectedID (currentEditID s)) as [id|]; [|reflexivity].
  specialize (Hnot id).
  pose proof (removeScoreLog_spec id (dataManager s)) as H.
  destruct (getScoreLog id (dataManager s)) as [x|].
  - destruct H as (d' & -> & _ & _ & Hq & _). cbv zeta beta match.
    specialize (Hnot x eq_refl eq_refl).
    match goal with
    | |- context [rebuildTableAndCounters ?y] =>
        assert (Q : Quiet (rebuildTableAndCounters y)
                      (showNotification "Score deleted." success
                         (autoSave (closePopup (rebuildTableAndCounters y)))))
          by (generalize (rebuildTableAndCounters y); intros ?; quiet);
        destruct Q as (_ & _ & _ & _ & e1 & -> & F1);
        destruct (quiet_rebuildTableAndCounters y) as (_ & _ & _ & _ & e2 & -> & F2)
    end.
    rewrite !timeoutCount_app, (timeoutCount_halftimes team e1 F1),
      (timeoutCount_halftimes team e2 F2).
    cbn [dataManager set_dataManager set_teamAScore set_teamBScore scoreLogs].
    unfold timeoutCount.
    specialize
      (Hq (fun log => LogType_eqb (Type_ log) timeout
                      && letterEqb (TeamLetter log) (Some team))).
    cbv beta in Hq. unfold indicator in Hq.
    destruct (Type_ x); try congruence; cbn [LogType_eqb andb] in Hq; lia.
  - rewrite H. reflexivity.
Qed.

(** C3.  Timeout balance.  For either team, [totalRemaining] plus the
    number of timeout events of the log attributed to the team is left
    unchanged by every call of a timeout (accepted or refused), by a
    reassignment of the selected timeout when the counters are in range,
    the receiving team still has a timeout left and the releasing team is
    below its total allotment, and by the deletion of a selected event that
    is not a timeout; deleting an event never changes [totalRemaining]. *)
Theorem timeout_balance_conservation (team : TeamKey) (s : App) :
  (forall caller,
      timeoutBalance team (handleTimeout caller s) = timeoutBalance team s)
  /\ (forall new id log,
        selectedID (currentTimeoutEditID s) = Some id ->
        getScoreLog id (dataManager s) = Some log ->
        TimeoutBounds s ->
        1 <= totalRemaining (teamState (timeoutState s) new) ->
        (forall old, TeamLetter log = Some old -> old <> new ->
                     totalRemaining (teamState (timeoutState s) old)
                     < timeoutsTotal (gameSettings s)) ->
        timeoutBalance team (handleTimeoutEditSave (Some new) s)
        = timeoutBalance team s)
  /\ ((forall id log,
          selectedID (currentEditID s) = Some id ->
          getScoreLog id (dataManager s) = Some log ->
          Type_ log <> timeout) ->
      timeoutBalance team (handleDeleteScore s) = timeoutBalance team s)
  /\ totalRemaining (teamState (timeoutState (handleDeleteScore s)) team)
     = totalRemaining (teamState (timeoutState s) team).
Proof.
  split; [|split; [|split]].
  - intros caller. apply timeoutBalance_handleTimeout.
  - intros new id log. apply timeoutBalance_handleTimeoutEditSave.
  - apply timeoutBalance_handleDeleteScore.
  - apply handleDeleteScore_totals.
Qed.


(** ** Halftime triggers *)

Lemma lastOf_snoc {X : Type} (l : list X) (x : X) : lastOf (l ++ [x]) = Some x.
Proof.
  unfold lastOf. rewrite rev_app_distr. reflexivity.
Qed.

Lemma autoSave_state (s : App) :
  autoSave s = set_dataManager (dataManager (autoSave s)) s.
Proof.
  unfold autoSave. destruct s. simpl. destruct isRestoring0; reflexivity.
Qed.

Lemma recordSpecialEvent_state (type : LogType) (letter : option TeamKey)
  (extra : option string) (s : App) :
  fst (recordSpecialEvent type letter extra s)
  = set_dataManager
      (dataManager (fst (recordSpecialEvent type letter extra s))) s.
Proof.
  unfold recordSpecialEvent. cbv zeta. cbn [fst].
  rewrite autoSave_state at 1. destruct s. reflexivity.
Qed.

Lemma checkForScoreCap_view (silent : bool) (s : App) :
  halftimeFlags (checkForScoreCap silent s) = halftimeFlags s
  /\ core (checkForScoreCap silent s) = core s.
Proof.
  split; [|apply core_checkForScoreCap].
  unfold checkForScoreCap.
  repeat match goal with
         | |- context [if ?c then _ else _] => destruct c
         end; reflexivity.
Qed.

(** What an accepted halftime records. *)
Lemma handleHalftime_accepted (silent : bool) (reason : string) (s : App) :
  matchStarted s = true -> halftimeTriggered s = false ->
  truthy reason = true ->
  let s' := fst (handleHalftime silent reason s) in
  halftimeFlags s' = (true, true, false, None, Some reason)
  /\ teamAScore s' = teamAScore s /\ teamBScore s' = teamBScore s
  /\ exists entry,
       scoreLogs (dataManager s') = scoreLogs (dataManager s) ++ [entry]
       /\ Type_ entry = halftime /\ HalftimeReason entry = Some reason
       /\ scoreID entry = toString (now s).
Proof.
  intros Hs Ht Hr. unfold handleHalftime. rewrite Hs, Ht, Hr.
  simpl negb. cbv match. cbv zeta.
  match goal with
  | |- context [recordSpecialEvent halftime None ?e ?x] =>
      pose proof (recordSpecialEvent_state halftime None e x) as HS;
      pose proof (recordSpecialEvent_logs halftime None e x) as HL;
      pose proof (recordSpecialEvent_entry halftime None e x) as HE;
      cbv zeta in HE;
      assert (F1 : matchStarted x = true) by exact Hs;
      assert (F5 : halftimeReasonResolved x = Some reason) by reflexivity;
      assert (HXl : scoreLogs (dataManager x) = scoreLogs (dataManager s))
        by reflexivity;
      assert (HXa : teamAScore x = teamAScore s) by reflexivity;
      assert (HXb : teamBScore x = teamBScore s) by reflexivity;
      assert (HXn : now x = now s) by reflexivity;
      destruct (recordSpecialEvent halftime None e x) as [s3 entry];
      revert HS HL HE F1 F5 HXl HXa HXb HXn; generalize x;
      intros y HS HL HE F1 F5 HXl HXa HXb HXn
  end.
  cbn [fst snd] in *. destruct HE as (Hty & _ & Hreason & Hid & _).
  rewrite HXl in HL. rewrite HXn in Hid.
  assert (Hlatest :
            lastOf (filter (fun log => LogType_eqb (Type_ log) halftime)
                      (scoreLogs (dataManager s3))) = Some entry).
  { rewrite HL, filter_app. cbn [filter]. rewrite Hty. cbn [LogType_eqb].
    apply lastOf_snoc. }
  assert (Hview : forall w,
             scoreLogs (dataManager w) = scoreLogs (dataManager s3) ->
             halftimeReasonResolved w = Some reason ->
             matchStarted w = true ->
             teamAScore w = teamAScore s -> teamBScore w = teamBScore s ->
             let u := updateHalftimeTracking w in
             matchStarted u = true /\ halftimeTriggered u = true
             /\ halftimeReasonResolved u = Some reason
             /\ scoreLogs (dataManager u) = scoreLogs (dataManager s3)
             /\ teamAScore u = teamAScore s /\ teamBScore u = teamBScore s).
  { intros w Hw Hres Hm Ha Hb. unfold updateHalftimeTracking.
    rewrite Hw, Hlatest. cbv zeta. cbn [isSome option_map].
    change (halftimeTriggered (set_currentHalftimeEditID ?a
                                 (set_halftimeTriggered true ?b))) with true.
    cbv match.
    change (halftimeReasonResolved
              (set_halftimePendingReason ?a
                 (set_currentHalftimeEditID ?b (set_halftimeTriggered ?c w))))
      with (halftimeReasonResolved w).
    rewrite Hres. cbn [truthyOpt]. rewrite Hr. cbn [negb].
    cbn. repeat split; assumption. }
  assert (Hfinal : forall u,
             matchStarted u = true -> halftimeTriggered u = true ->
             halftimeReasonResolved u = Some reason ->
             scoreLogs (dataManager u) = scoreLogs (dataManager s3) ->
             teamAScore u = teamAScore s -> teamBScore u = teamBScore s ->
             let v :=
               autoSave
                 (if negb silent
                  then showNotification "Halftime recorded." info
                         (set_halftimeAutoSuppressed false
                            (set_halftimePendingReason None u))
                  else set_halftimeAutoSuppressed false
                         (set_halftimePendingReason None u)) in
             halftimeFlags v = (true, true, false, None, Some reason)
             /\ teamAScore v = teamAScore s /\ teamBScore v = teamBScore s
             /\ scoreLogs (dataManager v) = scoreLogs (dataManager s3)).
  { intros u G1 G2 G5 Gl Ga Gb. cbv zeta.
    match goal with
    | |- context [autoSave ?w] =>
        rewrite (autoSave_state w);
        pose proof (core_autoSave w) as Hc; unfold core in Hc;
        injection Hc as _ _ _ _ Hlogs;
        revert Hlogs; generalize (dataManager (autoSave w)); intros d Hlogs
    end.
    unfold halftimeFlags.
    destruct silent; cbn in *; rewrite ?G1, ?G2, ?G5, ?Hlogs;
      repeat split; assumption. }
  cbn [fst]. rewrite HS.
  destruct (truthy (scoreID entry));
    match goal with
    | |- context [updateHalftimeTracking ?w] =>
        destruct (Hview w) as (G1 & G2 & G5 & Gl & Ga & Gb);
        [ reflexivity | exact F5 | exact F1 | exact HXa | exact HXb | ];
        destruct (Hfinal (updateHalftimeTracking w) G1 G2 G5 Gl Ga Gb)
          as (K1 & K2 & K3 & K4)
    end;
    (split; [exact K1|]); (split; [exact K2|]); (split; [exact K3|]);
    exists entry; rewrite K4, HL; auto.
Qed.


Lemma handleHalftime_succeeds (silent : bool) (reason : string) (s : App) :
  matchStarted s = true -> halftimeTriggered s = false ->
  snd (handleHalftime silent reason s) = true.
Proof.
  intros Hs Ht. apply (timeoutState_handleHalftime silent reason s Hs Ht).
Qed.

Lemma maybeTriggerHalftimeByScore_fires (s : App) :
  matchStarted s = true -> halftimeTriggered s = false ->
  truthyOpt (halftimeReasonResolved s) = false ->
  halftimeAutoSuppressed s = false ->
  CONFIG.HALFTIME_SCORE_TARGET <= Z.max (teamAScore s) (teamBScore s) ->
  maybeTriggerHalftimeByScore s
  = showNotification
      ("Halftime reached once a team scored "
       ++ toString CONFIG.HALFTIME_SCORE_TARGET ++ " points.") info
      (fst (handleHalftime true "score" s)).
Proof.
  intros Hs Ht Hr Hsup Hlead. unfold maybeTriggerHalftimeByScore.
  rewrite Hs, Ht, Hr, Hsup. cbn [negb orb]. cbv zeta beta.
  apply Z.leb_le in Hlead. rewrite Hlead.
  pose proof (handleHalftime_succeeds true "score" s Hs Ht) as Hsnd.
  destruct (handleHalftime true "score" s) as [s' b]. cbn [snd fst] in *.
  rewrite Hsnd. reflexivity.
Qed.

Lemma maybeTriggerHalftimeByScore_idle (s : App) :
  matchStarted s = true -> halftimeTriggered s = false ->
  truthyOpt (halftimeReasonResolved s) = false ->
  halftimeAutoSuppressed s = true
  \/ Z.max (teamAScore s) (teamBScore s) < CONFIG.HALFTIME_SCORE_TARGET ->
  maybeTriggerHalftimeByScore s = s
  \/ maybeTriggerHalftimeByScore s = set_halftimeAutoSuppressed false s.
Proof.
  intros Hs Ht Hr Hcase. unfold maybeTriggerHalftimeByScore.
  rewrite Hs, Ht, Hr. cbn [negb orb]. cbv zeta beta.
  destruct (halftimeAutoSuppressed s) eqn:Hsup.
  - destruct (Z.max (teamAScore s) (teamBScore s) <? CONFIG.HALFTIME_SCORE_TARGET)
      eqn:Hlt; [|left; reflexivity].
    apply Z.ltb_lt in Hlt.
    change (teamAScore (set_halftimeAutoSuppressed false s)) with (teamAScore s).
    change (teamBScore (set_halftimeAutoSuppressed false s)) with (teamBScore s).
    destruct (CONFIG.HALFTIME_SCORE_TARGET
              <=? Z.max (teamAScore s) (teamBScore s)) eqn:Hle;
      [apply Z.leb_le in Hle; lia|].
    right. reflexivity.
  - destruct Hcase as [Hc|Hc]; [discriminate Hc|].
    destruct (CONFIG.HALFTIME_SCORE_TARGET
              <=? Z.max (teamAScore s) (teamBScore s)) eqn:Hle;
      [apply Z.leb_le in Hle; lia|].
    left. reflexivity.
Qed.

Lemma attemptPendingHalftime_fires (s : App) :
  matchStarted s = true -> halftimeTriggered s = false ->
  truthyOpt (halftimeReasonResolved s) = false ->
  halftimePendingReason s = Some "clock" ->
  attemptPendingHalftime s
  = showNotification "Halftime break started after the latest point." info
      (fst (handleHalftime true "clock" s)).
Proof.
  intros Hs Ht Hr Hp. unfold attemptPendingHalftime.
  rewrite Hs, Ht, Hr, Hp. cbn [negb orb String.eqb Ascii.eqb Bool.eqb].
  pose proof (handleHalftime_succeeds true "clock" s Hs Ht) as Hsnd.
  destruct (handleHalftime true "clock" s) as [s' b]. cbn [snd fst] in *.
  rewrite Hsnd. reflexivity.
Qed.

Lemma attemptPendingHalftime_declared (s : App) :
  halftimeTriggered s = true -> attemptPendingHalftime s = s.
Proof.
  intros Ht. unfold attemptPendingHalftime. rewrite Ht.
  destruct (matchStarted s); reflexivity.
Qed.


(** A point is on the board, the clock flag is pending: the two triggers
    run one after the other and exactly one halftime entry follows. *)
Lemma halftime_after_point (p : App) :
  matchStarted p = true -> halftimeTriggered p = false ->
  halftimeReasonResolved p = None ->
  halftimePendingReason p = Some "clock" ->
  let s' := closePopup (attemptPendingHalftime (maybeTriggerHalftimeByScore p)) in
  let reason :=
    if (CONFIG.HALFTIME_SCORE_TARGET <=? Z.max (teamAScore p) (teamBScore p))
       && negb (halftimeAutoSuppressed p)
    then "score" else "clock" in
  halftimeFlags s' = (true, true, false, None, Some reason)
  /\ teamAScore s' = teamAScore p /\ teamBScore s' = teamBScore p
  /\ exists entry,
       scoreLogs (dataManager s') = scoreLogs (dataManager p) ++ [entry]
       /\ Type_ entry = halftime /\ HalftimeReason entry = Some reason
       /\ scoreID entry = toString (now p).
Proof.
  intros Hs Ht Hr Hp.
  assert (Hr' : truthyOpt (halftimeReasonResolved p) = false)
    by (rewrite Hr; reflexivity).
  destruct ((CONFIG.HALFTIME_SCORE_TARGET <=? Z.max (teamAScore p) (teamBScore p))
            && negb (halftimeAutoSuppressed p)) eqn:Hby; cbv zeta.
  - apply andb_prop in Hby. destruct Hby as [Hle Hsup].
    apply Z.leb_le in Hle. apply negb_true_iff in Hsup.
    rewrite (maybeTriggerHalftimeByScore_fires p Hs Ht Hr' Hsup Hle).
    pose proof (handleHalftime_accepted true "score" p Hs Ht eq_refl) as Hacc.
    cbv zeta in Hacc. revert Hacc.
    generalize (fst (handleHalftime true "score" p)). intros h Hacc.
    rewrite attemptPendingHalftime_declared.
    + exact Hacc.
    + destruct Hacc as [Hflags _]. unfold halftimeFlags in Hflags.
      change (halftimeTriggered h = true). congruence.
  - assert (Hcase : halftimeAutoSuppressed p = true
                    \/ Z.max (teamAScore p) (teamBScore p)
                       < CONFIG.HALFTIME_SCORE_TARGET).
    { apply andb_false_iff in Hby. destruct Hby as [Hle|Hsup].
      - right. apply Z.leb_gt in Hle. exact Hle.
      - left. apply negb_false_iff in Hsup. exact Hsup. }
    assert (Hafter :
      forall q, matchStarted q = true -> halftimeTriggered q = false ->
        halftimeReasonResolved q = None -> halftimePendingReason q = Some "clock" ->
        teamAScore q = teamAScore p -> teamBScore q = teamBScore p ->
        scoreLogs (dataManager q) = scoreLogs (dataManager p) -> now q = now p ->
        halftimeFlags (closePopup (attemptPendingHalftime q))
        = (true, true, false, None, Some "clock")
        /\ teamAScore (closePopup (attemptPendingHalftime q)) = teamAScore p
        /\ teamBScore (closePopup (attemptPendingHalftime q)) = teamBScore p
        /\ exists entry,
             scoreLogs (dataManager (closePopup (attemptPendingHalftime q)))
             = scoreLogs (dataManager p) ++ [entry]
             /\ Type_ entry = halftime /\ HalftimeReason entry = Some "clock"
             /\ scoreID entry = toString (now p)).
    { intros q Qs Qt Qr Qp Qa Qb Ql Qn.
      assert (Qr' : truthyOpt (halftimeReasonResolved q) = false)
        by (rewrite Qr; reflexivity).
      rewrite (attemptPendingHalftime_fires q Qs Qt Qr' Qp).
      pose proof (handleHalftime_accepted true "clock" q Qs Qt eq_refl) as Hacc.
      cbv zeta in Hacc. revert Hacc.
      generalize (fst (handleHalftime true "clock" q)). intros h Hacc.
      rewrite <- Qa, <- Qb, <- Ql, <- Qn. exact Hacc. }
    destruct (maybeTriggerHalftimeByScore_idle p Hs Ht Hr' Hcase) as [E|E];
      rewrite E; apply Hafter; auto.
Qed.

(** The flags and the log just after [addNewScore] has appended its
    entry and checked the score cap. *)
Lemma addNewScore_unfolds (team : TeamKey) (scorer assist : string) (s : App) :
  exists p,
    addNewScore team scorer assist s
    = closePopup (attemptPendingHalftime (maybeTriggerHalftimeByScore p))
    /\ halftimeFlags p = halftimeFlags s
    /\ now p = now s
    /\ scoreLogs (dataManager p)
       = scoreLogs (dataManager s)
         ++ [createLogObject (toString (now s)) (Some team) scorer assist None s].
Proof.
  unfold addNewScore. cbv zeta.
  match goal with
  | |- context [checkForScoreCap false ?x] =>
      exists (checkForScoreCap false x);
      destruct (checkForScoreCap_view false x) as [Hf Hc];
      assert (Hn : now (checkForScoreCap false x) = now x)
  end.
  { unfold checkForScoreCap.
    repeat match goal with
           | |- context [if ?c then _ else _] => destruct c
           end; reflexivity. }
  split; [reflexivity|]. rewrite Hf, Hn. unfold core in Hc.
  split; [destruct team; reflexivity|].
  split; [destruct team; reflexivity|].
  assert (Hl := f_equal snd Hc). cbn [snd] in Hl. rewrite Hl.
  destruct team; reflexivity.
Qed.


(** The clock trigger only raises the pending flag. *)
Lemma handleMainTimerTick_marks (total : Z) (s : App) :
  matchStarted s = true -> halftimeTriggered s = false ->
  halftimeAutoSuppressed s = false ->
  0 < matchDuration (gameSettings s) - halftimeDuration (gameSettings s) ->
  Z.max 0 total
  <= (matchDuration (gameSettings s) - halftimeDuration (gameSettings s)) * 60 * 1000 ->
  let s' := handleMainTimerTick total s in
  halftimeFlags s'
  = (true, false, false, Some "clock", halftimeReasonResolved s)
  /\ core s' = core s.
Proof.
  intros Hs Ht Hsup Hpos Hle. cbv zeta.
  unfold handleMainTimerTick, maybeTriggerHalftimeByTime.
  rewrite Hs, Ht, Hsup. cbn [negb orb]. cbv zeta beta.
  rewrite (Z.max_r 0 _ (Z.lt_le_incl _ _ Hpos)).
  destruct (_ <=? 0) eqn:E0; [apply Z.leb_le in E0; lia|].
  apply Z.leb_le in Hle. rewrite Hle.
  destruct (halftimePendingReason s) as [r|] eqn:Hp; cbn [negb].
  - destruct (String.eqb r "clock") eqn:Er; cbn [negb].
    + apply String.eqb_eq in Er. subst r.
      unfold halftimeFlags. rewrite Hs, Ht, Hsup, Hp. split; reflexivity.
    + unfold halftimeFlags, core. cbn. rewrite Hs, Ht, Hsup. split; reflexivity.
  - unfold halftimeFlags, core. cbn. rewrite Hs, Ht, Hsup. split; reflexivity.
Qed.

(** C4 (amended): when the match is running, halftime is neither declared
    nor suppressed by an earlier removal, the configured threshold
    (match duration minus halftime duration) is positive and the primary
    clock's remaining time is at or below it, the timer tick declares no
    halftime: it only sets the pending flag to the clock reason, leaving
    the log and the scoreboard alone.  From any state that carries this
    pending flag, the next added score appends its score entry followed
    by exactly one halftime entry, the halftime is declared and the
    pending flag is cleared; the recorded reason is the score trigger
    when the new leading score reaches the halftime target (and the score
    trigger is not suppressed), the clock otherwise. *)
Theorem pending_clock_halftime (total : Z) (s pending : App)
  (team : TeamKey) (scorer assist : string) :
  matchStarted s = true -> halftimeTriggered s = false ->
  halftimeAutoSuppressed s = false ->
  0 < matchDuration (gameSettings s) - halftimeDuration (gameSettings s) ->
  Z.max 0 total
  <= (matchDuration (gameSettings s) - halftimeDuration (gameSettings s)) * 60 * 1000 ->
  matchStarted pending = true -> halftimeTriggered pending = false ->
  halftimeReasonResolved pending = None ->
  halftimePendingReason pending = Some "clock" ->
  let ticked := handleMainTimerTick total s in
  let scored := addNewScore team scorer assist pending in
  let reason :=
    if (CONFIG.HALFTIME_SCORE_TARGET
        <=? Z.max (teamAScore scored) (teamBScore scored))
       && negb (halftimeAutoSuppressed pending)
    then "score" else "clock" in
  (matchStarted ticked = true
   /\ halftimeTriggered ticked = false
   /\ halftimePendingReason ticked = Some "clock"
   /\ halftimeReasonResolved ticked = halftimeReasonResolved s
   /\ scoreLogs (dataManager ticked) = scoreLogs (dataManager s)
   /\ teamAScore ticked = teamAScore s /\ teamBScore ticked = teamBScore s)
  /\ (halftimeTriggered scored = true
      /\ halftimePendingReason scored = None
      /\ halftimeReasonResolved scored = Some reason
      /\ exists scoreEntry halftimeEntry,
           scoreLogs (dataManager scored)
           = scoreLogs (dataManager pending) ++ [scoreEntry; halftimeEntry]
           /\ Type_ scoreEntry = score
           /\ TeamLetter scoreEntry = Some team
           /\ Type_ halftimeEntry = halftime
           /\ HalftimeReason halftimeEntry = Some reason).
Proof.
  intros Hs Ht Hsup Hpos Hle Ps Pt Pr Pp. cbv zeta. split.
  - destruct (handleMainTimerTick_marks total s Hs Ht Hsup Hpos Hle) as [Hf Hc].
    cbv zeta in Hf, Hc. revert Hf Hc.
    generalize (handleMainTimerTick total s). intros t Hf Hc.
    unfold halftimeFlags in Hf. unfold core in Hc.
    inversion Hf. inversion Hc. repeat split; reflexivity.
  - destruct (addNewScore_unfolds team scorer assist pending)
      as [p [Hadd [Hflags [Hnow Hlogs]]]].
    rewrite Hadd. unfold halftimeFlags in Hflags.
    assert (Qs : matchStarted p = true) by congruence.
    assert (Qt : halftimeTriggered p = false) by congruence.
    assert (Qr : halftimeReasonResolved p = None) by congruence.
    assert (Qp : halftimePendingReason p = Some "clock") by congruence.
    assert (Qsup : halftimeAutoSuppressed p = halftimeAutoSuppressed pending)
      by congruence.
    destruct (halftime_after_point p Qs Qt Qr Qp)
      as [Hf [Ha [Hb [entry [Hl [Hty [Hre _]]]]]]].
    cbv zeta in Hf, Ha, Hb, Hl, Hre. revert Hf Ha Hb Hl Hre.
    generalize (closePopup (attemptPendingHalftime (maybeTriggerHalftimeByScore p))).
    intros q Hf Ha Hb Hl Hre. rewrite Ha, Hb, <- Qsup.
    unfold halftimeFlags in Hf.
    assert (F1 : halftimeTriggered q = true) by congruence.
    assert (F2 : halftimePendingReason q = None) by congruence.
    assert (F3 : halftimeReasonResolved q
                 = Some (if (CONFIG.HALFTIME_SCORE_TARGET
                             <=? Z.max (teamAScore p) (teamBScore p))
                            && negb (halftimeAutoSuppressed p)
                         then "score" else "clock")) by congruence.
    refine (conj F1 (conj F2 (conj F3 _))).
    exists (createLogObject (toString (now pending)) (Some team) scorer assist
              None pending), entry.
    rewrite Hl, Hlogs, <- app_assoc.
    refine (conj eq_refl (conj eq_refl (conj eq_refl (conj Hty Hre)))).
Qed.


(** ** Launch *)

(** C5 (amended): when the operator refuses to restore a snapshot less
    than 24 hours old, the cached roster data is kept, but the match
    configuration is not: the stored snapshot is replaced by the default
    one, so the event log is emptied and the stored configuration, the
    running configuration and the gender-sequence setting all become the
    defaults (100, 55, 7, 75, 2, 0 and M).  The match-started, stoppage
    and score-cap flags are cleared.  Not everything else is reset: the
    running state of both clocks, the scoreboard fields, the timeout
    counters and the team selections are left as they were. *)
Theorem refused_restore_resets_configuration (s : App) :
  gs_timestamp (gameState (dataManager s)) <> 0 ->
  now s - gs_timestamp (gameState (dataManager s)) < 24 * 60 * 60 * 1000 ->
  let s' := checkAndRestoreState false s in
  teamsData (dataManager s') = teamsData (dataManager s)
  /\ scoreLogs (dataManager s') = []
  /\ gameState (dataManager s') = defaultGameState (now s)
  /\ storedMatchConfig s' = (defaultGameSettings, M)
  /\ gameSettings s' = defaultGameSettings
  /\ abbaStart s' = M
  /\ (matchStarted s', gameStoppageActive s', hardCapReached s', isRestoring s')
     = (false, false, false, false)
  /\ (isRunning (timerManager s'), endTime (timerManager s'),
      remainingTimeMs (timerManager s'))
     = (isRunning (timerManager s), endTime (timerManager s),
        remainingTimeMs (timerManager s))
  /\ (sec_isRunning (secondsTimer s'), sec_endTime (secondsTimer s'),
      sec_remainingTimeMs (secondsTimer s'))
     = (sec_isRunning (secondsTimer s), sec_endTime (secondsTimer s),
        sec_remainingTimeMs (secondsTimer s))
  /\ (teamAScore s', teamBScore s', timeoutState s', teamA s', teamB s')
     = (teamAScore s, teamBScore s, timeoutState s, teamA s, teamB s).
Proof.
  intros Hts Hrecent. cbv zeta. unfold checkAndRestoreState.
  apply Z.eqb_neq in Hts. apply Z.ltb_lt in Hrecent.
  rewrite Hts, Hrecent. cbn [negb andb]. cbv zeta.
  destruct s as [d t c]. destruct d, t, c.
  repeat split.
Qed.

(** ** Export *)

Lemma orElse_label (log : LogEntry) :
  createdByApp log ->
  orElse (EventType log) (getEventTypeLabel (Type_ log))
  = getEventTypeLabel (Type_ log).
Proof.
  intros [_ E]. rewrite E. unfold orElse.
  destruct (truthy (getEventTypeLabel (Type_ log))); reflexivity.
Qed.

(** C6 (amended): after any sequence of operator actions and timer
    events from a freshly loaded application, the exported rows are the
    header GameID, Time, Event, Team, Score, Assist followed by one row
    per event-log entry in insertion order; the Event column of a row is
    the fixed label of the entry's kind, which is [Score] for a score
    entry (not empty) and [TimeOut], [HalfTime], [Stoppage], [Start] for
    timeout, halftime, stoppage and match-start entries; and Submit
    downloads exactly these rows, as CSV lines joined by CR LF, unless
    the log is empty, in which case nothing is exported. *)
Theorem export_rows_and_event_labels (now_ : Z) (actions : list Action)
  (sink : option string) :
  let s := run actions (freshApp now_) in
  let logs := scoreLogs (dataManager s) in
  hd [] (exportRows s) = ["GameID"; "Time"; "Event"; "Team"; "Score"; "Assist"]
  /\ tl (exportRows s)
     = map (fun log =>
              [orElse (GameID log) (currentGameID s); Time log;
               match Type_ log with
               | score => "Score"
               | timeout => "TimeOut"
               | halftime => "HalfTime"
               | stoppage => "Stoppage"
               | matchstart => "Start"
               end;
               Team log; Score log; Assist log]) logs
  /\ map eventColumn (tl (exportRows s))
     = map (fun log => getEventTypeLabel (Type_ log)) logs
  /\ option_map snd (snd (handleSubmitScore sink s))
     = match logs with
       | [] => None
       | _ => Some (join CRLF (map toCSVLine (exportRows s)))
       end.
Proof.
  intros s logs.
  assert (C : Consistent s) by apply Consistent_run, Consistent_freshApp.
  destruct C as (_ & _ & CF). fold logs in CF.
  assert (Hrows :
    map (exportFields (currentGameID s)) logs
    = map (fun log =>
              [orElse (GameID log) (currentGameID s); Time log;
               getEventTypeLabel (Type_ log);
               Team log; Score log; Assist log]) logs).
  { apply map_ext_in. intros log Hin. unfold exportFields. cbv zeta.
    rewrite orElse_label; [reflexivity|].
    rewrite Forall_forall in CF. apply CF, Hin. }
  refine (conj eq_refl (conj _ (conj _ _))).
  - unfold exportRows. cbn [tl]. fold logs. rewrite Hrows.
    apply map_ext. intros log. destruct (Type_ log); reflexivity.
  - unfold exportRows. cbn [tl]. fold logs. rewrite Hrows, map_map.
    reflexivity.
  - unfold handleSubmitScore. fold logs. destruct logs; reflexivity.
Qed.

(** ** [Utils]: CSV writing and reading *)

Lemma append_assoc (a b c : string) : ((a ++ b) ++ c = a ++ (b ++ c))%string.
Proof.
  induction a as [|x a IH]; simpl; [reflexivity|]. rewrite IH. reflexivity.
Qed.

Lemma append_nil_r (a : string) : (a ++ EmptyString)%string = a.
Proof.
  induction a as [|x a IH]; simpl; [reflexivity|]. rewrite IH. reflexivity.
Qed.

Lemma isChar_eq (code : nat) (c : ascii) :
  isChar code c = true -> c = ascii_of_nat code.
Proof.
  unfold isChar. intros H. apply Nat.eqb_eq in H. rewrite <- H.
  symmetry. apply ascii_nat_embedding.
Qed.

(** A field written without quotes is read back character by character. *)
Lemma parseLoop_plain (field tail : string) (rows : list (list string))
  (row : list string) (cell : string) :
  needsQuoting field = false ->
  parseLoop (field ++ tail) rows row cell false
  = parseLoop tail rows row (cell ++ field) false.
Proof.
  revert cell. induction field as [|c field IH]; intros cell H.
  - simpl. rewrite append_nil_r. reflexivity.
  - simpl in H. fold (isChar 34 c) (isChar 44 c) (isChar 10 c) (isChar 13 c) in H.
    apply orb_false_iff in H. destruct H as [H Hrest].
    apply orb_false_iff in H. destruct H as [H Hcr].
    apply orb_false_iff in H. destruct H as [H Hlf].
    apply orb_false_iff in H. destruct H as [Hq Hcomma].
    simpl append. cbn [parseLoop].
    rewrite Hq, Hcomma, Hlf, Hcr. cbn [andb orb negb].
    rewrite IH by assumption. rewrite append_assoc. reflexivity.
Qed.

(** Inside quotes every character but a carriage return is kept, a
    doubled quote is one quote, and the closing quote ends the field. *)
Lemma parseLoop_quoted (field tail : string) (rows : list (list string))
  (row : list string) (cell : string) :
  hasChar 13 field = false ->
  startsWithQuote tail = false ->
  parseLoop (doubleQuotes field ++ String dquote tail) rows row cell true
  = parseLoop tail rows row (cell ++ field) false.
Proof.
  intros Hcr Htail. revert cell Hcr.
  induction field as [|c field IH]; intros cell Hcr.
  - simpl append. rewrite append_nil_r. cbn [parseLoop].
    change (isChar 34 dquote) with true. cbv iota.
    destruct tail as [|next rest']; [reflexivity|].
    cbn [startsWithQuote] in Htail. rewrite Htail. reflexivity.
  - cbn [hasChar] in Hcr. apply orb_false_iff in Hcr. destruct Hcr as [Hc Hcr].
    cbn [doubleQuotes]. fold (isChar 34 c).
    destruct (isChar 34 c) eqn:Hq.
    + apply isChar_eq in Hq. subst c. simpl append. cbn [parseLoop].
      change (isChar 34 dquote) with true. cbv iota.
      rewrite IH by assumption. rewrite append_assoc. reflexivity.
    + simpl append. cbn [parseLoop]. rewrite Hq, Hc. cbn [andb orb negb].
      rewrite andb_false_r. cbn [andb orb negb].
      rewrite andb_false_r.
      rewrite IH by assumption. rewrite append_assoc. reflexivity.
Qed.

Lemma parseLoop_field (field tail : string) (rows : list (list string))
  (row : list string) :
  hasChar 13 field = false ->
  startsWithQuote tail = false ->
  parseLoop (csvField field ++ tail) rows row EmptyString false
  = parseLoop tail rows row field false.
Proof.
  intros Hcr Htail. unfold csvField.
  destruct (needsQuoting field) eqn:Hq.
  - simpl append. cbn [parseLoop]. change (isChar 34 dquote) with true.
    cbv iota. cbn [negb]. rewrite append_assoc. simpl append.
    rewrite parseLoop_quoted by assumption. reflexivity.
  - rewrite parseLoop_plain by assumption. reflexivity.
Qed.

Lemma toCSVLine_cons (f g : string) (fs : list string) :
  toCSVLine (f :: g :: fs)
  = (csvField f ++ String (ascii_of_nat 44) (toCSVLine (g :: fs)))%string.
Proof. reflexivity. Qed.

(** One written line is read back as its fields: all but the last are in
    the row, the last is the current cell. *)
Lemma parseLoop_line (fs : list string) :
  forall (f tail : string) (rows : list (list string)) (row : list string),
    Forall (fun field => hasChar 13 field = false) (f :: fs) ->
    startsWithQuote tail = false ->
    parseLoop (toCSVLine (f :: fs) ++ tail) rows row EmptyString false
    = parseLoop tail rows (row ++ removelast (f :: fs)) (last (f :: fs) EmptyString)
        false.
Proof.
  induction fs as [|g gs IH]; intros f tail rows row Hcr Htail.
  - inversion Hcr; subst. change (toCSVLine [f]) with (csvField f).
    rewrite parseLoop_field by assumption. cbn [removelast last].
    rewrite app_nil_r. reflexivity.
  - inversion Hcr; subst. rewrite toCSVLine_cons, append_assoc.
    rewrite parseLoop_field by (assumption || reflexivity).
    simpl append. cbn [parseLoop].
    change (isChar 34 (ascii_of_nat 44)) with false.
    change (isChar 44 (ascii_of_nat 44)) with true. cbn [andb negb]. cbv iota.
    rewrite IH by assumption.
    change (removelast (f :: g :: gs)) with (f :: removelast (g :: gs)).
    change (last (f :: g :: gs) EmptyString) with (last (g :: gs) EmptyString).
    rewrite <- app_assoc. reflexivity.
Qed.

Lemma hasContent_properRow (f : string) (fs : list string) :
  properRow (f :: fs) = true ->
  hasContent (removelast (f :: fs)) (last (f :: fs) EmptyString) = true.
Proof.
  unfold hasContent. destruct fs as [|g gs].
  - cbn [properRow removelast last]. intros H. destruct f; [discriminate H|].
    reflexivity.
  - intros _. change (removelast (f :: g :: gs)) with (f :: removelast (g :: gs)).
    cbn [List.length Nat.eqb negb]. apply orb_true_r.
Qed.

Lemma parseLoop_rows (rs : list (list string)) :
  forall acc,
    Forall (fun row => properRow row = true) rs ->
    Forall (Forall (fun field => hasChar 13 field = false)) rs ->
    parseLoop (join CRLF (map toCSVLine rs)) acc [] EmptyString false = acc ++ rs.
Proof.
  induction rs as [|r rest IH]; intros acc Hp Hcr.
  - cbn. rewrite app_nil_r. reflexivity.
  - inversion Hp as [|? ? Hr Hp']; subst. inversion Hcr as [|? ? Hc Hcr']; subst.
    destruct r as [|f fs]; [discriminate Hr|].
    assert (Hfields : removelast (f :: fs) ++ [last (f :: fs) EmptyString] = f :: fs)
      by (symmetry; apply app_removelast_last; discriminate).
    destruct rest as [|r2 rest].
    + change (join CRLF (map toCSVLine [f :: fs])) with (toCSVLine (f :: fs)).
      rewrite <- (append_nil_r (toCSVLine (f :: fs))).
      rewrite parseLoop_line by (assumption || reflexivity).
      cbn [parseLoop app]. rewrite hasContent_properRow by assumption.
      rewrite Hfields. reflexivity.
    + change (join CRLF (map toCSVLine ((f :: fs) :: r2 :: rest)))
        with (toCSVLine (f :: fs)
              ++ (CRLF ++ join CRLF (map toCSVLine (r2 :: rest))))%string.
      rewrite parseLoop_line by (assumption || reflexivity).
      unfold CRLF at 1. simpl append. cbn [parseLoop app].
      change (isChar 34 (ascii_of_nat 13)) with false.
      change (isChar 44 (ascii_of_nat 13)) with false.
      change (isChar 13 (ascii_of_nat 13)) with true.
      change (isChar 34 (ascii_of_nat 10)) with false.
      change (isChar 44 (ascii_of_nat 10)) with false.
      change (isChar 10 (ascii_of_nat 10)) with true.
      cbn [andb orb negb]. cbv iota.
      rewrite orb_true_r. cbn [andb orb negb]. cbv iota.
      rewrite hasContent_properRow by assumption.
      change (hasContent [] EmptyString) with false. cbv iota.
      rewrite Hfields, IH by assumption.
      rewrite <- app_assoc. reflexivity.
Qed.

(** X1.  Reading back what was written.  Rows written by [Utils.toCSVLine]
    and joined by CR LF are read back by [Utils.parseCSV] as the same rows,
    field for field (commas, quotes and line feeds inside a field
    included), provided no field holds a carriage return and no row is
    empty or a single empty field. *)
Theorem parseCSV_toCSVLine (rows : list (list string)) :
  Forall (fun row => properRow row = true) rows ->
  Forall (Forall (fun field => hasChar 13 field = false)) rows ->
  parseCSV (join CRLF (map toCSVLine rows)) = rows.
Proof.
  intros Hp Hcr. unfold parseCSV. rewrite parseLoop_rows by assumption.
  reflexivity.
Qed.

(** X2.  The exported file reads back.  When no exported field holds a
    carriage return, the CSV text that Submit downloads is read by
    [Utils.parseCSV] as the header followed by the six fields of every log
    entry, in log order. *)
Theorem exported_csv_reads_back (sink : option string) (s : App) :
  scoreLogs (dataManager s) <> [] ->
  Forall (Forall (fun field => hasChar 13 field = false)) (exportRows s) ->
  exists filename csv,
    snd (handleSubmitScore sink s) = Some (filename, csv)
    /\ parseCSV csv
       = csvHeader
         :: map (exportFields (currentGameID s)) (scoreLogs (dataManager s)).
Proof.
  intros Hlogs Hcr.
  exists (sanitizeFilename (orElse (currentGameID s) "Game") ++ ".csv")%string,
    (exportCSV s).
  split.
  - unfold handleSubmitScore.
    destruct (scoreLogs (dataManager s)); [contradiction Hlogs; reflexivity|].
    reflexivity.
  - unfold exportCSV, parseCSV. rewrite parseLoop_rows; [reflexivity| |exact Hcr].
    unfold exportRows. constructor; [reflexivity|].
    apply Forall_forall. intros row Hin. apply in_map_iff in Hin.
    destruct Hin as [log [<- _]]. reflexivity.
Qed.

(** ** [Utils]: file names and the roster table *)

Lemma anyChar_replaceUnsafe (s : string) :
  anyChar isUnsafeFilenameChar (replaceUnsafe s) = false.
Proof.
  induction s as [|c s IH]; [reflexivity|].
  cbn [replaceUnsafe anyChar]. rewrite IH, orb_false_r.
  destruct (isUnsafeFilenameChar c) eqn:H; [reflexivity|exact H].
Qed.

Lemma anyChar_substring (p : ascii -> bool) (s : string) :
  anyChar p s = false -> forall n, anyChar p (substring 0 n s) = false.
Proof.
  induction s as [|c s IH]; intros H n.
  - destruct n; reflexivity.
  - cbn [anyChar] in H. apply orb_false_iff in H. destruct H as [Hc Hs].
    destruct n; [reflexivity|]. cbn [substring anyChar].
    rewrite Hc, IH by assumption. reflexivity.
Qed.

Lemma length_substring (s : string) :
  forall n, (String.length (substring 0 n s) <= n)%nat.
Proof.
  induction s as [|c s IH]; intros [|n]; cbn [substring String.length]; try lia.
  specialize (IH n). lia.
Qed.

Lemma length_replaceUnsafe (s : string) :
  String.length (replaceUnsafe s) = String.length s.
Proof.
  induction s as [|c s IH]; [reflexivity|]. cbn [replaceUnsafe String.length].
  rewrite IH. reflexivity.
Qed.

(** X3.  Download file names.  Whatever the name given,
    [Utils.sanitizeFilename] returns a non-empty name of at most 120 code
    units that holds none of the characters the code replaces (the angle
    brackets, colon, double quote, slash, backslash, bar, question mark,
    asterisk and the control characters up to U+001F); a name that is
    blank after trimming (white space only, the no-break space included)
    becomes [Game], and a name of up to 120 code units after trimming
    keeps that length. *)
Theorem sanitizeFilename_safe (name : string) :
  let file := sanitizeFilename name in
  file <> EmptyString
  /\ (String.length file <= 120)%nat
  /\ anyChar isUnsafeFilenameChar file = false
  /\ (trim name = EmptyString -> file = "Game")
  /\ ((0 < String.length (trim name) <= 120)%nat ->
      String.length file = String.length (trim name)).
Proof.
  cbv zeta. unfold sanitizeFilename. cbv zeta.
  set (base := orElse (trim name) "Game").
  assert (Hbase : base <> EmptyString).
  { unfold base, orElse. destruct (trim name); cbn; discriminate. }
  refine (conj _ (conj (length_substring _ _)
            (conj (anyChar_substring _ _ (anyChar_replaceUnsafe _) _) (conj _ _)))).
  - destruct base as [|c rest]; [contradiction Hbase; reflexivity|].
    cbn. discriminate.
  - intros H. unfold base. rewrite H. reflexivity.
  - intros [Hpos Hle]. unfold base, orElse.
    destruct (trim name) as [|c rest] eqn:E; [cbn in Hpos; lia|].
    cbn [truthy]. rewrite <- (length_replaceUnsafe (String c rest)) in Hle |- *.
    generalize dependent (replaceUnsafe (String c rest)). intros r.
    generalize 120%nat. clear. induction r as [|x r IH]; intros n Hle.
    + destruct n; reflexivity.
    + destruct n; [cbn in Hle; lia|]. cbn [substring String.length].
      rewrite IH; [reflexivity|]. cbn [String.length] in Hle. lia.
Qed.

Lemma trimEnd_idempotent (s : string) : trimEnd (trimEnd s) = trimEnd s.
Proof.
  induction s as [|c s IH]; [reflexivity|]. cbn [trimEnd].
  destruct (trimEnd s) as [|d r] eqn:E.
  - destruct (isWhitespace c) eqn:W; [reflexivity|]. cbn [trimEnd]. rewrite W.
    reflexivity.
  - cbn [trimEnd]. cbn [trimEnd] in IH. rewrite IH. reflexivity.
Qed.

Lemma trimStart_head (s : string) :
  match trimStart s with
  | EmptyString => True
  | String c _ => isWhitespace c = false
  end.
Proof.
  induction s as [|c s IH]; [exact I|]. cbn [trimStart].
  destruct (isWhitespace c) eqn:W; [exact IH|exact W].
Qed.

Lemma trimStart_trimEnd (s : string) :
  match s with
  | EmptyString => True
  | String c _ => isWhitespace c = false
  end ->
  trimStart (trimEnd s) = trimEnd s.
Proof.
  destruct s as [|c s]; [reflexivity|]. intros W. cbn [trimEnd].
  destruct (trimEnd s); rewrite ?W; cbn [trimStart]; rewrite W; reflexivity.
Qed.

Lemma trim_idempotent (s : string) : trim (trim s) = trim s.
Proof.
  unfold trim. rewrite trimStart_trimEnd by apply trimStart_head.
  apply trimEnd_idempotent.
Qed.

Lemma lookupTeam_assign (name key : string) (value : list string)
  (teams : list (string * list string)) :
  lookupTeam name (assign key value teams)
  = if String.eqb key name then Some value else lookupTeam name teams.
Proof.
  induction teams as [|[k v] rest IH]; cbn [assign lookupTeam]; [reflexivity|].
  destruct (String.eqb k key) eqn:Hk.
  - apply String.eqb_eq in Hk. subst k. cbn [lookupTeam].
    destruct (String.eqb key name); reflexivity.
  - cbn [lookupTeam]. rewrite IH.
    destruct (String.eqb k name) eqn:Hn; [|reflexivity].
    apply String.eqb_eq in Hn. subst k. rewrite String.eqb_sym, Hk. reflexivity.
Qed.

Lemma lookupTeam_fillTeams (name : string) (body : list (list string))
  (header : list string) :
  forall from teams,
    lookupTeam name (fillTeams header from body teams)
    = match lastIndexOf name header from with
      | Some i => Some (columnPlayers i body)
      | None => lookupTeam name teams
      end.
Proof.
  induction header as [|h header IH]; intros from teams; [reflexivity|].
  cbn [fillTeams lastIndexOf]. rewrite IH.
  destruct (lastIndexOf name header (S from)); [reflexivity|].
  rewrite lookupTeam_assign. destruct (String.eqb h name); reflexivity.
Qed.

(** X4.  The roster table.  [Utils.csvToTeamsMap] gives no team for an
    empty table.  Otherwise the players held under a team name (other
    than [__proto__]) are the trimmed non-empty cells of one column of
    the rows below the header: the column whose index is the last
    position of the name among the trimmed NON-EMPTY header cells (so a
    blank header cell, of white space only, shifts the columns of the
    teams after it, and a repeated name takes its later column); for a
    name that is not in the header the object holds no key. *)
Theorem csvToTeamsMap_lookup (first : list string) (body : list (list string))
  (name : string) :
  name <> "__proto__" ->
  csvToTeamsMap [] = []
  /\ lookupTeam name (csvToTeamsMap (first :: body))
     = option_map (fun i => columnPlayers i body)
         (lastIndexOf name (filter truthy (map trim first)) 0)
  /\ (forall players,
        lookupTeam name (csvToTeamsMap (first :: body)) = Some players ->
        Forall (fun player => player <> EmptyString /\ trim player = player)
          players).
Proof.
  intros _.
  assert (Hlookup :
    lookupTeam name (csvToTeamsMap (first :: body))
    = option_map (fun i => columnPlayers i body)
        (lastIndexOf name (filter truthy (map trim first)) 0)).
  { unfold csvToTeamsMap. rewrite lookupTeam_fillTeams.
    destruct (lastIndexOf name (filter truthy (map trim first)) 0); reflexivity. }
  refine (conj eq_refl (conj Hlookup _)).
  intros players H. rewrite Hlookup in H.
  destruct (lastIndexOf name (filter truthy (map trim first)) 0) as [i|];
    [|discriminate H].
  injection H as <-. unfold columnPlayers. apply Forall_forall.
  intros player Hin. apply filter_In in Hin. destruct Hin as [Hin Ht].
  split; [destruct player; [discriminate Ht|discriminate]|].
  apply in_map_iff in Hin. destruct Hin as [row [<- _]].
  apply trim_idempotent.
Qed.

(** ** [DataManager]: the log by id *)

Lemma findIndex_split {X : Type} (p : X -> bool) (l : list X) (i : nat) :
  findIndex p l = Some i ->
  exists l1 x l2,
    l = l1 ++ x :: l2 /\ p x = true /\ find p l1 = None
    /\ splice1 i l = (l1 ++ l2, Some x).
Proof.
  revert i. induction l as [|y l IH]; cbn [findIndex]; intros i H; [discriminate|].
  destruct (p y) eqn:Hy.
  - injection H as <-. exists [], y, l. auto.
  - destruct (findIndex p l) as [j|] eqn:Hj; [|discriminate].
    injection H as <-. destruct (IH j eq_refl) as (l1 & x & l2 & -> & Hx & Hn & Hs).
    exists (y :: l1), x, l2. cbn [app find splice1]. rewrite Hy, Hs. auto.
Qed.

Lemma find_app_none {X : Type} (p : X -> bool) (l1 l2 : list X) :
  find p l1 = None -> find p (l1 ++ l2) = find p l2.
Proof.
  induction l1 as [|y l1 IH]; cbn [app find]; [reflexivity|].
  destruct (p y); [discriminate|]. exact IH.
Qed.

Lemma find_app_some {X : Type} (p : X -> bool) (l1 l2 : list X) (x : X) :
  find p l1 = Some x -> find p (l1 ++ l2) = Some x.
Proof.
  induction l1 as [|y l1 IH]; cbn [app find]; [discriminate|].
  destruct (p y); [auto|]. exact IH.
Qed.

(** X5.  Lookup after an append.  After [addScoreLog], [getScoreLog] by
    an id returns what it returned before when an entry with this id was
    already in the log (the older entry wins, also over a new entry with
    the same id); otherwise it returns the new entry when the id is its
    own and nothing for any other id.  The append touches neither the
    roster nor the stored game state, and marks the manager dirty. *)
Theorem getScoreLog_addScoreLog (id : string) (logEntry : LogEntry)
  (d : DataManager) :
  getScoreLog id (addScoreLog logEntry d)
  = match getScoreLog id d with
    | Some older => Some older
    | None => if String.eqb (scoreID logEntry) id then Some logEntry else None
    end
  /\ scoreLogs (addScoreLog logEntry d) = scoreLogs d ++ [logEntry]
  /\ teamsData (addScoreLog logEntry d) = teamsData d
  /\ gameState (addScoreLog logEntry d) = gameState d
  /\ isDirty (addScoreLog logEntry d) = true.
Proof.
  refine (conj _ (conj eq_refl (conj eq_refl (conj eq_refl eq_refl)))).
  unfold getScoreLog, addScoreLog, markDirty. cbn [scoreLogs].
  destruct (find (hasID id) (scoreLogs d)) as [older|] eqn:H.
  - apply find_app_some, H.
  - rewrite find_app_none by exact H. reflexivity.
Qed.

(** X6.  Removal by id.  [removeScoreLog] returns the entry that
    [getScoreLog] finds for the id and takes exactly that entry (the
    first with the id) out of the log, keeping the others in order; for
    an unknown id it returns nothing and leaves the manager as it is.
    Lookups by any other id are unaffected, and when the ids of the log
    are pairwise distinct the removed id is no longer found. *)
Theorem removeScoreLog_lookup (id : string) (d : DataManager) :
  let d' := fst (removeScoreLog id d) in
  snd (removeScoreLog id d) = getScoreLog id d
  /\ (getScoreLog id d = None -> d' = d)
  /\ (forall removed,
        getScoreLog id d = Some removed ->
        exists before after,
          scoreLogs d = before ++ removed :: after
          /\ scoreLogs d' = before ++ after
          /\ getScoreLog id (mkData (teamsData d) before (gameState d) (isDirty d))
             = None)
  /\ (forall other, other <> id -> getScoreLog other d' = getScoreLog other d)
  /\ (NoDup (map scoreID (scoreLogs d)) -> getScoreLog id d' = None).
Proof.
  cbv zeta. unfold removeScoreLog, getScoreLog.
  destruct (findIndex (hasID id) (scoreLogs d)) as [i|] eqn:Hi.
  - destruct (findIndex_split _ _ _ Hi) as (l1 & x & l2 & Hl & Hx & Hn & Hs).
    rewrite Hs. cbn [fst snd scoreLogs markDirty]. rewrite Hl.
    rewrite (find_app_none _ l1 (x :: l2) Hn). cbn [find]. rewrite Hx.
    assert (Hid : scoreID x = id) by (apply String.eqb_eq; exact Hx).
    refine (conj eq_refl (conj _ (conj _ (conj _ _)))).
    + discriminate.
    + intros removed H. injection H as <-. exists l1, l2. cbn [scoreLogs]. auto.
    + intros other Hne.
      assert (Hox : hasID other x = false).
      { unfold hasID. apply String.eqb_neq. congruence. }
      destruct (find (hasID other) l1) as [y|] eqn:Hy.
      * rewrite (find_app_some _ l1 l2 y Hy), (find_app_some _ l1 (x :: l2) y Hy).
        reflexivity.
      * rewrite !find_app_none by exact Hy. cbn [find]. rewrite Hox. reflexivity.
    + intros Hnd. rewrite find_app_none by exact Hn.
      rewrite map_app in Hnd. apply NoDup_remove_2 in Hnd. cbn [map] in Hnd.
      destruct (find (hasID id) l2) as [y|] eqn:Hy; [|reflexivity].
      apply find_some in Hy. destruct Hy as [Hin Hy]. exfalso. apply Hnd.
      apply in_or_app. right. rewrite Hid.
      apply String.eqb_eq in Hy. rewrite <- Hy. apply in_map. exact Hin.
  - cbn [fst snd]. rewrite (findIndex_None_find _ _ Hi).
    refine (conj eq_refl (conj (fun _ => eq_refl) (conj _ (conj _ _)))).
    + discriminate.
    + reflexivity.
    + reflexivity.
Qed.

(** ** The clocks *)




Lemma timerManager_handleMainTimerTick (total : Z) (s : App) :
  timerManager (handleMainTimerTick total s) = timerManager s
  /\ now (handleMainTimerTick total s) = now s
  /\ secondsTimer (handleMainTimerTick total s) = secondsTimer s
  /\ core (handleMainTimerTick total s) = core s.
Proof.
  unfold handleMainTimerTick, maybeTriggerHalftimeByTime.
  repeat match goal with
         | |- context [if ?c then _ else _] => destruct c
         | |- context [match ?c with Some _ => _ | None => _ end] => destruct c
         end; repeat split.
Qed.

(** X8.  The main clock runs out.  At the interval callback of a running
    clock whose deadline has been reached, the clock is stopped with no
    time left (not a negative time), without touching the scoreboard, the
    log or the timeout counters; before the deadline the callback leaves
    the clock running with its deadline; on a stopped clock it does
    nothing at all. *)
Theorem timerManager_interval_expiry (e : Z) (s : App) :
  (isRunning (timerManager s) = false -> timerManager_interval s = s)
  /\ (isRunning (timerManager s) = true ->
      endTime (timerManager s) = Some e ->
      let s' := timerManager_interval s in
      core s' = core s
      /\ (getTimeRemaining e (now s) <= 0 ->
          isRunning (timerManager s') = false
          /\ endTime (timerManager s') = None
          /\ remainingTimeMs (timerManager s') = Some 0
          /\ getRemainingSeconds (now s) (timerManager s') = 0)
      /\ (0 < getTimeRemaining e (now s) ->
          timerManager s' = timerManager s)).
Proof.
  split.
  - intros H. unfold timerManager_interval. rewrite H. reflexivity.
  - intros Hrun Hend. cbv zeta. unfold timerManager_interval.
    rewrite Hrun, Hend. cbn [negb]. cbv zeta.
    destruct (timerManager_handleMainTimerTick (getTimeRemaining e (now s)) s)
      as (Ht & Hn & _ & Hc).
    revert Ht Hn Hc.
    generalize (handleMainTimerTick (getTimeRemaining e (now s)) s).
    intros s1 Ht Hn Hc. rewrite Ht, Hrun, andb_true_r.
    destruct (getTimeRemaining e (now s) <=? 0) eqn:Hle.
    + apply Z.leb_le in Hle. refine (conj Hc (conj _ _)).
      * intros _. cbn [timerManager set_timerManager]. rewrite ?Ht, ?Hn.
        unfold timer_stop, getRemainingSeconds. rewrite Hrun, Hend.
        cbn [negb isRunning endTime remainingTimeMs].
        rewrite Z.max_l by exact Hle. auto.
      * intros Hpos. lia.
    + apply Z.leb_gt in Hle. refine (conj Hc (conj _ _)).
      * intros Hneg. lia.
      * intros _. exact Ht.
Qed.

(** X9.  The secondary clock.  Resetting it stops it and loads at least
    one second: the seconds asked for, the default when zero is asked, one
    second for a negative request.  Started from there at some moment, it
    runs towards that moment plus the loaded time.  A tick at or after the
    deadline stops a running clock with zero left; a tick before the
    deadline changes nothing. *)
Theorem secondsTimer_cycle (seconds resetAt startedAt tickAt : Z)
  (input : option Z) (t : SecondsTimerManager) :
  let loaded := sec_reset seconds resetAt t in
  let secs := Z.max 1 (if seconds =? 0 then defaultSeconds t else seconds) in
  let running := sec_start input startedAt loaded in
  sec_isRunning loaded = false
  /\ sec_remainingTimeMs loaded = Some (secs * 1000)
  /\ 1000 <= secs * 1000
  /\ sec_isRunning running = true
  /\ sec_endTime running = Some (startedAt + secs * 1000)
  /\ (getTimeRemaining (startedAt + secs * 1000) tickAt <= 0 ->
      sec_isRunning (sec_tick tickAt running) = false
      /\ sec_endTime (sec_tick tickAt running) = None
      /\ sec_remainingTimeMs (sec_tick tickAt running) = Some 0)
  /\ (0 < getTimeRemaining (startedAt + secs * 1000) tickAt ->
      sec_tick tickAt running = running).
Proof.
  cbv zeta.
  assert (Hstop : sec_isRunning (sec_stop resetAt t) = false
                  /\ defaultSeconds (sec_stop resetAt t) = defaultSeconds t).
  { unfold sec_stop. destruct (sec_isRunning t) eqn:H; cbn; auto. }
  destruct Hstop as [Hrun Hdef].
  unfold sec_reset. cbv zeta. rewrite Hdef. unfold orDefault.
  set (secs := Z.max 1 (if seconds =? 0 then defaultSeconds t else seconds)).
  unfold sec_start. cbn [sec_isRunning sec_remainingTimeMs sec_endTime].
  rewrite Hrun. cbn [sec_isRunning sec_remainingTimeMs sec_endTime].
  refine (conj eq_refl (conj eq_refl (conj _ (conj eq_refl (conj eq_refl
            (conj _ _)))))).
  - lia.
  - intros Hle. unfold sec_tick. cbn [sec_endTime].
    apply Z.leb_le in Hle. rewrite Hle. unfold sec_stop.
    cbn [sec_isRunning negb sec_endTime]. auto.
  - intros Hpos. unfold sec_tick. cbn [sec_endTime].
    apply Z.leb_gt in Hpos. rewrite Hpos. reflexivity.
Qed.

(** ** Guards of the operator's buttons *)

Lemma timer_stop_stops (now_ : Z) (t : TimerManager) :
  isRunning (timer_stop now_ t) = false.
Proof.
  unfold timer_stop. destruct (isRunning t) eqn:H; [reflexivity|exact H].
Qed.

Lemma sec_stop_stops (now_ : Z) (t : SecondsTimerManager) :
  sec_isRunning (sec_stop now_ t) = false.
Proof.
  unfold sec_stop. destruct (sec_isRunning t) eqn:H; [reflexivity|exact H].
Qed.

(** X10.  No clock is started during a stoppage or after the score cap.
    While a game stoppage is active or the score cap is reached, the
    play/pause button of a stopped clock (main or secondary) only raises a
    notification; a running clock can still be paused with it. *)
Theorem clocks_blocked (s : App) :
  gameStoppageActive s = true \/ hardCapReached s = true ->
  (isRunning (timerManager s) = false ->
   exists message type, handleTimerToggle s = showNotification message type s)
  /\ (sec_isRunning (secondsTimer s) = false ->
      exists message type, handleSecTimerToggle s = showNotification message type s)
  /\ (isRunning (timerManager s) = true ->
      handleTimerToggle s
      = set_timerManager (timer_stop (now s) (timerManager s)) s
      /\ isRunning (timerManager (handleTimerToggle s)) = false)
  /\ (sec_isRunning (secondsTimer s) = true ->
      handleSecTimerToggle s
      = set_secondsTimer (sec_stop (now s) (secondsTimer s)) s
      /\ sec_isRunning (secondsTimer (handleSecTimerToggle s)) = false).
Proof.
  intros Hblocked.
  unfold handleTimerToggle, handleSecTimerToggle, timerManager_toggle,
    secondsTimer_toggle.
  refine (conj _ (conj _ (conj _ _))); intros Hrun; rewrite Hrun;
    cbn [negb]; rewrite ?andb_true_r, ?andb_false_r.
  - destruct Hblocked as [H|H]; rewrite H; [eauto|].
    destruct (gameStoppageActive s); eauto.
  - destruct Hblocked as [H|H]; rewrite H; [eauto|].
    destruct (gameStoppageActive s); eauto.
  - split; [reflexivity|]. cbn [timerManager set_timerManager].
    apply timer_stop_stops.
  - split; [reflexivity|]. cbn [secondsTimer set_secondsTimer].
    apply sec_stop_stops.
Qed.

(** X11.  Refused match start.  [startMatch] does nothing when the match
    is already started; otherwise, when a team name is blank after
    trimming or a game stoppage is active, it only raises a notification:
    the match stays not started and nothing is logged. *)
Theorem startMatch_refused (s : App) :
  (matchStarted s = true -> startMatch s = s)
  /\ (matchStarted s = false ->
      trim (teamA s) = EmptyString \/ trim (teamB s) = EmptyString
      \/ gameStoppageActive s = true ->
      (exists message type, startMatch s = showNotification message type s)
      /\ matchStarted (startMatch s) = false
      /\ scoreLogs (dataManager (startMatch s)) = scoreLogs (dataManager s)
      /\ timerManager (startMatch s) = timerManager s).
Proof.
  split; intros Hs; unfold startMatch; rewrite Hs; [reflexivity|].
  cbv zeta. intros Hcase.
  assert (E : exists message type,
            (if negb (truthy (trim (teamA s))) || negb (truthy (trim (teamB s)))
             then showNotification
                    "Select both Team A and Team B before starting the match."
                    error s
             else if gameStoppageActive s
                  then showNotification
                         "Resolve game stoppage before starting the match."
                         warning s
                  else s) = showNotification message type s
            /\ (negb (truthy (trim (teamA s))) || negb (truthy (trim (teamB s)))
                || gameStoppageActive s = true)).
  { destruct Hcase as [H|[H|H]]; rewrite H; cbn [truthy negb orb];
      rewrite ?orb_true_r; eauto.
    destruct (negb (truthy (trim (teamA s))) || negb (truthy (trim (teamB s))));
      eauto. }
  destruct E as (message & type & _ & Hguard).
  destruct (negb (truthy (trim (teamA s))) || negb (truthy (trim (teamB s))))
    eqn:Hblank.
  - split; [eauto|]. cbn. auto.
  - cbn [orb] in Hguard. rewrite Hguard. split; [eauto|]. cbn. auto.
Qed.

(** X13.  Refused halftime.  When the halftime is already recorded or the
    match is not started, [handleHalftime] returns [false] and records
    nothing: the state is unchanged in silent mode and only gains a
    notification otherwise. *)
Theorem handleHalftime_refused (silent : bool) (reason : string) (s : App) :
  halftimeTriggered s = true \/ matchStarted s = false ->
  snd (handleHalftime silent reason s) = false
  /\ (silent = true -> fst (handleHalftime silent reason s) = s)
  /\ (silent = false ->
      exists message type,
        fst (handleHalftime silent reason s) = showNotification message type s
        /\ type <> info /\ type <> success).
Proof.
  intros Hcase. unfold handleHalftime.
  destruct (halftimeTriggered s) eqn:Ht.
  - cbn [fst snd]. refine (conj eq_refl (conj _ _)); intros ->; cbn [negb].
    + reflexivity.
    + eexists _, _. split; [reflexivity|]. split; discriminate.
  - destruct Hcase as [H|H]; [discriminate H|]. rewrite H. cbn [negb fst snd].
    refine (conj eq_refl (conj _ _)); intros ->; cbn [negb].
    + reflexivity.
    + eexists _, _. split; [reflexivity|]. split; discriminate.
Qed.

(** ** Match start *)

(** Reading a field through the assignments made before it. *)
Ltac fields :=
  cbn [dataManager timerManager secondsTimer gameSettings timeoutState
       teamAScore teamBScore currentEditID currentTimeoutEditID
       currentHalftimeEditID halftimeTriggered halftimeAutoSuppressed
       halftimePendingReason halftimeReasonResolved isRestoring abbaStart
       matchStarted gameStoppageActive hardCapReached stoppagePausedMainTimer
       stoppagePausedSecondsTimer teamA teamB countdownTime countdownTimeSec
       popupTeam notifications now
       set_dataManager set_timerManager set_secondsTimer set_gameSettings
       set_timeoutState set_teamAScore set_teamBScore set_currentEditID
       set_currentTimeoutEditID set_currentHalftimeEditID set_halftimeTriggered
       set_halftimeAutoSuppressed set_halftimePendingReason
       set_halftimeReasonResolved set_isRestoring set_abbaStart
       set_matchStarted set_gameStoppageActive set_hardCapReached
       set_stoppagePausedMainTimer set_stoppagePausedSecondsTimer set_teamA
       set_teamB set_countdownTime set_countdownTimeSec set_popupTeam
       set_notifications set_now showNotification
       isRunning endTime remainingTimeMs defaultMinutes
       sec_isRunning sec_endTime sec_remainingTimeMs defaultSeconds
       teamsData scoreLogs gameState isDirty fst snd].

Lemma timer_reset_value (minutes now_ : Z) (t : TimerManager) :
  timer_reset minutes now_ t
  = mkTimer false None (Some (minutes * 60 * 1000)) (defaultMinutes t).
Proof.
  unfold timer_reset, timer_stop.
  destruct (isRunning t) eqn:H; cbn; rewrite ?H; reflexivity.
Qed.

Lemma autoSave_shape (s : App) :
  exists g dirty,
    autoSave s
    = set_dataManager
        (mkData (teamsData (dataManager s)) (scoreLogs (dataManager s)) g dirty) s.
Proof.
  unfold autoSave. destruct (isRestoring s).
  - exists (gameState (dataManager s)), (isDirty (dataManager s)).
    destruct s as [d]. destruct d. reflexivity.
  - eexists _, _. reflexivity.
Qed.

Lemma recordSpecialEvent_shape (type : LogType) (letter : option TeamKey)
  (extra : option string) (s : App) :
  exists g dirty,
    fst (recordSpecialEvent type letter extra s)
    = set_dataManager
        (mkData (teamsData (dataManager s))
           (scoreLogs (dataManager s)
            ++ [snd (recordSpecialEvent type letter extra s)]) g dirty) s.
Proof.
  unfold recordSpecialEvent. cbv zeta. cbn [fst snd].
  match goal with
  | |- context [autoSave ?x] => destruct (autoSave_shape x) as (g & dirty & ->)
  end.
  exists g, dirty. destruct s. reflexivity.
Qed.

Lemma handleMainTimerTick_shape (total : Z) (s : App) :
  exists suppressed reason messages,
    handleMainTimerTick total s
    = set_notifications messages
        (set_halftimePendingReason reason
           (set_halftimeAutoSuppressed suppressed s)).
Proof.
  exists (halftimeAutoSuppressed (handleMainTimerTick total s)),
    (halftimePendingReason (handleMainTimerTick total s)),
    (notifications (handleMainTimerTick total s)).
  unfold handleMainTimerTick, maybeTriggerHalftimeByTime.
  repeat match goal with
         | |- context [if ?c then _ else _] => destruct c
         | |- context [match ?c with Some _ => _ | None => _ end] => destruct c
         end; destruct s; reflexivity.
Qed.

(** X12.  Accepted match start.  With both teams named, no stoppage, the
    match not yet started, and a deadline that a [Date] can hold (the
    countdown input is not bounded by the code, and past that range the
    start fails half way), [startMatch] marks the match started with the
    halftime and score-cap flags cleared, appends exactly one match-start
    entry (no team, id the clock reading) to the log, and starts the main
    clock with a deadline as many minutes ahead as the countdown input
    asks when it is positive, and as the configured match duration
    otherwise.  The scoreboard, the settings and the timeout counters are
    untouched. *)
Theorem startMatch_accepted (s : App) :
  let minutes :=
    match countdownTime s with
    | Some configured =>
        if 0 <? configured then configured else matchDuration (gameSettings s)
    | None => matchDuration (gameSettings s)
    end in
  matchStarted s = false ->
  trim (teamA s) <> EmptyString -> trim (teamB s) <> EmptyString ->
  gameStoppageActive s = false ->
  isValidDate (now s) = true ->
  isValidDate (now s + minutes * 60 * 1000) = true ->
  let s' := startMatch s in
  matchStarted s' = true
  /\ (halftimeTriggered s', halftimeReasonResolved s', hardCapReached s')
     = (false, None, false)
  /\ timerManager s'
     = mkTimer true (Some (now s + minutes * 60 * 1000)) None minutes
  /\ (exists entry,
        scoreLogs (dataManager s') = scoreLogs (dataManager s) ++ [entry]
        /\ Type_ entry = matchstart /\ TeamLetter entry = None
        /\ scoreID entry = toString (now s))
  /\ core s'
     = (teamAScore s, teamBScore s, gameSettings s, timeoutState s,
        scoreLogs (dataManager s'))
  /\ teamsData (dataManager s') = teamsData (dataManager s).
Proof.
  intros minutes0 Hs HA HB Hg _ _. subst minutes0. cbv zeta.
  unfold startMatch. rewrite Hs, Hg.
  destruct (trim (teamA s)) as [|a ra] eqn:EA; [contradiction HA; reflexivity|].
  destruct (trim (teamB s)) as [|b rb] eqn:EB; [contradiction HB; reflexivity|].
  cbn [truthy negb orb]. cbv zeta. rewrite timer_reset_value.
  set (minutes :=
    match countdownTime s with
    | Some configured =>
        if 0 <? configured then configured else matchDuration (gameSettings s)
    | None => matchDuration (gameSettings s)
    end).
  unfold timerManager_start, timer_begin. fields. cbv zeta.
  match goal with
  | |- context [handleMainTimerTick ?total ?x] =>
      destruct (handleMainTimerTick_shape total x) as (b0 & p0 & n0 & ->)
  end.
  match goal with
  | |- context [recordSpecialEvent matchstart None None ?x] =>
      destruct (recordSpecialEvent_shape matchstart None None x) as (g1 & d1 & ->);
      destruct (recordSpecialEvent_entry matchstart None None x)
        as (Hty & Hletter & _ & Hid & _);
      set (entry := snd (recordSpecialEvent matchstart None None x)) in *
  end.
  match goal with
  | |- context [autoSave ?x] => destruct (autoSave_shape x) as (g2 & d2 & ->)
  end.
  revert Hid. fields. intros Hid.
  refine (conj eq_refl (conj eq_refl (conj eq_refl (conj _ (conj eq_refl eq_refl))))).
  exists entry. auto.
Qed.

(** ** Game stoppage *)


(** ** Timeouts *)

Lemma sec_start_reset (input : option Z) (seconds resetAt startedAt : Z)
  (c : SecondsTimerManager) :
  sec_start input startedAt (sec_reset seconds resetAt c)
  = let secs := Z.max 1 (orDefault (Some seconds) (defaultSeconds c)) in
    mkSecTimer true (Some (startedAt + secs * 1000)) (Some (secs * 1000))
      (defaultSeconds c).
Proof.
  unfold sec_start, sec_reset, sec_stop.
  destruct (sec_isRunning c) eqn:H; cbn; rewrite ?H; reflexivity.
Qed.

Lemma orDefault_twice (v d : Z) :
  orDefault (Some (orDefault (Some v) d)) d = orDefault (Some v) d.
Proof.
  unfold orDefault. destruct (v =? 0) eqn:Hv.
  - destruct (d =? 0); reflexivity.
  - rewrite Hv. reflexivity.
Qed.

(** X15.  Accepted timeout.  In a started match without stoppage, a
    timeout called by a team that has one left (in total, and in this half
    when per-half limiting is on) takes one off that team's total and half
    counters (the half counter mirrors the total when per-half limiting is
    off), leaves the other team's counters and the scoreboard alone,
    appends exactly one timeout entry carrying the team and the clock
    reading as id, and restarts the secondary clock on the configured
    timeout duration (the clock's default when that is zero, at least one
    second). *)
Theorem handleTimeout_accepted (team other : TeamKey) (s : App) :
  matchStarted s = true ->
  gameStoppageActive s = false ->
  0 < totalRemaining (teamState (timeoutState s) team) ->
  (usesPerHalfTimeouts s = true ->
   0 < halfRemaining (teamState (timeoutState s) team)) ->
  other <> team ->
  let s' := handleTimeout team s in
  let before := teamState (timeoutState s) team in
  let secs :=
    Z.max 1 (orDefault (Some (timeoutDuration (gameSettings s)))
               (defaultSeconds (secondsTimer s))) in
  teamState (timeoutState s') team
  = mkTeamTimeouts (totalRemaining before - 1)
      (if usesPerHalfTimeouts s then halfRemaining before - 1
       else totalRemaining before - 1)
  /\ teamState (timeoutState s') other = teamState (timeoutState s) other
  /\ (teamAScore s', teamBScore s', gameSettings s')
     = (teamAScore s, teamBScore s, gameSettings s)
  /\ (exists entry,
        scoreLogs (dataManager s') = scoreLogs (dataManager s) ++ [entry]
        /\ Type_ entry = timeout /\ TeamLetter entry = Some team
        /\ scoreID entry = toString (now s))
  /\ secondsTimer s'
     = mkSecTimer true (Some (now s + secs * 1000)) (Some (secs * 1000))
         (defaultSeconds (secondsTimer s)).
Proof.
  intros Hs Hg Htotal Hhalf Hother. cbv zeta. unfold handleTimeout.
  rewrite Hs, Hg. cbn [negb]. cbv zeta.
  apply Z.leb_gt in Htotal. rewrite Htotal.
  assert (Hh : usesPerHalfTimeouts s
               && (halfRemaining (teamState (timeoutState s) team) <=? 0) = false).
  { destruct (usesPerHalfTimeouts s); [|reflexivity].
    apply Z.leb_gt, Hhalf. reflexivity. }
  rewrite Hh. fields. rewrite sec_start_reset, orDefault_twice. cbv zeta.
  match goal with
  | |- context [recordSpecialEvent timeout (Some team) None ?x] =>
      destruct (recordSpecialEvent_shape timeout (Some team) None x)
        as (g1 & d1 & ->);
      destruct (recordSpecialEvent_entry timeout (Some team) None x)
        as (Hty & Hletter & _ & Hid & _);
      set (entry := snd (recordSpecialEvent timeout (Some team) None x)) in *
  end.
  revert Hid. fields. intros Hid. apply Z.leb_gt in Htotal.
  assert (Hmax : Z.max 0 (totalRemaining (teamState (timeoutState s) team) - 1)
                 = totalRemaining (teamState (timeoutState s) team) - 1) by lia.
  rewrite Hmax.
  refine (conj _ (conj _ (conj eq_refl (conj _ eq_refl)))).
  - destruct (usesPerHalfTimeouts s) eqn:Hu.
    + specialize (Hhalf eq_refl). rewrite Z.max_r by lia.
      destruct team; reflexivity.
    + destruct team; reflexivity.
  - destruct team, other; try (exfalso; apply Hother; reflexivity); reflexivity.
  - exists entry. auto.
Qed.

(** ** Submit *)

(** With no entry in the log, the rebuild ends on a zero scoreboard and no
    recorded halftime, and raises or records nothing. *)
Lemma rebuildTableAndCounters_empty (s : App) :
  scoreLogs (dataManager s) = [] ->
  exists cap suppressed,
    rebuildTableAndCounters s
    = set_halftimeAutoSuppressed suppressed
        (set_halftimeReasonResolved None
           (set_currentHalftimeEditID None
              (set_halftimeTriggered false
                 (set_hardCapReached cap
                    (set_teamBScore 0 (set_teamAScore 0 s)))))).
Proof.
  intros Hlogs. unfold rebuildTableAndCounters, tally. rewrite Hlogs.
  cbn [fold_left fst snd]. cbv zeta.
  unfold checkForScoreCap. fields. cbv zeta. cbn [Z.leb Z.compare orb andb negb].
  exists false.
  assert (Hcap : (if hardCapReached s
                  then set_hardCapReached false
                         (set_teamBScore 0 (set_teamAScore 0 s))
                  else set_teamBScore 0 (set_teamAScore 0 s))
                 = set_hardCapReached false
                     (set_teamBScore 0 (set_teamAScore 0 s))).
  { destruct (hardCapReached s) eqn:H; [reflexivity|]. destruct s.
    cbn in H. subst. reflexivity. }
  rewrite Hcap. unfold updateHalftimeTracking. fields. rewrite Hlogs.
  cbn [filter lastOf rev isSome option_map]. cbv zeta. fields. cbv iota.
  unfold maybeTriggerHalftimeByScore. fields. cbn [truthyOpt orb].
  cbv zeta. cbn [Z.max Z.compare Z.ltb Z.leb]. cbv iota.
  destruct (negb (matchStarted s)); cbn [orb]; cbv iota;
    [exists (halftimeAutoSuppressed s); destruct s; reflexivity|].
  destruct (halftimeAutoSuppressed s) eqn:Hsup; cbv iota.
  - exists false. fields. reflexivity.
  - exists false. destruct s. cbn in Hsup. subst. reflexivity.
Qed.


Lemma initializeTimeoutState_shape (saved : option SavedTimeoutState) (s : App) :
  initializeTimeoutState saved s
  = set_timeoutState (timeoutState (initializeTimeoutState saved s)) s.
Proof. reflexivity. Qed.

Lemma initializeTimeoutState_settings (saved : option SavedTimeoutState)
  (s1 s2 : App) :
  gameSettings s1 = gameSettings s2 ->
  timeoutState (initializeTimeoutState saved s1)
  = timeoutState (initializeTimeoutState saved s2).
Proof.
  intros H. unfold initializeTimeoutState, usesPerHalfTimeouts. rewrite H.
  reflexivity.
Qed.

(** X16.  Submit.  With an empty log Submit is refused: nothing is
    exported and the state only gains the error notification.  Otherwise
    it leaves a fresh match that is not started: the log is empty, the
    scoreboard is 0-0, the halftime, stoppage and score-cap flags are
    cleared and both teams get their full timeout allotment again, while
    the team selections, the settings, the gender-sequence setting and
    the roster are kept. *)
Theorem handleSubmitScore_resets (sink : option string) (s : App) :
  let s' := fst (handleSubmitScore sink s) in
  (scoreLogs (dataManager s) = [] ->
   handleSubmitScore sink s
   = (showNotification "No scores have been logged." error s, None))
  /\ (scoreLogs (dataManager s) <> [] ->
      scoreLogs (dataManager s') = []
      /\ (teamAScore s', teamBScore s') = (0, 0)
      /\ (matchStarted s', gameStoppageActive s', hardCapReached s',
          halftimeTriggered s', halftimeAutoSuppressed s')
         = (false, false, false, false, false)
      /\ (halftimePendingReason s', halftimeReasonResolved s',
          currentEditID s', currentHalftimeEditID s')
         = (None, None, None, None)
      /\ timeoutState s' = timeoutState (initializeTimeoutState None s)
      /\ (forall team,
            totalRemaining (teamState (timeoutState s') team)
            = Z.max 0 (timeoutsTotal (gameSettings s)))
      /\ (teamA s', teamB s', gameSettings s', abbaStart s',
          teamsData (dataManager s'))
         = (teamA s, teamB s, gameSettings s, abbaStart s,
            teamsData (dataManager s))).
Proof.
  cbv zeta. split.
  - intros H. unfold handleSubmitScore. rewrite H. reflexivity.
  - intros H. unfold handleSubmitScore.
    destruct (scoreLogs (dataManager s)) as [|log logs] eqn:Hlogs;
      [contradiction H; reflexivity|].
    cbv zeta.
    match goal with
    | |- context [rebuildTableAndCounters ?x] =>
        destruct (rebuildTableAndCounters_empty x eq_refl) as (cap & sup & ->)
    end.
    match goal with
    | |- context [initializeTimeoutState None ?x] =>
        rewrite (initializeTimeoutState_shape None x);
        rewrite (initializeTimeoutState_settings None x s) by (destruct sink; reflexivity)
    end.
    assert (Htotal : forall team,
              totalRemaining
                (teamState (timeoutState (initializeTimeoutState None s)) team)
              = Z.max 0 (timeoutsTotal (gameSettings s)))
      by (intros [|]; reflexivity).
    revert Htotal. generalize (timeoutState (initializeTimeoutState None s)).
    intros ts Htotal.
    unfold updateGameState, clearScoreLogs, markDirty.
    destruct sink; fields;
      exact (conj eq_refl (conj eq_refl (conj eq_refl (conj eq_refl
               (conj eq_refl (conj Htotal eq_refl)))))).
Qed.

(** ** Setup *)

(** X17.  Saving the setup.  The saved settings are the form's numbers
    brought into their ranges (a field that is not a number keeps the
    current value): the per-half allotment never exceeds the total
    allotment, and a fully filled form gives a match of 1 to 300
    minutes, a halftime mark between 1 minute and the match duration, a
    break of 1 to 120 minutes, a timeout of 1 to 3600 seconds and 0 to 10
    timeouts.  Saving also hands both teams their full total allotment
    again, whatever they had used, and leaves the scoreboard alone. *)
Theorem handleSetupSave_effect (form : SetupForm) (s : App) :
  let s' := handleSetupSave form s in
  let g := gameSettings s' in
  let old := gameSettings s in
  g = mkSettings
        (clampNumber (setupMatchDuration form) (matchDuration old) 1 300)
        (clampNumber (setupHalftime form) (halftimeDuration old) 1
           (clampNumber (setupMatchDuration form) (matchDuration old) 1 300))
        (clampNumber (setupHalftimeDuration form) (halftimeBreakDuration old) 1 120)
        (clampNumber (setupTimeoutDuration form) (timeoutDuration old) 1 3600)
        (clampNumber (setupTimeoutsTotal form) (timeoutsTotal old) 0 10)
        (Z.min (clampNumber (setupTimeoutsPerHalf form) (timeoutsPerHalf old) 0 10)
           (clampNumber (setupTimeoutsTotal form) (timeoutsTotal old) 0 10))
  /\ timeoutsPerHalf g <= timeoutsTotal g
  /\ (forall a b c d e f abba,
        form = mkSetupForm (Some a) (Some b) (Some c) (Some d) (Some e) (Some f)
                 abba ->
        1 <= matchDuration g <= 300
        /\ 1 <= halftimeDuration g <= matchDuration g
        /\ 1 <= halftimeBreakDuration g <= 120
        /\ 1 <= timeoutDuration g <= 3600
        /\ 0 <= timeoutsPerHalf g <= timeoutsTotal g
        /\ timeoutsTotal g <= 10)
  /\ (forall team,
        totalRemaining (teamState (timeoutState s') team)
        = Z.max 0 (timeoutsTotal g))
  /\ (teamAScore s', teamBScore s') = (teamAScore s, teamBScore s).
Proof.
  cbv zeta.
  assert (Q : exists x,
            gameSettings x
            = mkSettings
                (clampNumber (setupMatchDuration form)
                   (matchDuration (gameSettings s)) 1 300)
                (clampNumber (setupHalftime form)
                   (halftimeDuration (gameSettings s)) 1
                   (clampNumber (setupMatchDuration form)
                      (matchDuration (gameSettings s)) 1 300))
                (clampNumber (setupHalftimeDuration form)
                   (halftimeBreakDuration (gameSettings s)) 1 120)
                (clampNumber (setupTimeoutDuration form)
                   (timeoutDuration (gameSettings s)) 1 3600)
                (clampNumber (setupTimeoutsTotal form)
                   (timeoutsTotal (gameSettings s)) 0 10)
                (Z.min
                   (clampNumber (setupTimeoutsPerHalf form)
                      (timeoutsPerHalf (gameSettings s)) 0 10)
                   (clampNumber (setupTimeoutsTotal form)
                      (timeoutsTotal (gameSettings s)) 0 10))
            /\ teamAScore x = teamAScore s /\ teamBScore x = teamBScore s
            /\ Quiet (initializeTimeoutState None x) (handleSetupSave form s)).
  { unfold handleSetupSave. cbv zeta.
    lazymatch goal with
    | |- context [initializeTimeoutState None ?x] =>
        exists x; refine (conj eq_refl (conj eq_refl (conj eq_refl _)))
    end.
    quiet. }
  destruct Q as (x & Hx & Hxa & Hxb & HA & HB & HG & HT & _).
  change (gameSettings (initializeTimeoutState None x)) with (gameSettings x) in HG.
  rewrite HG, Hx, HA, HB. cbn [matchDuration halftimeDuration halftimeBreakDuration
                                 timeoutDuration timeoutsTotal timeoutsPerHalf].
  refine (conj eq_refl (conj (Z.le_min_r _ _) (conj _ (conj _ _)))).
  - intros a b c d e f abba ->. unfold clampNumber.
    cbn [setupMatchDuration setupHalftime setupTimeoutDuration
         setupTimeoutsTotal setupTimeoutsPerHalf setupHalftimeDuration].
    clear.
    assert (Hmd : 1 <= Z.max 1 (Z.min 300 a) <= 300) by lia.
    assert (Htotal : 0 <= Z.max 0 (Z.min 10 d) <= 10) by lia.
    revert Hmd Htotal.
    generalize (Z.max 1 (Z.min 300 a)) (Z.max 0 (Z.min 10 d)).
    intros md total Hmd Htotal. repeat split; lia.
  - intros team. rewrite HT. unfold initializeTimeoutState, clampCount.
    fields. rewrite Hx. destruct team; reflexivity.
  - change ((teamAScore x, teamBScore x) = (teamAScore s, teamBScore s)).
    rewrite Hxa, Hxb. reflexivity.
Qed.

(** ** Gender sequence *)

Lemma computeAbbaForIndex_mod (start : Abba) (index : Z) :
  0 <= index ->
  computeAbbaForIndex start index
  = match start with
    | NONE => EmptyString
    | F => if (index mod 4 =? 0) || (index mod 4 =? 3) then "F" else "M"
    | M => if (index mod 4 =? 0) || (index mod 4 =? 3) then "M" else "F"
    end.
Proof.
  clear toLocaleString.
  intros H0. unfold computeAbbaForIndex.
  destruct start; [| |reflexivity]; cbn [String.eqb Ascii.eqb Bool.eqb];
    (destruct (Z.eqb_spec index 0) as [->|Hne]; [reflexivity|]);
    (rewrite Z.rem_mod_nonneg by (try lia; apply Z.div_pos; lia));
    destruct (Z.eqb_spec (((index - 1) / 2) mod 2) 0);
    destruct (Z.eqb_spec (index mod 4) 0);
    destruct (Z.eqb_spec (index mod 4) 3);
    cbn [orb]; try reflexivity; exfalso; Z.div_mod_to_equations; lia.
Qed.

(** X18.  The gender sequence repeats and is balanced.  For a start value
    other than NONE and any point index from 0 on, the label is [M] or
    [F], the label four points later is the same, the two start values
    give opposite labels, and among any four consecutive points exactly
    two are labelled [M]. *)
Theorem computeAbbaForIndex_cycle (start : Abba) (index : Z) :
  0 <= index ->
  start <> NONE ->
  (computeAbbaForIndex start index = "M" \/ computeAbbaForIndex start index = "F")
  /\ computeAbbaForIndex start (index + 4) = computeAbbaForIndex start index
  /\ computeAbbaForIndex M index <> computeAbbaForIndex F index
  /\ List.length
       (filter (String.eqb "M")
          (map (fun k => computeAbbaForIndex start (index + k)) [0; 1; 2; 3]))
     = 2%nat.
Proof.
  clear toLocaleString.
  intros H0 Hstart.
  assert (Hmod : forall k, 0 <= k -> (index + k) mod 4 = (index mod 4 + k) mod 4).
  { intros k Hk. rewrite Z.add_mod_idemp_l by lia. reflexivity. }
  cbn [map]. rewrite !computeAbbaForIndex_mod by lia.
  rewrite !Hmod by lia.
  assert (Hr : 0 <= index mod 4 < 4) by (apply Z.mod_pos_bound; lia).
  assert (Hcases : index mod 4 = 0 \/ index mod 4 = 1 \/ index mod 4 = 2
                   \/ index mod 4 = 3) by lia.
  destruct start; [| |contradiction Hstart; reflexivity];
    destruct Hcases as [E|[E|[E|E]]]; rewrite E;
    repeat split; try (left; reflexivity); try (right; reflexivity);
    try reflexivity; discriminate.
Qed.

(** ** Goals *)

(** X19.  A goal is entered.  [addNewScore] adds one to the scoring
    team's score and nothing to the other's, appends one score entry that
    carries the team, the scorer, the assist and the clock reading as id,
    followed by nothing but halftime entries (when the goal triggers the
    halftime), and closes the edit selection. *)
Theorem addNewScore_effect (team : TeamKey) (scorer assist : string) (s : App) :
  let s' := addNewScore team scorer assist s in
  teamAScore s' = teamAScore s + (match team with TeamA => 1 | TeamB => 0 end)
  /\ teamBScore s' = teamBScore s + (match team with TeamA => 0 | TeamB => 1 end)
  /\ currentEditID s' = None
  /\ exists entry extra,
       scoreLogs (dataManager s') = scoreLogs (dataManager s) ++ entry :: extra
       /\ Type_ entry = score /\ TeamLetter entry = Some team
       /\ Score entry = scorer /\ Assist entry = assist
       /\ scoreID entry = toString (now s)
       /\ Forall (fun log => Type_ log = halftime) extra.
Proof.
  cbv zeta. unfold addNewScore. cbv zeta.
  lazymatch goal with
  | |- context [checkForScoreCap false ?P] =>
      assert (Q : Quiet P (attemptPendingHalftime
                             (maybeTriggerHalftimeByScore
                                (checkForScoreCap false P))))
        by (generalize P; intros ?; quiet);
      assert (HA : teamAScore P
                   = teamAScore s + match team with TeamA => 1 | TeamB => 0 end)
        by (destruct team; cbn; lia);
      assert (HB : teamBScore P
                   = teamBScore s + match team with TeamA => 0 | TeamB => 1 end)
        by (destruct team; cbn; lia);
      assert (HL : scoreLogs (dataManager P)
                   = scoreLogs (dataManager s)
                     ++ [createLogObject (toString (now s)) (Some team) scorer
                           assist None s])
        by (destruct team; reflexivity);
      revert Q HA HB HL;
      generalize (attemptPendingHalftime
                    (maybeTriggerHalftimeByScore (checkForScoreCap false P)));
      generalize P
  end.
  intros p q (QA & QB & _ & _ & extra & QL & QF) HA HB HL.
  unfold closePopup. fields. rewrite QA, QB, HA, HB, QL, HL, <- app_assoc.
  refine (conj eq_refl (conj eq_refl (conj eq_refl _))).
  eexists _, extra. split; [reflexivity|].
  refine (conj eq_refl (conj eq_refl (conj eq_refl (conj eq_refl (conj eq_refl _))))).
  eapply Forall_impl; [|exact QF]. intros log [H _]. exact H.
Qed.

Lemma scores_rebuildTableAndCounters (s : App) :
  Forall createdByApp (scoreLogs (dataManager s)) ->
  teamAScore (rebuildTableAndCounters s) = countScores TeamA (scoreLogs (dataManager s))
  /\ teamBScore (rebuildTableAndCounters s)
     = countScores TeamB (scoreLogs (dataManager s)).
Proof.
  intros H. destruct (quiet_rebuildTableAndCounters s) as (QA & QB & _).
  rewrite QA, QB. fields. rewrite tally_computeScoreboard by exact H.
  split; reflexivity.
Qed.

(** X20.  A goal is deleted.  In a state whose scoreboard agrees with
    its log, deleting the selected entry takes one point off a team
    exactly when the entry removed (the first with the selected id) is a
    goal of that team.  Without a selection, or when no entry has the
    selected id, the state only gains an error notification. *)
Theorem handleDeleteScore_scoreboard (s : App) :
  let s' := handleDeleteScore s in
  (selectedID (currentEditID s) = None
   \/ (exists id, selectedID (currentEditID s) = Some id
                  /\ getScoreLog id (dataManager s) = None) ->
   exists message, s' = showNotification message error s)
  /\ (forall id removed,
        Consistent s ->
        selectedID (currentEditID s) = Some id ->
        getScoreLog id (dataManager s) = Some removed ->
        teamAScore s'
        = teamAScore s - (if scoredBy TeamA removed then 1 else 0)
        /\ teamBScore s'
           = teamBScore s - (if scoredBy TeamB removed then 1 else 0)
        /\ currentEditID s' = None).
Proof.
  cbv zeta. unfold handleDeleteScore. split.
  - intros [H|(id & H & Hnone)]; rewrite H; [eauto|].
    pose proof (removeScoreLog_spec id (dataManager s)) as Hspec.
    rewrite Hnone in Hspec. rewrite Hspec. eauto.
  - intros id removed (CA & CB & CF) Hsel Hget. rewrite Hsel.
    pose proof (removeScoreLog_spec id (dataManager s)) as Hspec.
    rewrite Hget in Hspec. destruct Hspec as (d' & -> & _ & _ & Hq & HP).
    cbv beta match zeta.
    destruct (scores_rebuildTableAndCounters (set_dataManager d' s) (HP _ CF))
      as (HA & HB).
    cbn [dataManager set_dataManager] in HA, HB.
    revert HA HB. generalize (rebuildTableAndCounters (set_dataManager d' s)).
    intros x HA HB.
    destruct (autoSave_shape (closePopup x)) as (g2 & d2 & ->).
    unfold closePopup. fields. rewrite HA, HB, CA, CB.
    pose proof (Hq (scoredBy TeamA)) as HqA. pose proof (Hq (scoredBy TeamB)) as HqB.
    unfold countScores. fold (scoredBy TeamA) (scoredBy TeamB).
    unfold indicator in HqA, HqB.
    refine (conj _ (conj _ eq_refl)).
    + destruct (scoredBy TeamA removed); lia.
    + destruct (scoredBy TeamB removed); lia.
Qed.

Lemma findIndex_updateAt {X : Type} (p : X -> bool) (f : X -> X) (l : list X)
  (i : nat) :
  findIndex p l = Some i ->
  exists l1 x l2,
    l = l1 ++ x :: l2 /\ p x = true /\ find p l1 = None
    /\ updateAt i f l = l1 ++ f x :: l2.
Proof.
  revert i. induction l as [|y l IH]; cbn [findIndex]; intros i H; [discriminate|].
  destruct (p y) eqn:Hy.
  - injection H as <-. exists [], y, l. auto.
  - destruct (findIndex p l) as [j|] eqn:Hj; [|discriminate].
    injection H as <-. destruct (IH j eq_refl) as (l1 & x & l2 & -> & Hx & Hn & Hu).
    exists (y :: l1), x, l2. cbn [app find updateAt]. rewrite Hy, Hu. auto.
Qed.

(** X22.  The score dialogue.  [openPopup] is refused with a
    notification before the match is started and once the score cap is
    reached; otherwise it selects the team for a new goal and clears the
    edit selection.  [handleSaveScore] is refused when no team is
    selected or the scorer or the assist is left empty; with a team and
    both names it enters a new goal when no entry is selected for editing
    and edits the selected entry otherwise. *)
Theorem score_dialogue (team : TeamKey) (scorer assist : string) (s : App) :
  (matchStarted s = false \/ hardCapReached s = true ->
   exists message type,
     openPopup team s = showNotification message type s
     /\ (type = error \/ type = warning))
  /\ (matchStarted s = true -> hardCapReached s = false ->
      openPopup team s = set_popupTeam (Some team) (set_currentEditID None s))
  /\ (popupTeam s = None \/ scorer = EmptyString \/ assist = EmptyString ->
      handleSaveScore scorer assist s
      = showNotification "Please select both scorer and assist." error s)
  /\ (forall selected,
        popupTeam s = Some selected ->
        scorer <> EmptyString -> assist <> EmptyString ->
        handleSaveScore scorer assist s
        = match selectedID (currentEditID s) with
          | None => addNewScore selected scorer assist s
          | Some id => updateExistingScore id scorer assist s
          end).
Proof.
  unfold openPopup, handleSaveScore.
  refine (conj _ (conj _ (conj _ _))).
  - intros [H|H]; rewrite H; cbn [negb]; [eauto|].
    destruct (matchStarted s); cbn [negb]; eauto.
  - intros -> ->. reflexivity.
  - intros [H|[H|H]]; rewrite H; [reflexivity| |];
      destruct (popupTeam s); cbn [truthy negb orb]; rewrite ?orb_true_r;
      reflexivity.
  - intros selected -> Hscorer Hassist.
    destruct scorer; [contradiction Hscorer; reflexivity|].
    destruct assist; [contradiction Hassist; reflexivity|]. reflexivity.
Qed.

(** X23.  The score cap.  [checkForScoreCap] sets the cap flag exactly
    when a team has 15 points or more.  When the flag goes up, both
    clocks are stopped; when it was already up or stays down, the clocks
    are left alone.  Scoreboard, settings, timeout counters and log are
    never touched. *)
Theorem checkForScoreCap_effect (silent : bool) (s : App) :
  let s' := checkForScoreCap silent s in
  let reached := (15 <=? teamAScore s) || (15 <=? teamBScore s) in
  hardCapReached s' = reached
  /\ core s' = core s
  /\ (reached = true -> hardCapReached s = false ->
      isRunning (timerManager s') = false
      /\ sec_isRunning (secondsTimer s') = false)
  /\ (reached = false \/ hardCapReached s = true ->
      timerManager s' = timerManager s /\ secondsTimer s' = secondsTimer s).
Proof.
  clear toLocaleString.
  cbv zeta. unfold checkForScoreCap. cbv zeta.
  destruct ((15 <=? teamAScore s) || (15 <=? teamBScore s)) eqn:Hr;
    destruct (hardCapReached s) eqn:Hc; cbn [negb andb]; cbv iota.
  - refine (conj Hc (conj eq_refl (conj _ _))).
    + intros _ H. discriminate H.
    + intros _. split; reflexivity.
  - destruct silent; cbn [negb]; fields;
      (refine (conj eq_refl (conj eq_refl (conj _ _)));
       [intros _ _; split; [apply timer_stop_stops|apply sec_stop_stops]
       |intros [H|H]; discriminate H]).
  - refine (conj eq_refl (conj eq_refl (conj _ _))).
    + intros H. discriminate H.
    + intros _. split; reflexivity.
  - refine (conj Hc (conj eq_refl (conj _ _))).
    + intros H. discriminate H.
    + intros _. split; reflexivity.
Qed.

(** X24.  Blocked timeout.  Before the match is started and while a game
    stoppage is active, [handleTimeout] only raises a notification: no
    timeout is charged or logged, whatever the team's balance. *)
Theorem handleTimeout_blocked (team : TeamKey) (s : App) :
  matchStarted s = false \/ gameStoppageActive s = true ->
  exists message type,
    handleTimeout team s = showNotification message type s
    /\ (type = error \/ type = warning).
Proof.
  intros [H|H]; unfold handleTimeout; rewrite H; cbn [negb]; [eauto|].
  destruct (matchStarted s); cbn [negb]; eauto.
Qed.

(** ** Restore *)

Lemma SameMode_refl (s : App) : SameMode s s.
Proof. repeat split. Qed.

Lemma SameMode_trans (s1 s2 s3 : App) :
  SameMode s1 s2 -> SameMode s2 s3 -> SameMode s1 s3.
Proof.
  unfold SameMode. intros (A1 & A2 & A3 & A4 & A5 & A6) (B1 & B2 & B3 & B4 & B5 & B6).
  repeat split; congruence.
Qed.

Lemma mode_autoSave (s : App) : SameMode s (autoSave s).
Proof.
  destruct (autoSave_shape s) as (g & d & ->). repeat split.
Qed.

Lemma mode_recordSpecialEvent (type : LogType) (letter : option TeamKey)
  (extra : option string) (s : App) :
  SameMode s (fst (recordSpecialEvent type letter extra s)).
Proof.
  destruct (recordSpecialEvent_shape type letter extra s) as (g & d & ->).
  repeat split.
Qed.

Lemma mode_checkForScoreCap (silent : bool) (s : App) :
  SameMode s (checkForScoreCap silent s).
Proof.
  unfold checkForScoreCap.
  repeat match goal with
         | |- context [if ?c then _ else _] => destruct c
         end; repeat split.
Qed.

Lemma mode_updateHalftimeTracking (s : App) :
  SameMode s (updateHalftimeTracking s).
Proof.
  unfold updateHalftimeTracking.
  repeat match goal with
         | |- context [if ?c then _ else _] => destruct c
         | |- context [match ?x with _ => _ end] => destruct x
         end; repeat split.
Qed.

#[local] Hint Resolve mode_autoSave mode_recordSpecialEvent mode_checkForScoreCap
  mode_updateHalftimeTracking : frames.
#[local] Hint Extern 6 (SameMode _ _) => solve [repeat split] : frames.

Ltac mode :=
  walk SameMode SameMode_refl SameMode_trans
    ltac:(solve [auto with frames nocore]).

Lemma mode_handleHalftime (silent : bool) (reason : string) (s : App) :
  SameMode s (fst (handleHalftime silent reason s)).
Proof.
  cbv beta delta [handleHalftime]. mode.
Qed.

#[local] Hint Resolve mode_handleHalftime : frames.

Lemma mode_maybeTriggerHalftimeByScore (s : App) :
  SameMode s (maybeTriggerHalftimeByScore s).
Proof.
  cbv beta delta [maybeTriggerHalftimeByScore]. mode.
Qed.

Lemma mode_maybeTriggerHalftimeByTime (timeRemaining : option Z) (s : App) :
  SameMode s (maybeTriggerHalftimeByTime timeRemaining s).
Proof.
  cbv beta delta [maybeTriggerHalftimeByTime]. mode.
Qed.

Lemma mode_pauseAllTimers (s : App) : SameMode s (pauseAllTimers s).
Proof.
  cbv beta delta [pauseAllTimers]. mode.
Qed.

#[local] Hint Resolve mode_maybeTriggerHalftimeByScore
  mode_maybeTriggerHalftimeByTime mode_pauseAllTimers : frames.

Lemma mode_rebuildTableAndCounters (s : App) :
  SameMode s (rebuildTableAndCounters s).
Proof.
  cbv beta delta [rebuildTableAndCounters]. mode.
Qed.

(** The end of [restoreGameState], from the stoppage check on. *)
Lemma restoreGameState_tail (x : App) :
  let y :=
    maybeTriggerHalftimeByTime None
      (maybeTriggerHalftimeByScore
         (set_halftimePendingReason None
            (updateHalftimeTracking
               (checkForScoreCap true
                  (if gameStoppageActive x then pauseAllTimers x else x))))) in
  Quiet x y /\ SameMode x y.
Proof.
  cbv zeta. split.
  - destruct (gameStoppageActive x); quiet.
  - destruct (gameStoppageActive x); mode.
Qed.

Lemma restoreGameState_frame (g : GameState) (s : App) :
  let s' := restoreGameState g s in
  let logs := scoreLogs (dataManager s) in
  gameSettings s'
  = mkSettings (gs_matchDuration g) (gs_halftimeDuration g)
      (gs_halftimeBreakDuration g) (gs_timeoutDuration g) (gs_timeoutsTotal g)
      (gs_timeoutsPerHalf g)
  /\ (abbaStart s', matchStarted s', gameStoppageActive s')
     = (gs_abbaStart g, gs_matchStarted g, gs_stoppageActive g)
  /\ (logs = [] ->
      (teamAScore s', teamBScore s') = (gs_teamAScore g, gs_teamBScore g))
  /\ (logs <> [] -> Forall createdByApp logs ->
      (teamAScore s', teamBScore s')
      = (countScores TeamA logs, countScores TeamB logs))
  /\ (forall team,
        totalRemaining (teamState (timeoutState s') team)
        = totalRemaining (teamState (timeoutState s) team))
  /\ teamA s' = orElse (gs_teamAName g) (teamA s)
  /\ teamB s' = orElse (gs_teamBName g) (teamB s).
Proof.
  cbv zeta.
  (* the state before the table is rebuilt *)
  set (s1 :=
    let s := set_teamAScore (gs_teamAScore g) s in
    let s := set_teamBScore (gs_teamBScore g) s in
    let s := set_matchStarted (gs_matchStarted g) s in
    let s := set_halftimeAutoSuppressed false s in
    let hasHalftimeLog :=
      existsb (fun log => LogType_eqb (Type_ log) halftime)
        (scoreLogs (dataManager s)) in
    let s :=
      set_halftimeReasonResolved
        (if hasHalftimeLog
         then (if truthyOpt (gs_halftimeReasonResolved g)
               then gs_halftimeReasonResolved g else None)
         else None) s in
    let s := if truthy (gs_teamAName g) then set_teamA (gs_teamAName g) s else s in
    if truthy (gs_teamBName g) then set_teamB (gs_teamBName g) s else s).
  assert (H1 : scoreLogs (dataManager s1) = scoreLogs (dataManager s)
               /\ matchStarted s1 = gs_matchStarted g
               /\ teamAScore s1 = gs_teamAScore g
               /\ teamBScore s1 = gs_teamBScore g
               /\ timeoutState s1 = timeoutState s
               /\ teamA s1 = orElse (gs_teamAName g) (teamA s)
               /\ teamB s1 = orElse (gs_teamBName g) (teamB s)).
  { subst s1. cbv zeta. unfold orElse.
    destruct (truthy (gs_teamAName g)), (truthy (gs_teamBName g)); repeat split. }
  destruct H1 as (L1 & M1 & A1 & B1 & T1 & NA1 & NB1).
  set (s2 := match scoreLogs (dataManager s1) with
             | [] => s1
             | _ => rebuildTableAndCounters s1
             end).
  assert (H2 : (teamA s2 = teamA s1 /\ teamB s2 = teamB s1)
               /\ matchStarted s2 = gs_matchStarted g
               /\ (forall team,
                     totalRemaining (teamState (timeoutState s2) team)
                     = totalRemaining (teamState (timeoutState s) team))
               /\ (scoreLogs (dataManager s) = [] ->
                   teamAScore s2 = gs_teamAScore g
                   /\ teamBScore s2 = gs_teamBScore g)
               /\ (scoreLogs (dataManager s) <> [] ->
                   Forall createdByApp (scoreLogs (dataManager s)) ->
                   teamAScore s2 = countScores TeamA (scoreLogs (dataManager s))
                   /\ teamBScore s2
                      = countScores TeamB (scoreLogs (dataManager s)))).
  { subst s2. rewrite L1. destruct (scoreLogs (dataManager s)) as [|l ls] eqn:El.
    - rewrite T1.
      refine (conj (conj eq_refl eq_refl)
                (conj M1 (conj (fun _ => eq_refl) (conj _ _)))).
      + intros _. auto.
      + intros H. contradiction H. reflexivity.
    - destruct (mode_rebuildTableAndCounters s1) as (Hm & _ & _ & _ & Hna & Hnb).
      destruct (quiet_rebuildTableAndCounters s1) as (_ & _ & _ & Ht & _).
      rewrite Hm. refine (conj (conj Hna Hnb) (conj M1 (conj _ (conj _ _)))).
      + intros team. rewrite Ht. fields. rewrite T1. reflexivity.
      + intros H. discriminate H.
      + intros _ HF.
        destruct (scores_rebuildTableAndCounters s1) as [Ha Hb];
          [rewrite L1, ?El; exact HF|].
        rewrite Ha, Hb, L1, ?El. split; reflexivity. }
  destruct H2 as ((NA2 & NB2) & M2 & T2 & Hempty & Hlogs).
  set (x :=
    set_gameStoppageActive (gs_stoppageActive g)
      (set_abbaStart (gs_abbaStart g)
         (applyGameSettingsToUI
            (set_gameSettings
               (mkSettings (gs_matchDuration g) (gs_halftimeDuration g)
                  (gs_halftimeBreakDuration g) (gs_timeoutDuration g)
                  (gs_timeoutsTotal g) (gs_timeoutsPerHalf g)) s2)))).
  assert (Hs' : restoreGameState g s
                = maybeTriggerHalftimeByTime None
                    (maybeTriggerHalftimeByScore
                       (set_halftimePendingReason None
                          (updateHalftimeTracking
                             (checkForScoreCap true
                                (if gameStoppageActive x
                                 then pauseAllTimers x else x))))))
    by reflexivity.
  rewrite Hs'.
  destruct (restoreGameState_tail x)
    as ((QA & QB & QG & QT & _) & (Rm & Rg & Ra & _ & Rna & Rnb)).
  cbv zeta in QA, QB, QG, QT, Rm, Rg, Ra, Rna, Rnb.
  rewrite QA, QB, QG, Rm, Rg, Ra, Rna, Rnb.
  change (teamA x) with (teamA s2). change (teamB x) with (teamB s2).
  rewrite NA2, NB2, NA1, NB1.
  change (teamAScore x) with (teamAScore s2).
  change (teamBScore x) with (teamBScore s2).
  change (matchStarted x) with (matchStarted s2).
  rewrite M2.
  refine (conj eq_refl (conj eq_refl (conj _ (conj _ (conj _ (conj eq_refl eq_refl)))))).
  - intros H. destruct (Hempty H) as [-> ->]. reflexivity.
  - intros H HF. destruct (Hlogs H HF) as [-> ->]. reflexivity.
  - intros team. rewrite QT. apply T2.
Qed.

(** X25.  Restoring a snapshot.  [restoreGameState] takes the settings,
    the gender-sequence setting and the match-started and stoppage flags
    from the snapshot.  The scoreboard is recomputed from the restored
    log whenever that log is not empty (the stored scores are ignored);
    only with an empty log are the stored scores taken.  A stored team
    name replaces the selection unless it is empty, and the timeout
    totals are not touched. *)
Theorem restoreGameState_effect (g : GameState) (s : App) :
  let s' := restoreGameState g s in
  let logs := scoreLogs (dataManager s) in
  gameSettings s'
  = mkSettings (gs_matchDuration g) (gs_halftimeDuration g)
      (gs_halftimeBreakDuration g) (gs_timeoutDuration g) (gs_timeoutsTotal g)
      (gs_timeoutsPerHalf g)
  /\ (abbaStart s', matchStarted s', gameStoppageActive s')
     = (gs_abbaStart g, gs_matchStarted g, gs_stoppageActive g)
  /\ (logs = [] ->
      (teamAScore s', teamBScore s') = (gs_teamAScore g, gs_teamBScore g))
  /\ (logs <> [] -> Forall createdByApp logs ->
      (teamAScore s', teamBScore s')
      = (countScores TeamA logs, countScores TeamB logs))
  /\ (forall team,
        totalRemaining (teamState (timeoutState s') team)
        = totalRemaining (teamState (timeoutState s) team))
  /\ teamA s' = orElse (gs_teamAName g) (teamA s)
  /\ teamB s' = orElse (gs_teamBName g) (teamB s).
Proof.
  exact (restoreGameState_frame g s).
Qed.

(** X26.  What auto-save stores, restore reinstates.  The snapshot that
    [autoSave] writes outside a restore carries the clock reading as its
    timestamp and leaves the log as it is; restoring that snapshot, on
    any state, brings back the settings, the gender-sequence setting, the
    match-started and stoppage flags and the team selections that were
    saved (an empty selection keeps the current one), and, over an empty
    log, the saved scoreboard. *)
Theorem autoSave_restore_round_trip (s other : App) :
  isRestoring s = false ->
  let saved := autoSave s in
  let g := gameState (dataManager saved) in
  let restored := restoreGameState g other in
  gs_timestamp g = now s
  /\ scoreLogs (dataManager saved) = scoreLogs (dataManager s)
  /\ gameSettings restored = gameSettings s
  /\ (abbaStart restored, matchStarted restored, gameStoppageActive restored)
     = (abbaStart s, matchStarted s, gameStoppageActive s)
  /\ teamA restored = orElse (teamA s) (teamA other)
  /\ teamB restored = orElse (teamB s) (teamB other)
  /\ (scoreLogs (dataManager other) = [] ->
      (teamAScore restored, teamBScore restored) = (teamAScore s, teamBScore s)).
Proof.
  intros Hr. cbv zeta.
  assert (Hlogs : scoreLogs (dataManager (autoSave s)) = scoreLogs (dataManager s))
    by (unfold autoSave; rewrite Hr; reflexivity).
  assert (Hg : gameState (dataManager (autoSave s))
               = mkGameState (teamAScore s) (teamBScore s) (teamA s) (teamB s)
                   (matchDuration (gameSettings s))
                   (halftimeDuration (gameSettings s))
                   (halftimeBreakDuration (gameSettings s))
                   (timeoutDuration (gameSettings s))
                   (timeoutsTotal (gameSettings s))
                   (timeoutsPerHalf (gameSettings s))
                   (abbaStart s) (gameStoppageActive s)
                   (getTimeoutStateSnapshot s) (halftimeReasonResolved s)
                   (matchStarted s) (now s))
    by (unfold autoSave; rewrite Hr; reflexivity).
  rewrite Hg, Hlogs.
  match goal with
  | |- context [restoreGameState ?g other] =>
      destruct (restoreGameState_frame g other)
        as (HG & HF & HE & _ & _ & HA & HB)
  end.
  cbv zeta in HG, HF, HE, HA, HB. rewrite HG, HF, HA, HB.
  cbn [gs_timestamp gs_matchDuration gs_halftimeDuration gs_halftimeBreakDuration
       gs_timeoutDuration gs_timeoutsTotal gs_timeoutsPerHalf gs_abbaStart
       gs_matchStarted gs_stoppageActive gs_teamAName gs_teamBName].
  refine (conj eq_refl (conj eq_refl (conj _ (conj eq_refl (conj eq_refl
            (conj eq_refl _)))))).
  - destruct (gameSettings s). reflexivity.
  - intros H. rewrite (HE H). reflexivity.
Qed.

(** ** The gender-sequence column and the halftime flag *)

Lemma find_unique (id : string) (logs : list LogEntry) (row : LogEntry) :
  NoDup (map scoreID logs) -> In row logs -> scoreID row = id ->
  find (hasID id) logs = Some row.
Proof.
  intros Hnd Hin <-. induction logs as [|x logs IH]; [contradiction Hin|].
  cbn [map] in Hnd. inversion Hnd as [|? ? Hx Hnd']; subst.
  cbn [find]. unfold hasID at 1.
  destruct Hin as [->|Hin]; [rewrite String.eqb_refl; reflexivity|].
  destruct (String.eqb (scoreID x) (scoreID row)) eqn:E.
  - apply String.eqb_eq in E. exfalso. apply Hx. rewrite E.
    apply in_map. exact Hin.
  - apply IH; assumption.
Qed.




(** The rows, their ids and their cells do not depend on the scorer and
    the assist of an entry: [updateScoreInTable] finds the same kind of
    row before and after the log update. *)
Lemma updateScoreInTable_edit (id scorer assist : string) (s : App)
  (l1 l2 : list LogEntry) (x : LogEntry) (d' : DataManager) :
  scoreLogs (dataManager s) = l1 ++ x :: l2 ->
  scoreLogs d'
  = l1 ++ mkLog (scoreID x) (GameID x) (Time x) (Team x) (TeamName x)
            (TeamLetter x) scorer assist (Type_ x) (Event x) (EventType x)
            (HalftimeReason x) :: l2 ->
  updateScoreInTable id (set_dataManager d' s) = updateScoreInTable id s.
Proof.
  intros Hl Hl'.
  unfold updateScoreInTable, tableRows, rowCells, getTeamLetterFromLog, getLogType.
  fields. rewrite Hl, Hl', !filter_app. cbn [filter Type_].
  destruct (negb (LogType_eqb (Type_ x) matchstart)).
  - rewrite !rev_app_distr. cbn [rev]. rewrite <- !app_assoc.
    match goal with
    | |- context [find (hasID id) (rev ?rows ++ _)] =>
        destruct (find (hasID id) (rev rows)) as [row|] eqn:E
    end.
    + rewrite !(find_app_some _ _ _ _ E). reflexivity.
    + rewrite !(find_app_none _ _ _ E). cbn [app find]. unfold hasID at 1 3.
      cbn [scoreID]. destruct (String.eqb (scoreID x) id); reflexivity.
  - reflexivity.
Qed.

(** With pairwise distinct ids the row found for a goal is the goal's own
    row of seven cells. *)
Lemma updateScoreInTable_distinct (id : string) (s : App) (edited : LogEntry) :
  NoDup (map scoreID (scoreLogs (dataManager s))) ->
  getScoreLog id (dataManager s) = Some edited ->
  isScoreLog edited = true ->
  updateScoreInTable id s = true.
Proof.
  intros Hnd Hget Hscore. unfold updateScoreInTable.
  destruct (find (hasID id) (rev (tableRows (dataManager s)))) as [row|] eqn:E;
    [|reflexivity].
  apply find_some in E. destruct E as [Hin Hid].
  apply in_rev in Hin. unfold tableRows in Hin. apply filter_In in Hin.
  destruct Hin as [Hin _]. unfold hasID in Hid. apply String.eqb_eq in Hid.
  pose proof (find_unique id _ row Hnd Hin Hid) as Hrow.
  unfold getScoreLog in Hget. rewrite Hget in Hrow. injection Hrow as <-.
  unfold rowCells. unfold isScoreLog in Hscore.
  destruct (getLogType edited); try discriminate Hscore.
  destruct (popupTeam s) as [[|]|]; reflexivity.
Qed.

(** X21.  A goal is edited.  [updateExistingScore] rewrites the scorer
    and the assist of the first entry with the selected id and nothing
    else: every other field of that entry, every other entry, the order
    of the log, the scoreboard, the settings and the timeout counters stay
    as they are.  The edit selection is closed exactly when the table
    write runs to its end: always with the popup on team A, and always
    when the ids of the log are pairwise distinct and the entry is a goal;
    when the write fails (the newest row with the id has five cells, as
    the halftime row that shares its id with the goal that triggered it,
    and the popup is not on team A) the log is updated all the same and
    the selection stays open.  When no entry has the id, the log is
    untouched and an error is raised. *)
Theorem updateExistingScore_effect (id scorer assist : string) (s : App) :
  let s' := updateExistingScore id scorer assist s in
  (teamAScore s', teamBScore s', timeoutState s', gameSettings s')
  = (teamAScore s, teamBScore s, timeoutState s, gameSettings s)
  /\ (getScoreLog id (dataManager s) = None ->
      scoreLogs (dataManager s') = scoreLogs (dataManager s)
      /\ notifications s'
         = ("Could not find score to update.", error) :: notifications s)
  /\ (forall edited,
        getScoreLog id (dataManager s) = Some edited ->
        notifications s' = notifications s
        /\ (exists before after,
              scoreLogs (dataManager s) = before ++ edited :: after
              /\ getScoreLog id
                   (mkData (teamsData (dataManager s)) before
                      (gameState (dataManager s)) (isDirty (dataManager s)))
                 = None
              /\ scoreLogs (dataManager s')
                 = before
                   ++ mkLog (scoreID edited) (GameID edited) (Time edited)
                        (Team edited) (TeamName edited) (TeamLetter edited)
                        scorer assist (Type_ edited) (Event edited)
                        (EventType edited) (HalftimeReason edited)
                      :: after)
        /\ currentEditID s'
           = (if updateScoreInTable id s then None else currentEditID s)
        /\ (popupTeam s = Some TeamA -> currentEditID s' = None)
        /\ (isScoreLog edited = true ->
            NoDup (map scoreID (scoreLogs (dataManager s))) ->
            currentEditID s' = None)).
Proof.
  cbv zeta.
  assert (Hsel : forall edited,
             getScoreLog id (dataManager s) = Some edited ->
             currentEditID (updateExistingScore id scorer assist s)
             = (if updateScoreInTable id s then None else currentEditID s)
             /\ notifications (updateExistingScore id scorer assist s)
                = notifications s).
  { intros edited Hget. unfold updateExistingScore, updateScoreLog.
    unfold getScoreLog in Hget.
    destruct (findIndex (hasID id) (scoreLogs (dataManager s))) as [i|] eqn:Hi;
      [|rewrite (findIndex_None_find _ _ Hi) in Hget; discriminate Hget].
    match goal with
    | |- context [updateAt i ?f _] =>
        destruct (findIndex_updateAt (hasID id) f _ i Hi)
          as (l1 & x & l2 & Hl & _ & _ & Hu)
    end.
    match goal with
    | |- context [set_dataManager ?d s] =>
        rewrite (updateScoreInTable_edit id scorer assist s l1 l2 x d Hl Hu)
    end.
    destruct (updateScoreInTable id s); unfold closePopup; fields; auto. }
  unfold updateExistingScore, updateScoreLog, getScoreLog in *.
  destruct (findIndex (hasID id) (scoreLogs (dataManager s))) as [i|] eqn:Hi.
  - match goal with
    | |- context [updateAt i ?f _] =>
        destruct (findIndex_updateAt (hasID id) f _ i Hi)
          as (l1 & x & l2 & Hl & Hx & Hn & Hu)
    end.
    assert (Hfound : find (hasID id) (scoreLogs (dataManager s)) = Some x).
    { rewrite Hl, (find_app_none _ l1 (x :: l2) Hn). cbn [find].
      rewrite Hx. reflexivity. }
    destruct (Hsel x Hfound) as (Hclose & Hnote).
    rewrite Hfound. split; [|split; [discriminate|]].
    + match goal with
      | |- context [if ?c then _ else _] => destruct c
      end; unfold closePopup; fields; reflexivity.
    + intros edited H. injection H as <-.
      split; [exact Hnote|]. split; [|split; [exact Hclose|split]].
      * exists l1, l2. split; [exact Hl|]. split; [exact Hn|].
        match goal with
        | |- context [if ?c then _ else _] => destruct c
        end; unfold closePopup, markDirty; fields; exact Hu.
      * intros HA. rewrite Hclose. unfold updateScoreInTable. rewrite HA.
        destruct (find (hasID id) (rev (tableRows (dataManager s))));
          reflexivity.
      * intros Hscore Hnd. rewrite Hclose.
        rewrite (updateScoreInTable_distinct id s x Hnd Hfound Hscore).
        reflexivity.
  - fields. rewrite (findIndex_None_find _ _ Hi).
    refine (conj eq_refl (conj _ _)); [auto|discriminate].
Qed.


Lemma isSome_lastOf_filter (logs : list LogEntry) :
  isSome (lastOf (filter (fun log => LogType_eqb (Type_ log) halftime) logs))
  = hasHalftime logs.
Proof.
  unfold hasHalftime.
  induction logs as [|x logs IH] using rev_ind; [reflexivity|].
  rewrite filter_app, existsb_app. cbn [filter existsb].
  destruct (LogType_eqb (Type_ x) halftime).
  - rewrite lastOf_snoc, orb_true_r. reflexivity.
  - rewrite app_nil_r, ?orb_false_r. exact IH.
Qed.

Lemma updateHalftimeTracking_flag (s : App) :
  halftimeTriggered (updateHalftimeTracking s) = hasHalftime (scoreLogs (dataManager s))
  /\ scoreLogs (dataManager (updateHalftimeTracking s)) = scoreLogs (dataManager s).
Proof.
  rewrite <- isSome_lastOf_filter. unfold updateHalftimeTracking. cbv zeta.
  destruct (lastOf (filter (fun log => LogType_eqb (Type_ log) halftime)
                      (scoreLogs (dataManager s)))) as [latest|];
    fields; cbv iota; fields; cbn [isSome];
    repeat match goal with
           | |- context [if ?c then _ else _] => destruct c
           end; split; reflexivity.
Qed.

(** X28.  The halftime flag agrees with the log.  After
    [rebuildTableAndCounters] (which follows every deletion, every timeout
    reassignment, the restore and Submit) the halftime is flagged as
    recorded exactly when the log holds a halftime entry. *)
Theorem rebuildTableAndCounters_halftime_flag (s : App) :
  halftimeTriggered (rebuildTableAndCounters s)
  = hasHalftime (scoreLogs (dataManager (rebuildTableAndCounters s))).
Proof.
  unfold rebuildTableAndCounters. cbv zeta.
  match goal with
  | |- context [updateHalftimeTracking ?x] =>
      destruct (updateHalftimeTracking_flag x) as (Hflag & _);
      revert Hflag;
      replace (scoreLogs (dataManager x)) with
        (scoreLogs (dataManager (updateHalftimeTracking x)))
        by apply updateHalftimeTracking_flag;
      generalize (updateHalftimeTracking x)
  end.
  intros u Hflag.
  destruct (matchStarted u) eqn:Hs;
    [|unfold maybeTriggerHalftimeByScore; rewrite Hs; exact Hflag].
  destruct (halftimeTriggered u) eqn:Ht;
    [unfold maybeTriggerHalftimeByScore; rewrite Hs, Ht; cbn [negb orb];
     rewrite Ht; exact Hflag|].
  destruct (truthyOpt (halftimeReasonResolved u)) eqn:Hr;
    [unfold maybeTriggerHalftimeByScore; rewrite Hs, Ht, Hr; cbn [negb orb];
     rewrite Ht; exact Hflag|].
  destruct (halftimeAutoSuppressed u) eqn:Hsup.
  - destruct (maybeTriggerHalftimeByScore_idle u Hs Ht Hr (or_introl Hsup))
      as [->| ->]; fields; rewrite ?Ht; exact Hflag.
  - destruct (Z_lt_le_dec (Z.max (teamAScore u) (teamBScore u))
                CONFIG.HALFTIME_SCORE_TARGET) as [Hlt|Hle].
    + destruct (maybeTriggerHalftimeByScore_idle u Hs Ht Hr (or_intror Hlt))
        as [->| ->]; fields; rewrite ?Ht; exact Hflag.
    + rewrite (maybeTriggerHalftimeByScore_fires u Hs Ht Hr Hsup Hle).
      destruct (handleHalftime_accepted true "score" u Hs Ht eq_refl)
        as (Hf & _ & _ & entry & Hl & Hty & _).
      cbv zeta in Hf, Hl. revert Hf Hl.
      generalize (fst (handleHalftime true "score" u)). intros h Hf Hl.
      fields. rewrite Hl. unfold hasHalftime. rewrite existsb_app.
      cbn [existsb]. rewrite Hty. cbn [LogType_eqb]. rewrite orb_true_r.
      unfold halftimeFlags in Hf. congruence.
Qed.

End Scorekeeper.

(** ** The properties on the example matches

    The timestamps are rendered as decimal numbers. *)

(** C7 on a match where team A has used both timeouts: a third call is
    refused. *)
Lemma timeout_without_balance_rejected_witness :
  let s := run toString spentTimeouts (freshApp kickoff) in
  totalRemaining (teamState (timeoutState s) TeamA) <= 0
  /\ matchStarted s = true /\ gameStoppageActive s = false
  /\ scoreLogs (dataManager (handleTimeout toString TeamA s))
     = scoreLogs (dataManager s)
  /\ timeoutState (handleTimeout toString TeamA s) = timeoutState s
  /\ exists message,
       notifications (handleTimeout toString TeamA s)
       = (message, error) :: notifications s
       /\ (message = "Red has no timeouts remaining."
           \/ message = "Red has no timeouts remaining for this half.").
Proof.
  intros s.
  assert (H : totalRemaining (teamState (timeoutState s) TeamA) <= 0)
    by (vm_compute; discriminate).
  assert (Hs : matchStarted s = true) by (vm_compute; reflexivity).
  assert (Hg : gameStoppageActive s = false) by (vm_compute; reflexivity).
  destruct (timeout_without_balance_rejected toString TeamA s (or_introl H))
    as (_ & Hlogs & Hstate & Hmsg).
  exact (conj H (conj Hs (conj Hg (conj Hlogs (conj Hstate (Hmsg Hs Hg)))))).
Defined.

(** C8 on a match with one timeout per half, after team A has called
    one: at halftime team A has one timeout left in total and receives
    one for the half. *)
Lemma halftime_resets_half_allotment_witness :
  let s := run toString perHalfMatch (freshApp kickoff) in
  let s' := fst (handleHalftime toString false "manual" s) in
  matchStarted s = true
  /\ halftimeTriggered s = false
  /\ timeoutsPerHalf (gameSettings s) <= timeoutsTotal (gameSettings s)
  /\ halfRemaining (teamState (timeoutState s) TeamA) = 0
  /\ snd (handleHalftime toString false "manual" s) = true
  /\ totalRemaining (teamState (timeoutState s') TeamA) = 1
  /\ halfRemaining (teamState (timeoutState s') TeamA) = 1.
Proof.
  intros s s'.
  assert (Hs : matchStarted s = true) by (vm_compute; reflexivity).
  assert (Ht : halftimeTriggered s = false) by (vm_compute; reflexivity).
  assert (Hle : timeoutsPerHalf (gameSettings s) <= timeoutsTotal (gameSettings s))
    by (vm_compute; discriminate).
  assert (Hh : halfRemaining (teamState (timeoutState s) TeamA) = 0)
    by (vm_compute; reflexivity).
  destruct (halftime_resets_half_allotment toString false "manual" TeamA s Hs Ht Hle)
    as (Hr & Htotal & Hhalf).
  refine (conj Hs (conj Ht (conj Hle (conj Hh (conj Hr
            (conj (eq_trans Htotal _) (eq_trans Hhalf _))))))).
  - vm_compute. reflexivity.
  - vm_compute. reflexivity.
Defined.

(** The counters of the example matches are in range. *)
Lemma TimeoutBounds_timeoutUnderEdit :
  TimeoutBounds (run toString timeoutUnderEdit (freshApp kickoff)).
Proof.
  intros [|]; vm_compute; repeat split; try discriminate.
Qed.

(** On a match where team A has called a timeout that is open for
    editing: initialising, saving the setup, a further call and the
    reassignment to team B all keep the counters in range. *)
Lemma timeout_counters_stay_in_range_witness :
  let s := run toString timeoutUnderEdit (freshApp kickoff) in
  0 <= timeoutsTotal (gameSettings s)
  /\ TimeoutBounds s
  /\ 0 < timeoutsTotal (gameSettings s)
  /\ TimeoutBounds (initializeTimeoutState None s)
  /\ TimeoutBounds (handleSetupSave toString (setupOf (Some 3) (Some 1)) s)
  /\ TimeoutBounds (handleTimeout toString TeamB s)
  /\ TimeoutBounds (handleTimeoutEditSave toString (Some TeamB) s).
Proof.
  intros s.
  assert (H0 : 0 <= timeoutsTotal (gameSettings s)) by (vm_compute; discriminate).
  assert (Hpos : 0 < timeoutsTotal (gameSettings s)) by (vm_compute; reflexivity).
  pose proof TimeoutBounds_timeoutUnderEdit as HB. fold s in HB.
  destruct (timeout_counters_stay_in_range toString s H0)
    as (Hinit & Hsetup & Hcall & Hedit).
  exact (conj H0 (conj HB (conj Hpos (conj (Hinit None)
          (conj (Hsetup (setupOf (Some 3) (Some 1)))
             (conj (Hcall HB TeamB)
                (proj2 (Hedit HB Hpos (Some TeamA) (Some TeamB) (Some TeamB))))))))).
Defined.

(** C10.  A reassignment leaves a counter above a zero allotment.  Team A
    calls a timeout, the total allotment is then set to zero in the setup
    (both counters become 0 of 0), and the timeout is reassigned to team
    B: team A's counter goes to 1 although the allotment is 0, so the
    counters are no longer within the allotment, and team A is granted a
    further timeout.  [normalize] applies no upper bound when the
    allotment is not positive, whereas [clampCount], which initialises the
    counters, bounds them by the allotment or by zero: given the same
    counters it brings team A back to 0. *)
Theorem reassignment_exceeds_zero_allotment :
  let s := run toString zeroAllotmentUnderEdit (freshApp kickoff) in
  let s' := handleTimeoutEditSave toString (Some TeamB) s in
  let again := handleTimeout toString TeamA s' in
  let saved :=
    mkSavedState (Some (mkSavedTeam (Some 1) (Some 1)))
      (Some (mkSavedTeam (Some 0) (Some 0))) in
  TimeoutBounds s
  /\ timeoutsTotal (gameSettings s') = 0
  /\ totalRemaining (teamState (timeoutState s') TeamA) = 1
  /\ ~ TimeoutBounds s'
  /\ map Type_ (scoreLogs (dataManager again)) = [matchstart; timeout; timeout]
  /\ map TeamLetter (scoreLogs (dataManager again))
     = [None; Some TeamB; Some TeamA]
  /\ totalRemaining
       (teamState (timeoutState (initializeTimeoutState (Some saved) s')) TeamA)
     = 0.
Proof.
  intros s s' again saved.
  refine (conj _ (conj _ (conj _ (conj _ (conj _ (conj _ _)))))).
  - intros [|]; vm_compute; repeat split; try discriminate.
  - vm_compute. reflexivity.
  - vm_compute. reflexivity.
  - intros HB. specialize (HB TeamA). vm_compute in HB.
    destruct HB as [[_ H] _]. apply H. reflexivity.
  - vm_compute. reflexivity.
  - vm_compute. reflexivity.
  - vm_compute. reflexivity.
Qed.

(** C3 on the same match: a further call, the reassignment of team A's
    timeout to team B and the deletion of the selected goal all keep both
    teams' balance. *)
Lemma timeout_balance_conservation_witness :
  let s := run toString timeoutUnderEdit (freshApp kickoff) in
  selectedID (currentTimeoutEditID s) = Some "1700000002000"
  /\ selectedID (currentEditID s) = Some "1700000001000"
  /\ 1 <= totalRemaining (teamState (timeoutState s) TeamB)
  /\ totalRemaining (teamState (timeoutState s) TeamA)
     < timeoutsTotal (gameSettings s)
  /\ timeoutBalance TeamA (handleTimeout toString TeamA s) = timeoutBalance TeamA s
  /\ timeoutBalance TeamA (handleTimeoutEditSave toString (Some TeamB) s)
     = timeoutBalance TeamA s
  /\ timeoutBalance TeamA (handleDeleteScore toString s) = timeoutBalance TeamA s
  /\ totalRemaining (teamState (timeoutState (handleDeleteScore toString s)) TeamA)
     = totalRemaining (teamState (timeoutState s) TeamA).
Proof.
  intros s.
  assert (Hsel : selectedID (currentTimeoutEditID s) = Some "1700000002000")
    by (vm_compute; reflexivity).
  assert (Hedit : selectedID (currentEditID s) = Some "1700000001000")
    by (vm_compute; reflexivity).
  assert (Hnew : 1 <= totalRemaining (teamState (timeoutState s) TeamB))
    by (vm_compute; discriminate).
  assert (Hold : totalRemaining (teamState (timeoutState s) TeamA)
                 < timeoutsTotal (gameSettings s))
    by (vm_compute; reflexivity).
  pose proof TimeoutBounds_timeoutUnderEdit as HB. fold s in HB.
  destruct (timeout_balance_conservation toString TeamA s)
    as (Hcall & Hreassign & Hdelete & Htotal).
  refine (conj Hsel (conj Hedit (conj Hnew (conj Hold
            (conj (Hcall TeamA) (conj _ (conj _ Htotal))))))).
  - eapply (Hreassign TeamB "1700000002000"); [exact Hsel| |exact HB|exact Hnew|].
    + vm_compute. reflexivity.
    + intros [|] Hletter Hne; [exact Hold|].
      vm_compute in Hletter. discriminate Hletter.
  - apply Hdelete. intros id log Hid Hlog.
    rewrite Hedit in Hid. injection Hid as <-.
    vm_compute in Hlog. injection Hlog as <-. discriminate.
Defined.

(** C3 as stated fails for a reassignment to a team that has no timeout
    left: team B has used both of its timeouts, team A's timeout is
    reassigned to team B, and team B's balance goes from two to three. *)
Lemma timeout_balance_broken_counterexample :
  let s := run toString timeoutOfSpentTeamUnderEdit (freshApp kickoff) in
  let s' := handleTimeoutEditSave toString (Some TeamB) s in
  timeoutBalance TeamB s = 2
  /\ timeoutBalance TeamB s' = 3
  /\ timeoutBalance TeamB s' <> timeoutBalance TeamB s.
Proof.
  intros s s'. split; [|split].
  - vm_compute. reflexivity.
  - vm_compute. reflexivity.
  - vm_compute. discriminate.
Qed.

(** C4 on a match fifty-six minutes into its hundred: the tick marks the
    halftime as pending and the next goal declares it, with the clock as
    the reason. *)
Lemma pending_clock_halftime_witness :
  let s := run toString lateFirstHalf (freshApp kickoff) in
  let total := 2639000 in
  let ticked := handleMainTimerTick total s in
  let scored := addNewScore toString TeamA "Ann" "Bo" ticked in
  (matchStarted s = true /\ halftimeTriggered s = false
   /\ halftimeAutoSuppressed s = false
   /\ 0 < matchDuration (gameSettings s) - halftimeDuration (gameSettings s)
   /\ Z.max 0 total
      <= (matchDuration (gameSettings s) - halftimeDuration (gameSettings s))
         * 60 * 1000)
  /\ (matchStarted ticked = true /\ halftimeTriggered ticked = false
      /\ halftimeReasonResolved ticked = None
      /\ halftimePendingReason ticked = Some "clock")
  /\ scoreLogs (dataManager ticked) = scoreLogs (dataManager s)
  /\ halftimeTriggered scored = true
  /\ halftimePendingReason scored = None
  /\ halftimeReasonResolved scored = Some "clock"
  /\ map Type_ (scoreLogs (dataManager scored)) = [matchstart; score; halftime].
Proof.
  intros s total ticked scored.
  assert (H1 : matchStarted s = true) by (vm_compute; reflexivity).
  assert (H2 : halftimeTriggered s = false) by (vm_compute; reflexivity).
  assert (H3 : halftimeAutoSuppressed s = false) by (vm_compute; reflexivity).
  assert (H4 : 0 < matchDuration (gameSettings s)
                   - halftimeDuration (gameSettings s))
    by (vm_compute; reflexivity).
  assert (H5 : Z.max 0 total
               <= (matchDuration (gameSettings s)
                   - halftimeDuration (gameSettings s)) * 60 * 1000)
    by (vm_compute; discriminate).
  assert (P1 : matchStarted ticked = true) by (vm_compute; reflexivity).
  assert (P2 : halftimeTriggered ticked = false) by (vm_compute; reflexivity).
  assert (P3 : halftimeReasonResolved ticked = None) by (vm_compute; reflexivity).
  assert (P4 : halftimePendingReason ticked = Some "clock")
    by (vm_compute; reflexivity).
  destruct (pending_clock_halftime toString total s ticked TeamA "Ann" "Bo"
              H1 H2 H3 H4 H5 P1 P2 P3 P4)
    as ((_ & _ & _ & _ & Hlogs & _) & (Q1 & Q2 & Q3 & _)).
  refine (conj (conj H1 (conj H2 (conj H3 (conj H4 H5))))
            (conj (conj P1 (conj P2 (conj P3 P4)))
               (conj Hlogs (conj Q1 (conj Q2 (conj (eq_trans Q3 _) _)))))).
  - vm_compute. reflexivity.
  - vm_compute. reflexivity.
Defined.

(** C4 as stated fails after a halftime has been removed while a team
    has eight goals: the clock is at the threshold and no halftime is
    declared, yet the tick sets no pending flag and the next goal
    declares no halftime. *)
Lemma pending_clock_halftime_suppressed_counterexample :
  let s := run toString removedHalftime (freshApp kickoff) in
  let ticked := step toString MainTimerInterval s in
  let scored := run toString (goal TeamA) ticked in
  matchStarted s = true
  /\ halftimeTriggered s = false
  /\ isRunning (timerManager s) = true
  /\ (exists e, endTime (timerManager s) = Some e
                /\ getTimeRemaining e (now s)
                   <= (matchDuration (gameSettings s)
                       - halftimeDuration (gameSettings s)) * 60 * 1000)
  /\ halftimePendingReason ticked = None
  /\ List.length (scoreLogs (dataManager scored))
     = S (List.length (scoreLogs (dataManager ticked)))
  /\ teamAScore scored = teamAScore ticked + 1
  /\ halftimeTriggered scored = false
  /\ existsb (fun log => LogType_eqb (Type_ log) halftime)
       (scoreLogs (dataManager scored)) = false.
Proof.
  intros s ticked scored.
  refine (conj _ (conj _ (conj _ (conj _ (conj _ (conj _ (conj _ (conj _ _))))))));
    [vm_compute; reflexivity ..| | | | | |];
    [|vm_compute; reflexivity ..].
  exists 1700006000000. split; [vm_compute; reflexivity|vm_compute; discriminate].
Qed.

(** C5 on a relaunch over a snapshot written a minute earlier by a match
    configured for eighty minutes: on refusal the roster is kept and the
    configuration is the default one. *)
Lemma refused_restore_resets_configuration_witness :
  let s := relaunched in
  let s' := checkAndRestoreState toString false s in
  gs_timestamp (gameState (dataManager s)) <> 0
  /\ now s - gs_timestamp (gameState (dataManager s)) < 24 * 60 * 60 * 1000
  /\ teamsData (dataManager s') = [("Red", ["Ann"; "Bo"])]
  /\ scoreLogs (dataManager s') = []
  /\ storedMatchConfig s' = (defaultGameSettings, M)
  /\ gameSettings s' = defaultGameSettings
  /\ abbaStart s' = M.
Proof.
  intros s s'.
  assert (H1 : gs_timestamp (gameState (dataManager s)) <> 0)
    by (vm_compute; discriminate).
  assert (H2 : now s - gs_timestamp (gameState (dataManager s))
               < 24 * 60 * 60 * 1000)
    by (vm_compute; reflexivity).
  destruct (refused_restore_resets_configuration toString s H1 H2)
    as (Hteams & Hlogs & _ & Hstored & Hsettings & Habba & _).
  exact (conj H1 (conj H2 (conj Hteams (conj Hlogs
          (conj Hstored (conj Hsettings Habba)))))).
Defined.

(** C5 as stated fails on that relaunch: the snapshot held a match of
    eighty minutes with the sequence starting at F; after the refusal
    both the stored and the running configuration are the defaults. *)
Lemma refused_restore_loses_configuration_counterexample :
  let s := relaunched in
  let s' := checkAndRestoreState toString false s in
  storedMatchConfig s = (mkSettings 80 40 7 75 2 0, F)
  /\ storedMatchConfig s' = (mkSettings 100 55 7 75 2 0, M)
  /\ gameSettings s' = mkSettings 100 55 7 75 2 0
  /\ storedMatchConfig s' <> storedMatchConfig s.
Proof.
  intros s s'. split; [|split; [|split]].
  - vm_compute. reflexivity.
  - vm_compute. reflexivity.
  - vm_compute. reflexivity.
  - vm_compute. discriminate.
Qed.

(** C6 as stated fails on a match with one goal: the Event column of the
    goal's row is [Score], not empty. *)
Lemma export_event_column_counterexample :
  let s := run toString (opening ++ goal TeamA) (freshApp kickoff) in
  map Type_ (scoreLogs (dataManager s)) = [matchstart; score]
  /\ map eventColumn (tl (exportRows s)) = ["Start"; "Score"]
  /\ nth 1 (map eventColumn (tl (exportRows s))) EmptyString <> EmptyString.
Proof.
  intros s. split; [|split].
  - vm_compute. reflexivity.
  - vm_compute. reflexivity.
  - vm_compute. discriminate.
Qed.

(** C1.  The scoreboard and the log disagree after a launch over a stale
    snapshot.  The application is opened twenty-five hours after a session
    in which team A scored once.  The stored log is loaded, the snapshot is
    older than twenty-four hours, so no restore is offered whatever the
    operator would answer, and nothing recounts or clears: the log holds
    team A's goal under a scoreboard of 0-0.  The operator starts a match
    and team B scores: the maintained scoreboard reads 0-1, the
    recomputation from the log 1-1, and a rebuild puts 1-1 on the board.
    Opened one hour after the session instead, either answer to the
    restore prompt makes the two agree: accepted, the board is recounted
    from the log to 1-0; refused, the log is cleared. *)
Theorem stale_launch_breaks_recomputation :
  let stale := reopened toString 25 in
  let s := run toString (opening ++ goal TeamB) stale in
  let recent := reopened toString 1 in
  let accepted := checkAndRestoreState toString true recent in
  let refused := checkAndRestoreState toString false recent in
  checkAndRestoreState toString true stale = stale
  /\ checkAndRestoreState toString false stale = stale
  /\ map Type_ (scoreLogs (dataManager stale)) = [matchstart; score]
  /\ (teamAScore stale, teamBScore stale) = (0, 0)
  /\ tally stale (scoreLogs (dataManager stale)) = (1, 0)
  /\ map Type_ (scoreLogs (dataManager s))
     = [matchstart; score; matchstart; score]
  /\ (teamAScore s, teamBScore s) = (0, 1)
  /\ tally s (scoreLogs (dataManager s)) = (1, 1)
  /\ computeScoreboard (scoreLogs (dataManager s)) = (1, 1)
  /\ (teamAScore (rebuildTableAndCounters toString s),
      teamBScore (rebuildTableAndCounters toString s)) = (1, 1)
  /\ (teamAScore accepted, teamBScore accepted)
     = tally accepted (scoreLogs (dataManager accepted))
  /\ (teamAScore accepted, teamBScore accepted) = (1, 0)
  /\ scoreLogs (dataManager refused) = []
  /\ (teamAScore refused, teamBScore refused) = (0, 0).
Proof.
  intros stale s recent accepted refused.
  repeat (split; [vm_compute; reflexivity|]).
  vm_compute. reflexivity.
Qed.

(** C9.  Event ids are not unique.  An id is the clock reading at the
    time of the append, so two entries appended at the same reading share
    it: when team A's eighth goal triggers the halftime, the goal and the
    halftime entry carry the same id.  Lookup by that id finds the goal,
    and removing the halftime through its id removes the goal instead:
    the halftime entry stays and the scoreboard drops to seven. *)
Theorem event_ids_collide :
  let s := run toString eightGoals (freshApp kickoff) in
  let logs := scoreLogs (dataManager s) in
  let s' := run toString [OpenHalftimeEdit "1700000008000"; DeleteHalftime] s in
  exists goalEntry halftimeEntry,
    nth_error logs 8 = Some goalEntry
    /\ nth_error logs 9 = Some halftimeEntry
    /\ Type_ goalEntry = score
    /\ Type_ halftimeEntry = halftime
    /\ scoreID goalEntry = scoreID halftimeEntry
    /\ getScoreLog (scoreID halftimeEntry) (dataManager s) = Some goalEntry
    /\ teamAScore s = 8
    /\ teamAScore s' = 7
    /\ map Type_ (scoreLogs (dataManager s'))
       = [matchstart; score; score; score; score; score; score; score; halftime].
Proof.
  intros s logs s'.
  assert (H8 : exists e, nth_error logs 8 = Some e)
    by (vm_compute; eexists; reflexivity).
  assert (H9 : exists e, nth_error logs 9 = Some e)
    by (vm_compute; eexists; reflexivity).
  destruct H8 as [goalEntry H8]. destruct H9 as [halftimeEntry H9].
  exists goalEntry, halftimeEntry.
  vm_compute in H8, H9.
  injection H8 as <-. injection H9 as <-.
  refine (conj _ (conj _ (conj _ (conj _ (conj _ (conj _ (conj _ (conj _ _))))))));
    vm_compute; reflexivity.
Qed.


(** ** The further properties on examples *)

(** Three rows with a comma, a quote and an empty first field are read back
    as written. *)
Lemma parseCSV_toCSVLine_witness :
  let rows :=
    [["GameID"; "Time"; "Event"];
     ["Red vs Blue"; "1, 2 and 3"; String dquote "quoted"];
     [EmptyString; "after an empty field"]] in
  Forall (fun row => properRow row = true) rows
  /\ Forall (Forall (fun field => hasChar 13 field = false)) rows
  /\ parseCSV (join CRLF (map toCSVLine rows)) = rows.
Proof.
  intros rows.
  assert (Hp : Forall (fun row => properRow row = true) rows)
    by (repeat constructor).
  assert (Hcr : Forall (Forall (fun field => hasChar 13 field = false)) rows)
    by (repeat constructor).
  exact (conj Hp (conj Hcr (parseCSV_toCSVLine rows Hp Hcr))).
Defined.

(** The export of a match with one goal reads back as the header and the two
    log rows. *)
Lemma exported_csv_reads_back_witness :
  let s := run toString (opening ++ goal TeamA) (freshApp kickoff) in
  scoreLogs (dataManager s) <> []
  /\ Forall (Forall (fun field => hasChar 13 field = false)) (exportRows s)
  /\ exists filename csv,
       snd (handleSubmitScore toString None s) = Some (filename, csv)
       /\ parseCSV csv
          = csvHeader
            :: map (exportFields (currentGameID s)) (scoreLogs (dataManager s)).
Proof.
  intros s.
  assert (Hlogs : scoreLogs (dataManager s) <> []) by (vm_compute; discriminate).
  assert (Hcr : Forall (Forall (fun field => hasChar 13 field = false))
                  (exportRows s))
    by (vm_compute; repeat constructor).
  exact (conj Hlogs (conj Hcr (exported_csv_reads_back toString None s Hlogs Hcr))).
Defined.

(** A name padded with a space and a no-break space and holding a colon
    loses the padding and the colon and keeps its trimmed length; a name
    of white space only, a no-break space included, becomes [Game]. *)
Lemma sanitizeFilename_safe_witness :
  let name := String nbsp " Red vs Blue: final " in
  let blank := String " " (String nbsp EmptyString) in
  (0 < String.length (trim name) <= 120)%nat
  /\ String.length (sanitizeFilename name) = String.length (trim name)
  /\ sanitizeFilename name = "Red vs Blue_ final"
  /\ trim blank = EmptyString
  /\ sanitizeFilename blank = "Game".
Proof.
  intros name blank.
  assert (Hlen : (0 < String.length (trim name) <= 120)%nat)
    by (vm_compute; split; repeat constructor).
  assert (Hblank : trim blank = EmptyString) by reflexivity.
  destruct (sanitizeFilename_safe name) as (_ & _ & _ & _ & Hkeep).
  destruct (sanitizeFilename_safe blank) as (_ & _ & _ & Hgame & _).
  exact (conj Hlen (conj (Hkeep Hlen) (conj eq_refl (conj Hblank (Hgame Hblank))))).
Defined.

(** A header cell holding only a no-break space lies between two teams:
    the second team reads the second column, not the third, and a player
    padded with no-break spaces comes back trimmed. *)
Lemma csvToTeamsMap_lookup_witness :
  let first := ["Red"; String nbsp EmptyString; "Blue"] in
  let body :=
    [["Ann"; "Bo"; "Cy"];
     [String nbsp ("Dee" ++ String nbsp EmptyString); EmptyString; EmptyString]] in
  "Blue" <> "__proto__"
  /\ lookupTeam "Blue" (csvToTeamsMap (first :: body)) = Some ["Bo"]
  /\ Forall (fun player => player <> EmptyString /\ trim player = player) ["Bo"]
  /\ lookupTeam "Red" (csvToTeamsMap (first :: body)) = Some ["Ann"; "Dee"].
Proof.
  intros first body.
  assert (E : lookupTeam "Blue" (csvToTeamsMap (first :: body)) = Some ["Bo"])
    by reflexivity.
  assert (Hname : "Blue" <> "__proto__") by discriminate.
  destruct (csvToTeamsMap_lookup first body "Blue" Hname) as (_ & _ & H).
  exact (conj Hname (conj E (conj (H _ E) eq_refl))).
Defined.

(** Removing the goal of a two-entry log: the goal is no longer found, the
    match start still is. *)
Lemma removeScoreLog_lookup_witness :
  let d := dataManager (run toString (opening ++ goal TeamA) (freshApp kickoff)) in
  let d' := fst (removeScoreLog "1700000001000" d) in
  NoDup (map scoreID (scoreLogs d))
  /\ getScoreLog "1700000001000" d' = None
  /\ "1700000000000" <> "1700000001000"
  /\ getScoreLog "1700000000000" d' = getScoreLog "1700000000000" d.
Proof.
  intros d d'.
  assert (Hnd : NoDup (map scoreID (scoreLogs d))).
  { vm_compute. constructor; [intros [H|[]]; discriminate H|].
    constructor; [intros []|constructor]. }
  assert (Hne : "1700000000000" <> "1700000001000") by discriminate.
  destruct (removeScoreLog_lookup "1700000001000" d) as (_ & _ & _ & Hother & Hgone).
  exact (conj Hnd (conj (Hgone Hnd) (conj Hne (Hother _ Hne)))).
Defined.


(** A hundred minutes after the match start the interval callback stops the
    clock at zero. *)
Lemma timerManager_interval_expiry_witness :
  let s :=
    run toString (opening ++ [ClockAdvance (100 * 60 * 1000)]) (freshApp kickoff) in
  isRunning (timerManager s) = true
  /\ endTime (timerManager s) = Some 1700006000000
  /\ getTimeRemaining 1700006000000 (now s) <= 0
  /\ isRunning (timerManager (timerManager_interval s)) = false
  /\ remainingTimeMs (timerManager (timerManager_interval s)) = Some 0.
Proof.
  intros s.
  assert (Hrun : isRunning (timerManager s) = true) by (vm_compute; reflexivity).
  assert (Hend : endTime (timerManager s) = Some 1700006000000)
    by (vm_compute; reflexivity).
  assert (Hle : getTimeRemaining 1700006000000 (now s) <= 0)
    by (vm_compute; discriminate).
  destruct (timerManager_interval_expiry 1700006000000 s) as (_ & H).
  destruct (H Hrun Hend) as (_ & Hexpired & _).
  destruct (Hexpired Hle) as (H1 & _ & H3 & _).
  exact (conj Hrun (conj Hend (conj Hle (conj H1 H3)))).
Defined.

(** A 75 second clock started at second one: a tick at second two leaves it
    running, a tick at second 76 ends it. *)
Lemma secondsTimer_cycle_witness :
  let running := sec_start None 1000 (sec_reset 75 0 newSecondsTimerManager) in
  getTimeRemaining (1000 + Z.max 1 75 * 1000) 76000 <= 0
  /\ sec_remainingTimeMs (sec_tick 76000 running) = Some 0
  /\ 0 < getTimeRemaining (1000 + Z.max 1 75 * 1000) 2000
  /\ sec_tick 2000 running = running.
Proof.
  intros running.
  assert (Hle : getTimeRemaining (1000 + Z.max 1 75 * 1000) 76000 <= 0)
    by (vm_compute; discriminate).
  assert (Hlt : 0 < getTimeRemaining (1000 + Z.max 1 75 * 1000) 2000)
    by (vm_compute; reflexivity).
  destruct (secondsTimer_cycle 75 0 1000 76000 None newSecondsTimerManager)
    as (_ & _ & _ & _ & _ & Hstop & _).
  destruct (secondsTimer_cycle 75 0 1000 2000 None newSecondsTimerManager)
    as (_ & _ & _ & _ & _ & _ & Hkeep).
  destruct (Hstop Hle) as (_ & _ & Hzero).
  exact (conj Hle (conj Hzero (conj Hlt (Hkeep Hlt)))).
Defined.

(** During a stoppage the play button of the stopped main clock only
    notifies. *)
Lemma clocks_blocked_witness :
  let s := run toString (opening ++ [ToggleStoppage]) (freshApp kickoff) in
  gameStoppageActive s = true
  /\ isRunning (timerManager s) = false
  /\ exists message type, handleTimerToggle s = showNotification message type s.
Proof.
  intros s.
  assert (Hg : gameStoppageActive s = true) by (vm_compute; reflexivity).
  assert (Hrun : isRunning (timerManager s) = false) by (vm_compute; reflexivity).
  destruct (clocks_blocked s (or_introl Hg)) as (H & _).
  exact (conj Hg (conj Hrun (H Hrun))).
Defined.

(** Without team names the match is not started and nothing is logged. *)
Lemma startMatch_refused_witness :
  let s := freshApp kickoff in
  matchStarted s = false
  /\ trim (teamA s) = EmptyString
  /\ matchStarted (startMatch toString s) = false
  /\ scoreLogs (dataManager (startMatch toString s)) = scoreLogs (dataManager s).
Proof.
  intros s.
  assert (Hs : matchStarted s = false) by reflexivity.
  assert (Hblank : trim (teamA s) = EmptyString) by reflexivity.
  destruct (startMatch_refused toString s) as (_ & H).
  destruct (H Hs (or_introl Hblank)) as (_ & H1 & H2 & _).
  exact (conj Hs (conj Hblank (conj H1 H2))).
Defined.

(** With both teams chosen the match starts on the default hundred minutes. *)
Lemma startMatch_accepted_witness :
  let s :=
    run toString [SelectTeam TeamA "Red"; SelectTeam TeamB "Blue"]
      (freshApp kickoff) in
  matchStarted s = false
  /\ trim (teamA s) <> EmptyString /\ trim (teamB s) <> EmptyString
  /\ gameStoppageActive s = false
  /\ isValidDate (now s) = true
  /\ isValidDate (now s + 100 * 60 * 1000) = true
  /\ matchStarted (startMatch toString s) = true
  /\ timerManager (startMatch toString s)
     = mkTimer true (Some (kickoff + 100 * 60 * 1000)) None 100.
Proof.
  intros s.
  assert (Hs : matchStarted s = false) by (vm_compute; reflexivity).
  assert (HA : trim (teamA s) <> EmptyString) by (vm_compute; discriminate).
  assert (HB : trim (teamB s) <> EmptyString) by (vm_compute; discriminate).
  assert (Hg : gameStoppageActive s = false) by (vm_compute; reflexivity).
  assert (Hn : isValidDate (now s) = true) by (vm_compute; reflexivity).
  assert (Hd : isValidDate (now s + 100 * 60 * 1000) = true)
    by (vm_compute; reflexivity).
  destruct (startMatch_accepted toString s Hs HA HB Hg Hn Hd) as (H1 & _ & H3 & _).
  refine (conj Hs (conj HA (conj HB (conj Hg (conj Hn (conj Hd
            (conj H1 (eq_trans H3 _)))))))).
  vm_compute. reflexivity.
Defined.

(** Before the match start a halftime is refused, silently when asked so. *)
Lemma handleHalftime_refused_witness :
  let s := freshApp kickoff in
  matchStarted s = false
  /\ snd (handleHalftime toString false "manual" s) = false
  /\ fst (handleHalftime toString true "score" s) = s.
Proof.
  intros s.
  assert (Hs : matchStarted s = false) by reflexivity.
  destruct (handleHalftime_refused toString false "manual" s (or_intror Hs))
    as (H1 & _).
  destruct (handleHalftime_refused toString true "score" s (or_intror Hs))
    as (_ & H2 & _).
  exact (conj Hs (conj H1 (H2 eq_refl))).
Defined.


(** The first timeout of team A leaves it one of two, and team B both. *)
Lemma handleTimeout_accepted_witness :
  let s := run toString opening (freshApp kickoff) in
  let s' := handleTimeout toString TeamA s in
  matchStarted s = true
  /\ gameStoppageActive s = false
  /\ 0 < totalRemaining (teamState (timeoutState s) TeamA)
  /\ usesPerHalfTimeouts s = false
  /\ teamState (timeoutState s') TeamA = mkTeamTimeouts 1 1
  /\ teamState (timeoutState s') TeamB = teamState (timeoutState s) TeamB.
Proof.
  intros s s'.
  assert (Hs : matchStarted s = true) by (vm_compute; reflexivity).
  assert (Hg : gameStoppageActive s = false) by (vm_compute; reflexivity).
  assert (Ht : 0 < totalRemaining (teamState (timeoutState s) TeamA))
    by (vm_compute; reflexivity).
  assert (Hu : usesPerHalfTimeouts s = false) by (vm_compute; reflexivity).
  assert (Hh : usesPerHalfTimeouts s = true ->
               0 < halfRemaining (teamState (timeoutState s) TeamA))
    by (intros H; rewrite Hu in H; discriminate H).
  assert (Hne : TeamB <> TeamA) by discriminate.
  destruct (handleTimeout_accepted toString TeamA TeamB s Hs Hg Ht Hh Hne)
    as (H1 & H2 & _).
  refine (conj Hs (conj Hg (conj Ht (conj Hu (conj (eq_trans H1 _) H2))))).
  vm_compute. reflexivity.
Defined.

(** Submit after one goal leaves an empty log at 0-0; Submit with an empty
    log exports nothing. *)
Lemma handleSubmitScore_resets_witness :
  let s := run toString (opening ++ goal TeamA) (freshApp kickoff) in
  let s' := fst (handleSubmitScore toString None s) in
  scoreLogs (dataManager s) <> []
  /\ (teamAScore s, teamBScore s) = (1, 0)
  /\ scoreLogs (dataManager s') = []
  /\ (teamAScore s', teamBScore s') = (0, 0)
  /\ scoreLogs (dataManager (freshApp kickoff)) = []
  /\ snd (handleSubmitScore toString None (freshApp kickoff)) = None.
Proof.
  intros s s'.
  assert (Hlogs : scoreLogs (dataManager s) <> []) by (vm_compute; discriminate).
  assert (Hscore : (teamAScore s, teamBScore s) = (1, 0))
    by (vm_compute; reflexivity).
  assert (Hempty : scoreLogs (dataManager (freshApp kickoff)) = []) by reflexivity.
  destruct (handleSubmitScore_resets toString None s) as (_ & H).
  destruct (H Hlogs) as (H1 & H2 & _).
  destruct (handleSubmitScore_resets toString None (freshApp kickoff)) as (K & _).
  exact (conj Hlogs (conj Hscore (conj H1 (conj H2
           (conj Hempty (f_equal snd (K Hempty))))))).
Defined.

(** A form out of range on every side is brought into range. *)
Lemma handleSetupSave_effect_witness :
  let form :=
    mkSetupForm (Some 500) (Some 0) (Some 75) (Some 3) (Some 7) (Some 10) None in
  let g := gameSettings (handleSetupSave toString form (freshApp kickoff)) in
  g = mkSettings 300 1 10 75 3 3
  /\ 1 <= matchDuration g <= 300
  /\ 1 <= halftimeDuration g <= matchDuration g
  /\ 0 <= timeoutsPerHalf g <= timeoutsTotal g.
Proof.
  intros form g.
  destruct (handleSetupSave_effect toString form (freshApp kickoff))
    as (Hg & _ & Hfull & _).
  destruct (Hfull 500 0 75 3 7 10 None eq_refl) as (H1 & H2 & _ & _ & H5 & _).
  refine (conj (eq_trans Hg _) (conj H1 (conj H2 H5))).
  vm_compute. reflexivity.
Defined.

(** Starting on F, points five to eight read M M F F, and point nine as
    point five. *)
Lemma computeAbbaForIndex_cycle_witness :
  0 <= 5 /\ F <> NONE
  /\ computeAbbaForIndex F (5 + 4) = computeAbbaForIndex F 5
  /\ map (fun k => computeAbbaForIndex F (5 + k)) [0; 1; 2; 3] = ["M"; "M"; "F"; "F"].
Proof.
  assert (H0 : 0 <= 5) by discriminate.
  assert (Hstart : F <> NONE) by discriminate.
  destruct (computeAbbaForIndex_cycle F 5 H0 Hstart) as (_ & H & _).
  exact (conj H0 (conj Hstart (conj H eq_refl))).
Defined.

(** Deleting the only goal takes the point off team A. *)
Lemma handleDeleteScore_scoreboard_witness :
  let s :=
    run toString (opening ++ goal TeamA ++ [EditScore "1700000001000"])
      (freshApp kickoff) in
  Consistent s
  /\ selectedID (currentEditID s) = Some "1700000001000"
  /\ teamAScore s = 1
  /\ teamAScore (handleDeleteScore toString s) = teamAScore s - 1
  /\ teamBScore (handleDeleteScore toString s) = teamBScore s - 0.
Proof.
  intros s.
  assert (C : Consistent s) by apply Consistent_run, Consistent_freshApp.
  assert (Hsel : selectedID (currentEditID s) = Some "1700000001000")
    by (vm_compute; reflexivity).
  assert (Hget : exists removed,
            getScoreLog "1700000001000" (dataManager s) = Some removed
            /\ scoredBy TeamA removed = true /\ scoredBy TeamB removed = false)
    by (vm_compute; eexists; repeat split).
  destruct Hget as (removed & Hget & HA & HB).
  destruct (handleDeleteScore_scoreboard toString s) as (_ & H).
  destruct (H _ _ C Hsel Hget) as (H1 & H2 & _).
  rewrite HA in H1. rewrite HB in H2.
  refine (conj C (conj Hsel (conj _ (conj H1 H2)))).
  vm_compute. reflexivity.
Defined.

(** Editing the only goal of a match changes its scorer and closes the
    selection; editing an unknown id leaves the log alone.  After team B's
    eighth goal, whose id the halftime entry shares, the table write of
    the edit fails: the log is rewritten and the selection stays open. *)
Lemma updateExistingScore_effect_witness :
  let s :=
    run toString (opening ++ goal TeamA ++ [EditScore "1700000001000"])
      (freshApp kickoff) in
  let s' := updateExistingScore "1700000001000" "Cy" "Dee" s in
  let c :=
    run toString
      (opening ++ List.concat (repeat (goal TeamB) 8)
       ++ [EditScore "1700000008000"])
      (freshApp kickoff) in
  let c' := updateExistingScore "1700000008000" "Cy" "Dee" c in
  (exists edited,
      getScoreLog "1700000001000" (dataManager s) = Some edited
      /\ isScoreLog edited = true)
  /\ NoDup (map scoreID (scoreLogs (dataManager s)))
  /\ currentEditID s' = None
  /\ map Score (scoreLogs (dataManager s')) = [EmptyString; "Cy"]
  /\ getScoreLog "none" (dataManager s) = None
  /\ scoreLogs (dataManager (updateExistingScore "none" "Cy" "Dee" s))
     = scoreLogs (dataManager s)
  /\ (exists edited, getScoreLog "1700000008000" (dataManager c) = Some edited)
  /\ popupTeam c = Some TeamB
  /\ updateScoreInTable "1700000008000" c = false
  /\ currentEditID c' = Some "1700000008000"
  /\ map Score (scoreLogs (dataManager c'))
     = [EmptyString; "Ann"; "Ann"; "Ann"; "Ann"; "Ann"; "Ann"; "Ann"; "Cy";
        EmptyString].
Proof.
  intros s s' c c'.
  assert (Hget : exists edited,
            getScoreLog "1700000001000" (dataManager s) = Some edited
            /\ isScoreLog edited = true)
    by (vm_compute; eexists; split; reflexivity).
  assert (Hnd : NoDup (map scoreID (scoreLogs (dataManager s)))).
  { vm_compute.
    repeat (constructor;
            [cbn [In]; intros H;
             repeat (destruct H as [H|H]; [discriminate H|]); exact H|]).
    constructor. }
  assert (Hnone : getScoreLog "none" (dataManager s) = None)
    by (vm_compute; reflexivity).
  assert (Hgetc : exists edited,
            getScoreLog "1700000008000" (dataManager c) = Some edited)
    by (vm_compute; eexists; reflexivity).
  assert (Hteam : popupTeam c = Some TeamB) by (vm_compute; reflexivity).
  assert (Hfails : updateScoreInTable "1700000008000" c = false)
    by (vm_compute; reflexivity).
  assert (Hopen : currentEditID c = Some "1700000008000")
    by (vm_compute; reflexivity).
  destruct Hget as (edited & Hget & Hscore).
  destruct Hgetc as (editedc & Hgetc).
  destruct (updateExistingScore_effect "1700000001000" "Cy" "Dee" s)
    as (_ & _ & H).
  destruct (H edited Hget) as (_ & _ & _ & _ & Hclosed).
  destruct (updateExistingScore_effect "none" "Cy" "Dee" s) as (_ & K & _).
  destruct (K Hnone) as (K1 & _).
  destruct (updateExistingScore_effect "1700000008000" "Cy" "Dee" c)
    as (_ & _ & Hc).
  destruct (Hc editedc Hgetc) as (_ & _ & Hsel & _).
  rewrite Hfails, Hopen in Hsel.
  refine (conj (ex_intro _ edited (conj Hget Hscore))
            (conj Hnd (conj (Hclosed Hscore Hnd) (conj _ (conj Hnone (conj K1
              (conj (ex_intro _ editedc Hgetc) (conj Hteam (conj Hfails
                (conj Hsel _)))))))))).
  - vm_compute. reflexivity.
  - vm_compute. reflexivity.
Defined.

(** The dialogue is refused before the match start; once open, saving needs
    both names. *)
Lemma score_dialogue_witness :
  let s := freshApp kickoff in
  let started := run toString opening (freshApp kickoff) in
  matchStarted s = false
  /\ (exists message type,
        openPopup TeamA s = showNotification message type s
        /\ (type = error \/ type = warning))
  /\ matchStarted started = true /\ hardCapReached started = false
  /\ popupTeam (openPopup TeamA started) = Some TeamA
  /\ handleSaveScore toString "Ann" "Bo" (openPopup TeamA started)
     = addNewScore toString TeamA "Ann" "Bo" (openPopup TeamA started)
  /\ handleSaveScore toString "Ann" EmptyString (openPopup TeamA started)
     = showNotification "Please select both scorer and assist." error
         (openPopup TeamA started).
Proof.
  intros s started.
  assert (Hs : matchStarted s = false) by reflexivity.
  assert (Hm : matchStarted started = true) by (vm_compute; reflexivity).
  assert (Hc : hardCapReached started = false) by (vm_compute; reflexivity).
  destruct (score_dialogue toString TeamA "Ann" "Bo" s) as (H1 & _).
  destruct (score_dialogue toString TeamA "Ann" "Bo" started) as (_ & H2 & _).
  assert (Hp : popupTeam (openPopup TeamA started) = Some TeamA)
    by (rewrite (H2 Hm Hc); reflexivity).
  destruct (score_dialogue toString TeamA "Ann" "Bo" (openPopup TeamA started))
    as (_ & _ & _ & H4).
  destruct (score_dialogue toString TeamA "Ann" EmptyString
              (openPopup TeamA started)) as (_ & _ & H3 & _).
  assert (Hn : "Ann" <> EmptyString) by discriminate.
  assert (Hb : "Bo" <> EmptyString) by discriminate.
  refine (conj Hs (conj (H1 (or_introl Hs)) (conj Hm (conj Hc (conj Hp
            (conj (eq_trans (H4 TeamA Hp Hn Hb) _)
               (H3 (or_intror (or_intror eq_refl))))))))).
  rewrite (H2 Hm Hc). reflexivity.
Defined.

(** At fifteen points the cap flag is raised and the running clock stopped. *)
Lemma checkForScoreCap_effect_witness :
  let s := set_teamAScore 15 (run toString opening (freshApp kickoff)) in
  let s' := checkForScoreCap false s in
  (15 <=? teamAScore s) || (15 <=? teamBScore s) = true
  /\ hardCapReached s = false
  /\ isRunning (timerManager s) = true
  /\ hardCapReached s' = true
  /\ isRunning (timerManager s') = false.
Proof.
  intros s s'.
  assert (Hr : (15 <=? teamAScore s) || (15 <=? teamBScore s) = true)
    by (vm_compute; reflexivity).
  assert (Hc : hardCapReached s = false) by (vm_compute; reflexivity).
  assert (Hrun : isRunning (timerManager s) = true) by (vm_compute; reflexivity).
  destruct (checkForScoreCap_effect false s) as (H1 & _ & H3 & _).
  destruct (H3 Hr Hc) as (H4 & _).
  exact (conj Hr (conj Hc (conj Hrun (conj (eq_trans H1 Hr) H4)))).
Defined.

(** A timeout before the match start only notifies. *)
Lemma handleTimeout_blocked_witness :
  let s := freshApp kickoff in
  matchStarted s = false
  /\ exists message type,
       handleTimeout toString TeamA s = showNotification message type s
       /\ (type = error \/ type = warning).
Proof.
  intros s.
  assert (Hs : matchStarted s = false) by reflexivity.
  exact (conj Hs (handleTimeout_blocked toString TeamA s (or_introl Hs))).
Defined.

(** Over a stored log the scoreboard is recounted from the log; over an
    empty log the snapshot scores stand. *)
Lemma restoreGameState_effect_witness :
  let played := run toString (opening ++ goal TeamA) (freshApp kickoff) in
  let logs := scoreLogs (dataManager played) in
  logs <> [] /\ Forall createdByApp logs
  /\ (gs_teamAScore savedSnapshot, gs_teamBScore savedSnapshot) = (3, 2)
  /\ (teamAScore (restoreGameState toString savedSnapshot played),
      teamBScore (restoreGameState toString savedSnapshot played)) = (1, 0)
  /\ scoreLogs (dataManager relaunched) = []
  /\ (teamAScore (restoreGameState toString savedSnapshot relaunched),
      teamBScore (restoreGameState toString savedSnapshot relaunched)) = (3, 2)
  /\ gameSettings (restoreGameState toString savedSnapshot relaunched)
     = mkSettings 80 40 7 75 2 0.
Proof.
  intros played logs.
  assert (Hlogs : logs <> []) by (vm_compute; discriminate).
  assert (HF : Forall createdByApp logs).
  { assert (C : Consistent played) by apply Consistent_run, Consistent_freshApp.
    destruct C as (_ & _ & C). exact C. }
  assert (Hempty : scoreLogs (dataManager relaunched) = []) by reflexivity.
  destruct (restoreGameState_effect toString savedSnapshot played)
    as (_ & _ & _ & H & _).
  destruct (restoreGameState_effect toString savedSnapshot relaunched)
    as (K1 & _ & K2 & _).
  refine (conj Hlogs (conj HF (conj eq_refl (conj (eq_trans (H Hlogs HF) _)
            (conj Hempty (conj (K2 Hempty) K1)))))).
  vm_compute. reflexivity.
Defined.

(** The snapshot of a started match restores its teams, its settings and the
    started flag. *)
Lemma autoSave_restore_round_trip_witness :
  let s := run toString opening (freshApp kickoff) in
  let g := gameState (dataManager (autoSave s)) in
  let restored := restoreGameState toString g (freshApp kickoff) in
  isRestoring s = false
  /\ gameSettings restored = gameSettings s
  /\ (teamA restored, teamB restored) = ("Red", "Blue")
  /\ matchStarted restored = true.
Proof.
  intros s g restored.
  assert (Hr : isRestoring s = false) by (vm_compute; reflexivity).
  destruct (autoSave_restore_round_trip toString s (freshApp kickoff) Hr)
    as (_ & _ & H1 & H2 & H3 & H4 & _).
  refine (conj Hr (conj H1 (conj _ _))).
  - refine (eq_trans (f_equal2 pair H3 H4) _). vm_compute. reflexivity.
  - refine (eq_trans (f_equal (fun t => snd (fst t)) H2) _). vm_compute.
    reflexivity.
Defined.

